(** * BasicRetailApp: the invoice lifecycle and totals engine

    A shallow embedding of the registry logic of [src/App.tsx]
    (customer and invoice CRUD, invoice numbering, invoice totals and the
    line-item editor of the invoice form), with the data types of
    [src/types.ts] and the defaults of [src/constants.ts].

    JavaScript numbers are IEEE 754 binary64 values.  They are modelled by
    [spec_float] with the operations of the Standard Library's [SpecFloat]
    at precision 53 and maximal exponent 1024, so every sum and product
    below rounds exactly as the program's does. *)

From Stdlib Require Import ZArith List String Ascii Bool Lia Permutation.
From Stdlib Require Import SpecFloat DecimalString.
Import ListNotations.

Local Open Scope string_scope.
Local Open Scope list_scope.
Local Open Scope Z_scope.

(** ** JavaScript numbers *)

Module Number.

Definition prec : Z := 53.
Definition emax : Z := 1024.

Definition number : Type := spec_float.

(** [x + y] and [x * y] on numbers. *)
Definition add (x y : number) : number := SFadd prec emax x y.
Definition mul (x y : number) : number := SFmul prec emax x y.
Definition div (x y : number) : number := SFdiv prec emax x y.

(** The number denoted by an integer literal (rounded to nearest even
    when the integer needs more than 53 bits). *)
Definition of_Z (z : Z) : number := binary_normalize prec emax z 0 false.

Definition zero : number := S754_zero false.
Definition one : number := of_Z 1.
Definition NaN : number := S754_nan.

(** [isNaN(x)]. *)
Definition isNaN (x : number) : bool :=
  match x with S754_nan => true | _ => false end.

(** ToBoolean on a number: [NaN], [+0] and [-0] are falsy. *)
Definition truthy (x : number) : bool :=
  match x with
  | S754_nan | S754_zero _ => false
  | _ => true
  end.

(** [x || 0]. *)
Definition or_zero (x : number) : number := if truthy x then x else zero.


(** The two numbers denote the same value: both are [NaN], or both are a
    zero of either sign, or they are the same number (SameValueZero). *)
Definition same_value (x y : number) : Prop :=
  match x, y with
  | S754_zero _, S754_zero _ => True
  | _, _ => x = y
  end.

(** The integer a number denotes, when it is finite and integral. *)
Definition to_Z (x : number) : option Z :=
  match x with
  | S754_zero _ => Some 0
  | S754_finite s m e =>
      if 0 <=? e then Some (cond_Zopp s (Zpos m * 2 ^ e))
      else if Zpos m mod 2 ^ (- e) =? 0
           then Some (cond_Zopp s (Zpos m / 2 ^ (- e)))
           else None
  | _ => None
  end.

(** [Number.MAX_SAFE_INTEGER], 2^53 - 1. *)
Definition MAX_SAFE_INTEGER : Z := 2 ^ 53 - 1.

Definition safe_integer (z : Z) : Prop := Z.abs z <= MAX_SAFE_INTEGER.

Definition is_safe (z : Z) : bool := Z.abs z <=? MAX_SAFE_INTEGER.

(** *** Normal forms of integers

    [shifted k c] is [c * 2^k]; [norm s c] is the number denoting the
    integer [c] of at most 53 bits with sign [s], with its mantissa
    shifted to 53 bits. *)
Definition shifted (k : nat) (c : positive) : positive := Nat.iter k xO c.

Definition digits (c : positive) : Z := Zpos (digits2_pos c).

Definition norm (s : bool) (c : positive) : number :=
  S754_finite s (shifted (Z.to_nat (53 - digits c)) c) (digits c - 53).

Definition signed (s : bool) (c : positive) : Z := cond_Zopp s (Zpos c).

End Number.

Export Number(number).

(** ** JavaScript strings *)

Module JSString.

(** Decimal numeral of an integer, as [Number.prototype.toString] and
    template literals print an integral number. *)
Definition decimal (z : Z) : string := NilZero.string_of_int (Z.to_int z).

(** [n] characters taken cyclically from [filler], continuing at [rest]. *)
Fixpoint fill (n : nat) (filler rest : string) : string :=
  match n with
  | O => ""
  | S n' =>
      match rest with
      | String c r => String c (fill n' filler r)
      | EmptyString =>
          match filler with
          | String c r => String c (fill n' filler r)
          | EmptyString => ""
          end
      end
  end.

(** [s.padStart(targetLength, padString)]. *)
Definition padStart (targetLength : nat) (padString s : string) : string :=
  if (targetLength <=? String.length s)%nat || (padString =? "")%string
  then s
  else (fill (targetLength - String.length s) padString padString ++ s)%string.

(** The string made of [n] characters ['0']. *)
Fixpoint zeros (n : nat) : string :=
  match n with
  | O => ""
  | S n' => String "0"%char (zeros n')
  end.

End JSString.

(** ** Built-ins of the JavaScript runtime that the program calls

    [parseFloat] is used by the line-item editor.  [toString_other] is
    [Number.prototype.toString] on the finite numbers that are not safe
    integers (fractions and magnitudes from 2^53 on), where the result is
    the shortest decimal that reads back as the same number. *)

Record Runtime : Type := {
  parseFloat : string -> number;
  toString_other : number -> string
}.

Module NumberFormat.

Import Number.

(** [x.toString()] for a number [x]. *)
Definition toString (rt : Runtime) (x : number) : string :=
  match x with
  | S754_nan => "NaN"
  | S754_infinity false => "Infinity"
  | S754_infinity true => "-Infinity"
  | S754_zero _ => "0"
  | S754_finite _ _ _ =>
      match to_Z x with
      | Some z => if is_safe z then JSString.decimal z else toString_other rt x
      | None => toString_other rt x
      end
  end.

End NumberFormat.

(** ** Data model ([src/types.ts]) *)

Module Customer.
Record t : Type := {
  id : string;
  name : string;
  phone : string;
  whatsapp : option string;
  email : option string;
  address : option string;
  createdAt : string;
  updatedAt : string
}.

(** [{ ...c, updatedAt: now }]. *)
Definition with_updatedAt (c : t) (now : string) : t :=
  {| id := id c; name := name c; phone := phone c; whatsapp := whatsapp c;
     email := email c; address := address c; createdAt := createdAt c;
     updatedAt := now |}.
End Customer.

(** [Omit<Customer, 'id' | 'createdAt' | 'updatedAt'>]. *)
Module CustomerData.
Record t : Type := {
  name : string;
  phone : string;
  whatsapp : option string;
  email : option string;
  address : option string
}.
End CustomerData.

Module InvoiceItem.
Record t : Type := {
  id : string;
  description : string;
  quantity : number;
  unitPrice : number;
  total : number
}.
End InvoiceItem.

Inductive InvoiceStatus : Type := Draft | Sent | Paid | Overdue.

Module Invoice.
Record t : Type := {
  id : string;
  customerId : string;
  customerName : string;
  invoiceDate : string;
  dueDate : string;
  items : list InvoiceItem.t;
  subTotal : number;
  taxRate : number;
  taxAmount : number;
  totalAmount : number;
  notes : option string;
  status : InvoiceStatus;
  createdAt : string;
  updatedAt : string
}.
End Invoice.

(** The first argument of [addInvoice].  Its TypeScript type omits
    [status] and the derived fields, but an object that carries more
    properties is still accepted; [supplied_status] is the [status]
    property such an argument may carry at run time. *)
Module NewInvoiceData.
Record t : Type := {
  customerId : string;
  invoiceDate : string;
  dueDate : string;
  taxRate : number;
  notes : option string;
  supplied_status : option InvoiceStatus
}.
End NewInvoiceData.

(** The first argument of [updateInvoice]: it carries [id] and [status]. *)
Module InvoiceUpdate.
Record t : Type := {
  id : string;
  customerId : string;
  invoiceDate : string;
  dueDate : string;
  taxRate : number;
  notes : option string;
  status : InvoiceStatus
}.
End InvoiceUpdate.

Module AppSettings.
Record t : Type := {
  invoicePrefix : string;
  nextInvoiceNumber : number;
  defaultTaxRate : number
}.
End AppSettings.

Inductive NotificationType : Type := success | error | info.

Module Notification.
Record t : Type := {
  id : string;
  message : string;
  type : NotificationType
}.
End Notification.

(** [DEFAULT_SETTINGS] of [src/constants.ts]. *)
Definition DEFAULT_SETTINGS : AppSettings.t :=
  {| AppSettings.invoicePrefix := "INV-";
     AppSettings.nextInvoiceNumber := Number.of_Z 1;
     AppSettings.defaultTaxRate := Number.zero |}.

(** [Pick<Invoice, 'subTotal' | 'taxAmount' | 'totalAmount'>]. *)
Module Totals.
Record t : Type := {
  subTotal : number;
  taxAmount : number;
  totalAmount : number
}.
End Totals.

(** ** The world outside the program

    [new Date()] reads the wall clock and [Math.random()] the random
    generator.  A clock reading is kept as the two views the program takes
    of it; [generateId]'s string
    [Math.random().toString(36).substr(2, 9)] is kept as the drawn value.
    The [k]-th reading and the [k]-th draw are [clock k] and [entropy k]. *)

Module Date.
Record t : Type := {
  getFullYear : Z;
  toISOString : string
}.
End Date.

Record World : Type := {
  clock : nat -> Date.t;
  clock_reads : nat;
  entropy : nat -> string;
  draws : nat
}.

(** ** The state of the [App] component *)

Record AppState : Type := {
  customers : list Customer.t;
  invoices : list Invoice.t;
  settings : AppSettings.t;
  notifications : list Notification.t;
  world : World
}.

(** ** Event handlers as state transformers *)

Module Handler.

Definition M (A : Type) : Type := AppState -> A * AppState.

Definition ret {A} (a : A) : M A := fun st => (a, st).

Definition bind {A B} (m : M A) (k : A -> M B) : M B :=
  fun st => let '(a, st') := m st in k a st'.

Definition run {A} (m : M A) (st : AppState) : A * AppState := m st.
Definition exec {A} (m : M A) (st : AppState) : AppState := snd (m st).
Definition eval {A} (m : M A) (st : AppState) : A := fst (m st).

(** Reading the component's state. *)
Definition gets {A} (f : AppState -> A) : M A := fun st => (f st, st).

(** [setCustomers(prev => f(prev))] and its siblings. *)
Definition setCustomers (f : list Customer.t -> list Customer.t) : M unit :=
  fun st => (tt, {| customers := f (customers st); invoices := invoices st;
                    settings := settings st; notifications := notifications st;
                    world := world st |}).

Definition setInvoices (f : list Invoice.t -> list Invoice.t) : M unit :=
  fun st => (tt, {| customers := customers st; invoices := f (invoices st);
                    settings := settings st; notifications := notifications st;
                    world := world st |}).

Definition setSettings (f : AppSettings.t -> AppSettings.t) : M unit :=
  fun st => (tt, {| customers := customers st; invoices := invoices st;
                    settings := f (settings st); notifications := notifications st;
                    world := world st |}).

Definition setNotifications
    (f : list Notification.t -> list Notification.t) : M unit :=
  fun st => (tt, {| customers := customers st; invoices := invoices st;
                    settings := settings st; notifications := f (notifications st);
                    world := world st |}).

Definition setWorld (f : World -> World) : M unit :=
  fun st => (tt, {| customers := customers st; invoices := invoices st;
                    settings := settings st; notifications := notifications st;
                    world := f (world st) |}).

(** [new Date()]: the next clock reading. *)
Definition newDate : M Date.t :=
  fun st =>
    let w := world st in
    (clock w (clock_reads w),
     snd (setWorld (fun w => {| clock := clock w; clock_reads := S (clock_reads w);
                                entropy := entropy w; draws := draws w |}) st)).

(** [generateId()]: the next random draw. *)
Definition generateId : M string :=
  fun st =>
    let w := world st in
    (entropy w (draws w),
     snd (setWorld (fun w => {| clock := clock w; clock_reads := clock_reads w;
                                entropy := entropy w; draws := S (draws w) |}) st)).

End Handler.

Declare Scope handler_scope.
Delimit Scope handler_scope with handler.
Notation "x <- m ;; k" := (Handler.bind m (fun x => k))
  (at level 61, m at next level, right associativity) : handler_scope.
Notation "m ;; k" := (Handler.bind m (fun _ => k))
  (at level 61, right associativity) : handler_scope.

(** ** The registries and the totals engine ([src/App.tsx]) *)

Module App.

Import Handler.
Local Open Scope handler_scope.

(** [customers.find(c => c.id === customerId)]. *)
Definition findCustomerById (cs : list Customer.t) (customerId : string)
    : option Customer.t :=
  find (fun c => Customer.id c =? customerId)%string cs.

(** [invoices.find(inv => inv.id === invoiceId)]. *)
Definition findInvoiceById (invs : list Invoice.t) (invoiceId : string)
    : option Invoice.t :=
  find (fun inv => Invoice.id inv =? invoiceId)%string invs.

(** [items.reduce((sum, item) => sum + item.total, 0)] and the two
    derived amounts. *)
Definition calculateInvoiceTotals (items : list InvoiceItem.t) (taxRate : number)
    : Totals.t :=
  let subTotal :=
    fold_left (fun sum item => Number.add sum (InvoiceItem.total item))
              items Number.zero in
  let taxAmount := Number.mul subTotal taxRate in
  let totalAmount := Number.add subTotal taxAmount in
  {| Totals.subTotal := subTotal;
     Totals.taxAmount := taxAmount;
     Totals.totalAmount := totalAmount |}.

(** [xs.map(f)] for a callback that reads the clock. *)
Fixpoint mapM {A B} (f : A -> M B) (xs : list A) : M (list B) :=
  match xs with
  | [] => ret []
  | x :: xs' => y <- f x ;; ys <- mapM f xs' ;; ret (y :: ys)
  end.

Definition addNotification (message : string) (type : NotificationType)
    : M unit :=
  id <- generateId ;;
  setNotifications (fun prev =>
    prev ++ [ {| Notification.id := id;
                 Notification.message := message;
                 Notification.type := type |} ]).

(** *** Customer CRUD *)

Definition addCustomer (customerData : CustomerData.t) : M unit :=
  id <- generateId ;;
  createdAt <- newDate ;;
  updatedAt <- newDate ;;
  let newCustomer :=
    {| Customer.id := id;
       Customer.name := CustomerData.name customerData;
       Customer.phone := CustomerData.phone customerData;
       Customer.whatsapp := CustomerData.whatsapp customerData;
       Customer.email := CustomerData.email customerData;
       Customer.address := CustomerData.address customerData;
       Customer.createdAt := Date.toISOString createdAt;
       Customer.updatedAt := Date.toISOString updatedAt |} in
  setCustomers (fun prev => prev ++ [newCustomer]) ;;
  addNotification "Customer added successfully" success.

(** The callback of [prev.map] in [updateCustomer]; the clock is read
    once for each record that is replaced. *)
Definition replaceCustomer (updatedCustomer c : Customer.t) : M Customer.t :=
  if (Customer.id c =? Customer.id updatedCustomer)%string
  then now <- newDate ;;
       ret (Customer.with_updatedAt updatedCustomer (Date.toISOString now))
  else ret c.

Definition updateCustomer (updatedCustomer : Customer.t) : M unit :=
  prev <- gets customers ;;
  next <- mapM (replaceCustomer updatedCustomer) prev ;;
  setCustomers (fun _ => next) ;;
  addNotification "Customer updated successfully" success.

Definition deleteCustomer (customerId : string) : M unit :=
  invs <- gets invoices ;;
  if existsb (fun inv => Invoice.customerId inv =? customerId)%string invs
  then addNotification "Cannot delete customer with existing invoices." error
  else
    setCustomers (fun prev =>
      filter (fun c => negb (Customer.id c =? customerId)%string) prev) ;;
    addNotification "Customer deleted successfully" success.

Section WithRuntime.

Variable rt : Runtime.

(** *** Invoice numbering *)

Definition getNextInvoiceId : M string :=
  today <- newDate ;;
  let currentYear := Date.getFullYear today in
  s <- gets settings ;;
  let invoiceNumberStr :=
    JSString.padStart 4 "0"
      (NumberFormat.toString rt (AppSettings.nextInvoiceNumber s)) in
  ret (AppSettings.invoicePrefix s ++ JSString.decimal currentYear
         ++ "-" ++ invoiceNumberStr)%string.

(** *** Invoice CRUD *)

(** In the object literal of [newInvoice] the argument is spread first
    and [status: 'Draft'] comes after it, so a status carried by the
    argument is overwritten. *)
Definition addInvoice (invoiceData : NewInvoiceData.t)
    (items : list InvoiceItem.t) : M (option string) :=
  cs <- gets customers ;;
  match findCustomerById cs (NewInvoiceData.customerId invoiceData) with
  | None =>
      addNotification "Customer not found for invoice." error ;;
      ret None
  | Some customer =>
      let totals :=
        calculateInvoiceTotals items (NewInvoiceData.taxRate invoiceData) in
      id <- getNextInvoiceId ;;
      createdAt <- newDate ;;
      updatedAt <- newDate ;;
      let newInvoice :=
        {| Invoice.id := id;
           Invoice.customerId := NewInvoiceData.customerId invoiceData;
           Invoice.customerName := Customer.name customer;
           Invoice.invoiceDate := NewInvoiceData.invoiceDate invoiceData;
           Invoice.dueDate := NewInvoiceData.dueDate invoiceData;
           Invoice.items := items;
           Invoice.subTotal := Totals.subTotal totals;
           Invoice.taxRate := NewInvoiceData.taxRate invoiceData;
           Invoice.taxAmount := Totals.taxAmount totals;
           Invoice.totalAmount := Totals.totalAmount totals;
           Invoice.notes := NewInvoiceData.notes invoiceData;
           Invoice.status := Draft;
           Invoice.createdAt := Date.toISOString createdAt;
           Invoice.updatedAt := Date.toISOString updatedAt |} in
      setInvoices (fun prev => prev ++ [newInvoice]) ;;
      setSettings (fun s =>
        {| AppSettings.invoicePrefix := AppSettings.invoicePrefix s;
           AppSettings.nextInvoiceNumber :=
             Number.add (AppSettings.nextInvoiceNumber s) Number.one;
           AppSettings.defaultTaxRate := AppSettings.defaultTaxRate s |}) ;;
      addNotification ("Invoice " ++ Invoice.id newInvoice
                         ++ " created successfully")%string success ;;
      ret (Some (Invoice.id newInvoice))
  end.

Definition updateInvoice (updatedInvoiceData : InvoiceUpdate.t)
    (items : list InvoiceItem.t) : M unit :=
  cs <- gets customers ;;
  match findCustomerById cs (InvoiceUpdate.customerId updatedInvoiceData) with
  | None => addNotification "Customer not found for invoice." error
  | Some customer =>
      invs <- gets invoices ;;
      match findInvoiceById invs (InvoiceUpdate.id updatedInvoiceData) with
      | None => addNotification "Original invoice not found for update." error
      | Some originalInvoice =>
          let totals :=
            calculateInvoiceTotals items
              (InvoiceUpdate.taxRate updatedInvoiceData) in
          updatedAt <- newDate ;;
          let updatedInvoice :=
            {| Invoice.id := InvoiceUpdate.id updatedInvoiceData;
               Invoice.customerId := InvoiceUpdate.customerId updatedInvoiceData;
               Invoice.customerName := Customer.name customer;
               Invoice.invoiceDate := InvoiceUpdate.invoiceDate updatedInvoiceData;
               Invoice.dueDate := InvoiceUpdate.dueDate updatedInvoiceData;
               Invoice.items := items;
               Invoice.subTotal := Totals.subTotal totals;
               Invoice.taxRate := InvoiceUpdate.taxRate updatedInvoiceData;
               Invoice.taxAmount := Totals.taxAmount totals;
               Invoice.totalAmount := Totals.totalAmount totals;
               Invoice.notes := InvoiceUpdate.notes updatedInvoiceData;
               Invoice.status := InvoiceUpdate.status updatedInvoiceData;
               Invoice.createdAt := Invoice.createdAt originalInvoice;
               Invoice.updatedAt := Date.toISOString updatedAt |} in
          setInvoices (fun prev =>
            map (fun inv =>
                   if (Invoice.id inv =? Invoice.id updatedInvoice)%string
                   then updatedInvoice else inv) prev) ;;
          addNotification ("Invoice " ++ Invoice.id updatedInvoice
                             ++ " updated successfully")%string success
      end
  end.

Definition deleteInvoice (invoiceId : string) : M unit :=
  setInvoices (fun prev =>
    filter (fun inv => negb (Invoice.id inv =? invoiceId)%string) prev) ;;
  addNotification ("Invoice " ++ invoiceId ++ " deleted successfully")%string
                  success.

(** *** The line-item editor of [InvoiceForm] *)

(** The [field] and [value] arguments of [handleItemChange], by field:
    [quantity] and [unitPrice] take a string or a number. *)
Inductive ItemEdit : Type :=
  | EditId (value : string)
  | EditDescription (value : string)
  | EditQuantity (value : string + number)
  | EditUnitPrice (value : string + number)
  | EditTotal (value : number).

(** [parsedValue] for the two numeric fields. *)
Definition parsedValue (value : string + number) : number :=
  match value with
  | inl str =>
      let parsed := parseFloat rt str in
      if Number.isNaN parsed then Number.zero else parsed
  | inr n => n
  end.

(** [{ ...item, [field]: parsedValue }]. *)
Definition assignField (item : InvoiceItem.t) (edit : ItemEdit)
    : InvoiceItem.t :=
  let '(InvoiceItem.Build_t id description quantity unitPrice total) := item in
  match edit with
  | EditId v => InvoiceItem.Build_t v description quantity unitPrice total
  | EditDescription v => InvoiceItem.Build_t id v quantity unitPrice total
  | EditQuantity v =>
      InvoiceItem.Build_t id description (parsedValue v) unitPrice total
  | EditUnitPrice v =>
      InvoiceItem.Build_t id description quantity (parsedValue v) total
  | EditTotal v => InvoiceItem.Build_t id description quantity unitPrice v
  end.

(** [item.total = (item.quantity || 0) * (item.unitPrice || 0)]. *)
Definition recomputeTotal (item : InvoiceItem.t) : InvoiceItem.t :=
  {| InvoiceItem.id := InvoiceItem.id item;
     InvoiceItem.description := InvoiceItem.description item;
     InvoiceItem.quantity := InvoiceItem.quantity item;
     InvoiceItem.unitPrice := InvoiceItem.unitPrice item;
     InvoiceItem.total :=
       Number.mul (Number.or_zero (InvoiceItem.quantity item))
                  (Number.or_zero (InvoiceItem.unitPrice item)) |}.

(** [xs] with position [index] replaced. *)
Fixpoint replaceAt {A} (xs : list A) (index : nat) (x : A) : list A :=
  match xs, index with
  | [], _ => []
  | _ :: xs', O => x :: xs'
  | y :: xs', S i => y :: replaceAt xs' i x
  end.

(** The new [items] state after [handleItemChange(index, field, value)].
    The form calls it with the index of a rendered row; for an index
    past the end the program stores an object without the other fields,
    which is no [InvoiceItem], and the result is [None]. *)
Definition handleItemChange (items : list InvoiceItem.t) (index : nat)
    (edit : ItemEdit) : option (list InvoiceItem.t) :=
  match nth_error items index with
  | None => None
  | Some item =>
      Some (replaceAt items index (recomputeTotal (assignField item edit)))
  end.

(** *** Sequences of registry operations *)

Inductive Operation : Type :=
  | AddCustomer (customerData : CustomerData.t)
  | UpdateCustomer (updatedCustomer : Customer.t)
  | DeleteCustomer (customerId : string)
  | AddInvoice (invoiceData : NewInvoiceData.t) (items : list InvoiceItem.t)
  | UpdateInvoice (updatedInvoiceData : InvoiceUpdate.t)
                  (items : list InvoiceItem.t)
  | DeleteInvoice (invoiceId : string).

(** The state after one operation, and whether the operation was an
    invoice creation that succeeded. *)
Definition perform (op : Operation) (st : AppState) : bool * AppState :=
  match op with
  | AddCustomer d => (false, exec (addCustomer d) st)
  | UpdateCustomer c => (false, exec (updateCustomer c) st)
  | DeleteCustomer i => (false, exec (deleteCustomer i) st)
  | AddInvoice d its =>
      let '(r, st') := run (addInvoice d its) st in
      (match r with Some _ => true | None => false end, st')
  | UpdateInvoice d its => (false, exec (updateInvoice d its) st)
  | DeleteInvoice i => (false, exec (deleteInvoice i) st)
  end.

Fixpoint performAll (ops : list Operation) (st : AppState) : AppState :=
  match ops with
  | [] => st
  | op :: ops' => performAll ops' (snd (perform op st))
  end.

(** The counter values read by the successful creations of a run, in
    the order in which the invoices were numbered. *)
Fixpoint issued (ops : list Operation) (st : AppState) : list number :=
  match ops with
  | [] => []
  | op :: ops' =>
      let '(created, st') := perform op st in
      if created
      then AppSettings.nextInvoiceNumber (settings st) :: issued ops' st'
      else issued ops' st'
  end.

End WithRuntime.

(** The state in which the component is mounted. *)
Definition initialState (w : World) : AppState :=
  {| customers := []; invoices := []; settings := DEFAULT_SETTINGS;
     notifications := []; world := w |}.

End App.

(** ** A reference runtime

    Executable versions of the two built-ins, for running the program on
    concrete inputs: [parseFloat] on ASCII strings with correct rounding,
    and [Number.prototype.toString] by search for the shortest decimal
    that reads back. *)

Module ReferenceRuntime.

Import Number.

(** The number nearest to [m * 10^e10] (ties to even), with sign [neg]. *)
Definition of_decimal (neg : bool) (m : positive) (e10 : Z) : number :=
  if 0 <=? e10
  then binary_normalize prec emax (cond_Zopp neg (Zpos m * 10 ^ e10)) 0 neg
  else
    let '(q, e, l) := SFdiv_core_binary prec emax (Zpos m) 0 (10 ^ (- e10)) 0 in
    binary_round_aux prec emax neg q e l.

(** White space and line terminators among the code units below 256: TAB,
    LF, VT, FF, CR, SP and NBSP. *)
Definition isWhiteSpace (c : ascii) : bool :=
  match nat_of_ascii c with
  | 9%nat | 10%nat | 11%nat | 12%nat | 13%nat | 32%nat | 160%nat => true
  | _ => false
  end.

Fixpoint trimStart (s : string) : string :=
  match s with
  | String c r => if isWhiteSpace c then trimStart r else s
  | EmptyString => s
  end.

Definition digitValue (c : ascii) : option Z :=
  let n := Z.of_nat (nat_of_ascii c) in
  if (48 <=? n) && (n <=? 57) then Some (n - 48) else None.

(** The leading decimal digits of [s]: their value continued from [acc],
    how many there are, and the rest of the string. *)
Fixpoint readDigits (s : string) (acc : Z) (count : nat) : Z * nat * string :=
  match s with
  | String c r =>
      match digitValue c with
      | Some d => readDigits r (10 * acc + d) (S count)
      | None => (acc, count, s)
      end
  | EmptyString => (acc, count, s)
  end.

(** The exponent part at the head of [s], or 0 when there is none. *)
Definition readExponent (s : string) : Z :=
  match s with
  | String c r =>
      if (c =? "e")%char || (c =? "E")%char then
        let '(neg, r') :=
          match r with
          | String "-"%char r' => (true, r')
          | String "+"%char r' => (false, r')
          | _ => (false, r)
          end in
        let '(v, n, _) := readDigits r' 0 O in
        match n with O => 0 | _ => cond_Zopp neg v end
      else 0
  | EmptyString => 0
  end.

Definition magnitude (neg : bool) (s : string) : number :=
  if prefix "Infinity" s then S754_infinity neg
  else
    let '(ip, ni, r1) := readDigits s 0 O in
    let '(m, scale, digits, rest) :=
      match r1 with
      | String "."%char r =>
          let '(v, nf, r2) := readDigits r ip O in
          (v, - Z.of_nat nf, (ni + nf)%nat, r2)
      | _ => (ip, 0, ni, r1)
      end in
    match digits with
    | O => NaN
    | _ =>
        match m with
        | Zpos p => of_decimal neg p (scale + readExponent rest)
        | _ => S754_zero neg
        end
    end.

(** [parseFloat(string)] on ASCII input. *)
Definition parseFloat (input : string) : number :=
  match trimStart input with
  | String "-"%char r => magnitude true r
  | String "+"%char r => magnitude false r
  | s => magnitude false s
  end.


(** *** Number to string, for the numbers that are no safe integers *)

(** [floor (a / b * 10^p)] for positive [a] and [b]. *)
Definition scaledFloor (a b p : Z) : Z :=
  if 0 <=? p then (a * 10 ^ p) / b else a / (b * 10 ^ (- p)).

(** Moves [n] down, then up, until [10^(n-1) <= a/b < 10^n]. *)
Fixpoint lowerExponent (fuel : nat) (a b n : Z) : Z :=
  match fuel with
  | O => n
  | S fuel' =>
      if scaledFloor a b (1 - n) =? 0 then lowerExponent fuel' a b (n - 1) else n
  end.

Fixpoint raiseExponent (fuel : nat) (a b n : Z) : Z :=
  match fuel with
  | O => n
  | S fuel' =>
      if 0 <? scaledFloor a b (- n) then raiseExponent fuel' a b (n + 1) else n
  end.

Definition decimalExponent (a b : Z) (bits : Z) : Z :=
  let guess := (bits * 30103) / 100000 in
  raiseExponent 8 a b (lowerExponent 8 a b guess).

(** A candidate with [k] digits: the digits [s] and the exponent [n] of
    the decimal [s * 10^(n-k)]; [10^k] is written with the digit 1. *)
Definition candidate (k : nat) (s n : Z) : Z * Z :=
  if s =? 10 ^ Z.of_nat k then (10 ^ (Z.of_nat k - 1), n + 1) else (s, n).

Definition readsBack (x : number) (k : nat) (c : Z * Z) : bool :=
  let '(s, n) := c in
  match s with
  | Zpos p =>
      match SFcompare (of_decimal false p (n - Z.of_nat k)) x with
      | Some Eq => true
      | _ => false
      end
  | _ => false
  end.

(** The shortest digits that read back as [x = a/b], searched from [k]
    digits on; at equal length the decimal nearer to [x], and of two
    equally near ones the one with the even digits. *)
Fixpoint shortest (fuel k : nat) (x : number) (a b n : Z) : nat * Z * Z :=
  let p := Z.of_nat k - n in
  let lo := scaledFloor a b p in
  let cl := candidate k lo n in
  let ch := candidate k (lo + 1) n in
  let position :=
    (* a/b*10^p - lo against lo + 1 - a/b*10^p *)
    if 0 <=? p
    then 2 * a * 10 ^ p ?= (2 * lo + 1) * b
    else 2 * a ?= (2 * lo + 1) * b * 10 ^ (- p) in
  let lowerIsNearer :=
    match position with
    | Lt => true
    | Eq => Z.even lo
    | Gt => false
    end in
  let pick :=
    match readsBack x k cl, readsBack x k ch with
    | true, true => Some (if lowerIsNearer then cl else ch)
    | true, false => Some cl
    | false, true => Some ch
    | false, false => None
    end in
  match pick, fuel with
  | Some (s, n'), _ => (k, s, n')
  | None, S fuel' => shortest fuel' (S k) x a b n
  | None, O => (k, fst cl, snd cl)
  end.

Definition digitsOf (z : Z) : string := NilZero.string_of_int (Z.to_int z).

Definition layout (k : nat) (s n : Z) : string :=
  let ds := digitsOf s in
  let kz := Z.of_nat k in
  if (kz <=? n) && (n <=? 21) then
    (ds ++ JSString.zeros (Z.to_nat (n - kz)))%string
  else if (0 <? n) && (n <=? 21) then
    (substring 0 (Z.to_nat n) ds ++ "." ++ substring (Z.to_nat n) k ds)%string
  else if (-6 <? n) && (n <=? 0) then
    ("0." ++ JSString.zeros (Z.to_nat (- n)) ++ ds)%string
  else
    let e := n - 1 in
    let exponent := ((if (e <? 0)%Z then "e-" else "e+") ++ digitsOf (Z.abs e))%string in
    match k with
    | 1%nat => (ds ++ exponent)%string
    | _ => (substring 0 1 ds ++ "." ++ substring 1 k ds ++ exponent)%string
    end.

(** [x.toString()] for any number. *)
Definition toString (x : number) : string :=
  match x with
  | S754_nan => "NaN"
  | S754_infinity false => "Infinity"
  | S754_infinity true => "-Infinity"
  | S754_zero _ => "0"
  | S754_finite neg m e =>
      let a := if 0 <=? e then Zpos m * 2 ^ e else Zpos m in
      let b := if 0 <=? e then 1 else 2 ^ (- e) in
      let n := decimalExponent a b (Zpos (digits2_pos m) + e) in
      let '(k, s, n') := shortest 17 1 (S754_finite false m e) a b n in
      ((if neg then "-" else "") ++ layout k s n')%string
  end.

Definition runtime : Runtime :=
  Build_Runtime parseFloat toString.

End ReferenceRuntime.

(** ** Notions used to state the properties *)

Module Spec.

Import Number.

(** The sum of the first [n] numbers of [xs], added from left to right
    starting at [+0]. *)
Fixpoint partialSum (xs : list number) (n : nat) : number :=
  match n with
  | O => zero
  | S k => add (partialSum xs k) (nth k xs zero)
  end.

(** The integer amount of a line total (0 when the total is no integer). *)
Definition amount (item : InvoiceItem.t) : Z :=
  match to_Z (InvoiceItem.total item) with
  | Some z => z
  | None => 0
  end.

(** The line total is a whole number. *)
Definition wholeTotal (item : InvoiceItem.t) : Prop :=
  InvoiceItem.total item = of_Z (amount item).

Definition sumAmounts (items : list InvoiceItem.t) : Z :=
  fold_right (fun item acc => amount item + acc) 0 items.

Definition sumMagnitudes (items : list InvoiceItem.t) : Z :=
  fold_right (fun item acc => Z.abs (amount item) + acc) 0 items.

(** The integers [n], [n + 1], ..., [n + k - 1]. *)
Definition range (n : Z) (k : nat) : list Z :=
  map (fun i => n + Z.of_nat i) (seq 0 k).

Definition customerIds (st : AppState) : list string :=
  map Customer.id (customers st).

(** The next value of [generateId()]. *)
Definition nextDraw (st : AppState) : string :=
  entropy (world st) (draws (world st)).

(** The [k]-th clock reading from now on. *)
Definition reading (st : AppState) (k : nat) : Date.t :=
  clock (world st) (clock_reads (world st) + k).

Definition inList (x : string) (xs : list string) : bool :=
  existsb (fun y => (y =? x)%string) xs.

(** Every id drawn for a new customer during the run is new to the
    registry at that moment. *)
Fixpoint freshDraws (rt : Runtime) (ops : list App.Operation) (st : AppState)
    : bool :=
  match ops with
  | [] => true
  | op :: ops' =>
      match op with
      | App.AddCustomer _ => negb (inList (nextDraw st) (customerIds st))
      | _ => true
      end && freshDraws rt ops' (snd (App.perform rt op st))
  end.

(** Some invoice refers to the customer. *)
Definition referenced (st : AppState) (customerId : string) : Prop :=
  exists inv, In inv (invoices st) /\ Invoice.customerId inv = customerId.

Definition isNumericEdit (edit : App.ItemEdit) : bool :=
  match edit with
  | App.EditQuantity _ | App.EditUnitPrice _ => true
  | _ => false
  end.

(** The string typed into the quantity or unit-price input, if the edit
    is one of these with a string value. *)
Definition typedText (edit : App.ItemEdit) : option string :=
  match edit with
  | App.EditQuantity (inl s) | App.EditUnitPrice (inl s) => Some s
  | _ => None
  end.

(** The field an edit writes, read from the item. *)
Definition editedField (edit : App.ItemEdit) (item : InvoiceItem.t)
    : option number :=
  match edit with
  | App.EditQuantity _ => Some (InvoiceItem.quantity item)
  | App.EditUnitPrice _ => Some (InvoiceItem.unitPrice item)
  | _ => None
  end.

(** A row whose quantity and unit price are numbers. *)
Definition numericRow (item : InvoiceItem.t) : Prop :=
  Number.isNaN (InvoiceItem.quantity item) = false
  /\ Number.isNaN (InvoiceItem.unitPrice item) = false.

End Spec.

(** ** Concrete data *)

Module Examples.

Import Number.

Definition rt : Runtime := ReferenceRuntime.runtime.

(** A clock in May 2024 that advances by a millisecond at each reading,
    and a random source whose draws are all different. *)
Definition world0 : World :=
  {| clock := fun k =>
       {| Date.getFullYear := 2024;
          Date.toISOString :=
            ("2024-05-01T10:00:00."
               ++ JSString.padStart 3 "0" (JSString.decimal (Z.of_nat k)) ++ "Z")%string |};
     clock_reads := 0;
     entropy := fun k => ("k3x" ++ JSString.decimal (Z.of_nat k))%string;
     draws := 0 |}.

(** A random source that repeats itself: [Math.random()] returning 0.5
    gives ["0.i"] in base 36, of which [substr(2, 9)] is ["i"]. *)
Definition worldRepeating : World :=
  {| clock := clock world0; clock_reads := 0;
     entropy := fun _ => "i"; draws := 0 |}.

Definition acme : CustomerData.t :=
  {| CustomerData.name := "Acme"; CustomerData.phone := "555-1111";
     CustomerData.whatsapp := Some "555-1111"; CustomerData.email := None;
     CustomerData.address := None |}.

Definition bolt : CustomerData.t :=
  {| CustomerData.name := "Bolt"; CustomerData.phone := "555-2222";
     CustomerData.whatsapp := Some "555-2222"; CustomerData.email := None;
     CustomerData.address := None |}.

Definition lineItem (id description : string) (quantity unitPrice : string)
    : InvoiceItem.t :=
  let q := ReferenceRuntime.parseFloat quantity in
  let p := ReferenceRuntime.parseFloat unitPrice in
  {| InvoiceItem.id := id; InvoiceItem.description := description;
     InvoiceItem.quantity := q; InvoiceItem.unitPrice := p;
     InvoiceItem.total := mul q p |}.

Definition widget : InvoiceItem.t := lineItem "w1" "Widget" "3" "10".
Definition gadget : InvoiceItem.t := lineItem "g1" "Gadget" "2" "6".
Definition gizmo : InvoiceItem.t := lineItem "z1" "Gizmo" "1" "7".


(** The registry after Acme has been added: its id is the first draw. *)
Definition withAcme : AppState :=
  Handler.exec (App.addCustomer acme) (App.initialState world0).

Definition acmeId : string := "k3x0".

Definition acmeRecord : Customer.t :=
  {| Customer.id := acmeId; Customer.name := "Acme";
     Customer.phone := "555-1111"; Customer.whatsapp := Some "555-1111";
     Customer.email := None; Customer.address := None;
     Customer.createdAt := "2024-05-01T10:00:00.000Z";
     Customer.updatedAt := "2024-05-01T10:00:00.001Z" |}.

Definition draftFor (customerId : string) : NewInvoiceData.t :=
  {| NewInvoiceData.customerId := customerId;
     NewInvoiceData.invoiceDate := "2024-05-01";
     NewInvoiceData.dueDate := "2024-05-31";
     NewInvoiceData.taxRate := ReferenceRuntime.parseFloat "0.1";
     NewInvoiceData.notes := None;
     NewInvoiceData.supplied_status := Some Paid |}.

(** The registry after one invoice has been created for Acme. *)
Definition withInvoice : AppState :=
  Handler.exec (App.addInvoice rt (draftFor acmeId) [widget]) withAcme.

Definition firstInvoiceId : string := "INV-2024-0001".

Definition revision (invoiceId customerId : string) : InvoiceUpdate.t :=
  {| InvoiceUpdate.id := invoiceId;
     InvoiceUpdate.customerId := customerId;
     InvoiceUpdate.invoiceDate := "2024-05-02";
     InvoiceUpdate.dueDate := "2024-06-01";
     InvoiceUpdate.taxRate := ReferenceRuntime.parseFloat "0.1";
     InvoiceUpdate.notes := Some "revised";
     InvoiceUpdate.status := Sent |}.

(** [st] with the counter of the settings set to [n], as the settings page
    stores it. *)
Definition withCounter (st : AppState) (n : number) : AppState :=
  snd (Handler.setSettings (fun s =>
         {| AppSettings.invoicePrefix := AppSettings.invoicePrefix s;
            AppSettings.nextInvoiceNumber := n;
            AppSettings.defaultTaxRate := AppSettings.defaultTaxRate s |}) st).

(** The counter at 2^53 = 9007199254740992. *)
Definition atLimit : AppState := withCounter withAcme (of_Z (2 ^ 53)).

End Examples.

(** ** Text of form fields

    A string is a sequence of code units; the characters of [string] are
    the code units below 256. *)

Module Text.

(** White space and line terminators, as [\s] and [trim] take them:
    TAB, LF, VT, FF, CR, SP and NBSP. *)
Definition isSpace (c : ascii) : bool :=
  existsb (Nat.eqb (nat_of_ascii c)) [9; 10; 11; 12; 13; 32; 160]%nat.

(** [\d]. *)
Definition isDigit (c : ascii) : bool :=
  (48 <=? nat_of_ascii c)%nat && (nat_of_ascii c <=? 57)%nat.

Fixpoint dropSpaces (cs : list ascii) : list ascii :=
  match cs with
  | c :: rest => if isSpace c then dropSpaces rest else cs
  | [] => []
  end.

(** [s.trim()]. *)
Definition trim (s : string) : string :=
  string_of_list_ascii
    (rev (dropSpaces (rev (dropSpaces (list_ascii_of_string s))))).

(** ToBoolean on a string: only the empty string is falsy. *)
Definition nonEmpty (s : string) : bool := negb (s =? "")%string.

(** [s || d]. *)
Definition orElse (s d : string) : string := if nonEmpty s then s else d.

(** [!s.trim()]. *)
Definition isBlank (s : string) : bool := negb (nonEmpty (trim s)).

(** The characters of [[0-9\s-()]]: without the [u] flag, [\s-(] is the
    union of [\s], ['-'] and ['(']. *)
Definition phoneChar (c : ascii) : bool :=
  isDigit c || isSpace c || (c =? "-")%char || (c =? "(")%char || (c =? ")")%char.

(** [/^\+?[0-9\s-()]+$/.test(s)]. *)
Definition phonePattern (s : string) : bool :=
  match s with
  | String "+"%char rest =>
      nonEmpty rest && forallb phoneChar (list_ascii_of_string rest)
  | _ => nonEmpty s && forallb phoneChar (list_ascii_of_string s)
  end.

(** [[^\s@]]. *)
Definition emailChar (c : ascii) : bool :=
  negb (isSpace c) && negb (c =? "@")%char.

(** The characters before the first ['@'], and those after it if there is
    one. *)
Fixpoint splitAtSign (cs : list ascii) : list ascii * option (list ascii) :=
  match cs with
  | [] => ([], None)
  | c :: rest =>
      if (c =? "@")%char then ([], Some rest)
      else let '(before, after) := splitAtSign rest in (c :: before, after)
  end.

(** Some ['.'] of [cs] is neither its first nor its last character. *)
Definition innerDot (cs : list ascii) : bool :=
  match cs with
  | [] => false
  | _ :: rest => existsb (fun c => (c =? ".")%char) (removelast rest)
  end.

(** [/^[^\s@]+@[^\s@]+\.[^\s@]+$/.test(s)]. *)
Definition emailPattern (s : string) : bool :=
  let '(local, domain) := splitAtSign (list_ascii_of_string s) in
  match local, domain with
  | _ :: _, Some d =>
      forallb emailChar local && forallb emailChar d && innerDot d
  | _, _ => false
  end.

Definition keepDigits (cs : list ascii) : list ascii := filter isDigit cs.

(** [s.replace(/(?!^\+)[^\d]/g, '')]: every character that is no digit is
    removed, a ['+'] at the very start excepted. *)
Definition cleanPhone (s : string) : string :=
  match s with
  | String "+"%char rest =>
      String "+"%char (string_of_list_ascii (keepDigits (list_ascii_of_string rest)))
  | _ => string_of_list_ascii (keepDigits (list_ascii_of_string s))
  end.

End Text.

(** ** Comparisons of numbers *)

Module NumberOrder.

(** [x < y], [x <= y] and [x > y]; each is false when an operand is
    [NaN]. *)
Definition lt (x y : number) : bool := SFltb x y.
Definition le (x y : number) : bool := SFleb x y.
Definition gt (x y : number) : bool := SFltb y x.

End NumberOrder.

(** ** Notifications, forms and pages ([src/App.tsx]) *)

Module CustomerFormState.
Record t : Type := {
  name : string;
  phone : string;
  whatsapp : string;
  email : string;
  address : string
}.
End CustomerFormState.

(** The [errors] object of the customer form, by key. *)
Module CustomerFormErrors.
Record t : Type := {
  name : option string;
  phone : option string;
  email : option string;
  whatsapp : option string
}.
End CustomerFormErrors.

Module InvoiceFormState.
Record t : Type := {
  customerId : string;
  invoiceDate : string;
  dueDate : string;
  items : list InvoiceItem.t;
  taxRate : number;
  notes : string;
  status : InvoiceStatus
}.
End InvoiceFormState.

(** The [errors] object of the invoice form, by key. *)
Module InvoiceFormErrors.
Record t : Type := {
  customerId : option string;
  invoiceDate : option string;
  dueDate : option string;
  items : option string;
  taxRate : option string
}.
End InvoiceFormErrors.

(** The [errors] object of the settings page, by key. *)
Module SettingsErrors.
Record t : Type := {
  invoicePrefix : option string;
  nextInvoiceNumber : option string;
  defaultTaxRate : option string
}.
End SettingsErrors.

Module Pages.

Import Handler App.
Local Open Scope handler_scope.

(** [setNotifications(prev => prev.filter(n => n.id !== id))]. *)
Definition dismissNotification (id : string) : M unit :=
  setNotifications (fun prev =>
    filter (fun n => negb (Notification.id n =? id)%string) prev).

(** *** The customer form and the customers page *)

(** [newErrors] of [validate]. *)
Definition validate (f : CustomerFormState.t) : CustomerFormErrors.t :=
  {| CustomerFormErrors.name :=
       if Text.isBlank (CustomerFormState.name f)
       then Some "Name is required" else None;
     CustomerFormErrors.phone :=
       if Text.isBlank (CustomerFormState.phone f) then Some "Phone is required"
       else if negb (Text.phonePattern (CustomerFormState.phone f))
            then Some "Invalid phone number" else None;
     CustomerFormErrors.email :=
       if Text.nonEmpty (CustomerFormState.email f)
          && negb (Text.emailPattern (CustomerFormState.email f))
       then Some "Invalid email address" else None;
     CustomerFormErrors.whatsapp :=
       if Text.nonEmpty (CustomerFormState.whatsapp f)
          && negb (Text.phonePattern (CustomerFormState.whatsapp f))
       then Some "Invalid WhatsApp number" else None |}.

Definition isSet (message : option string) : bool :=
  match message with Some _ => true | None => false end.

(** [Object.keys(newErrors).length === 0]. *)
Definition customerFormOk (e : CustomerFormErrors.t) : bool :=
  negb (isSet (CustomerFormErrors.name e) || isSet (CustomerFormErrors.phone e)
        || isSet (CustomerFormErrors.email e)
        || isSet (CustomerFormErrors.whatsapp e)).

(** [{ name, phone, whatsapp: whatsapp || phone, email, address }]. *)
Definition customerDataOf (f : CustomerFormState.t) : CustomerData.t :=
  {| CustomerData.name := CustomerFormState.name f;
     CustomerData.phone := CustomerFormState.phone f;
     CustomerData.whatsapp :=
       Some (Text.orElse (CustomerFormState.whatsapp f) (CustomerFormState.phone f));
     CustomerData.email := Some (CustomerFormState.email f);
     CustomerData.address := Some (CustomerFormState.address f) |}.

(** [{ ...customer, ...customerData }]. *)
Definition mergeCustomer (customer : Customer.t) (d : CustomerData.t)
    : Customer.t :=
  {| Customer.id := Customer.id customer;
     Customer.name := CustomerData.name d;
     Customer.phone := CustomerData.phone d;
     Customer.whatsapp := CustomerData.whatsapp d;
     Customer.email := CustomerData.email d;
     Customer.address := CustomerData.address d;
     Customer.createdAt := Customer.createdAt customer;
     Customer.updatedAt := Customer.updatedAt customer |}.

(** [handleSaveCustomer]: an argument with an [id] is an update. *)
Definition handleSaveCustomer (customerData : CustomerData.t + Customer.t)
    : M unit :=
  match customerData with
  | inr customer => updateCustomer customer
  | inl data => addCustomer data
  end.

(** [handleSubmit] of the customer form with [onSave = handleSaveCustomer];
    the result is the new [errors] state. *)
Definition submitCustomerForm (customer : option Customer.t)
    (f : CustomerFormState.t) : M CustomerFormErrors.t :=
  let newErrors := validate f in
  if negb (customerFormOk newErrors) then ret newErrors
  else
    let customerData := customerDataOf f in
    match customer with
    | Some c => handleSaveCustomer (inr (mergeCustomer c customerData))
    | None => handleSaveCustomer (inl customerData)
    end ;;
    ret newErrors.

(** [customer.whatsapp || customer.phone] in [handleShareWhatsApp]. *)
Definition targetPhone (customer : Customer.t) : string :=
  match Customer.whatsapp customer with
  | Some w => Text.orElse w (Customer.phone customer)
  | None => Customer.phone customer
  end.

(** The phone number that [handleShareWhatsApp] puts into the link, or
    [None] when it reports that no number is available. *)
Definition cleanedPhone (customer : Customer.t) : option string :=
  if Text.nonEmpty (targetPhone customer)
  then Some (Text.cleanPhone (targetPhone customer))
  else None.

(** *** The invoice form *)

(** [addItem]: a blank row with a drawn id. *)
Definition addItem (items : list InvoiceItem.t) : M (list InvoiceItem.t) :=
  id <- generateId ;;
  ret (items ++ [ {| InvoiceItem.id := id;
                     InvoiceItem.description := "";
                     InvoiceItem.quantity := Number.one;
                     InvoiceItem.unitPrice := Number.zero;
                     InvoiceItem.total := Number.zero |} ]).

(** [xs.filter((_, i) => i !== index)], counting from [i]. *)
Fixpoint dropIndex {A} (xs : list A) (index i : nat) : list A :=
  match xs with
  | [] => []
  | x :: rest =>
      if (i =? index)%nat then dropIndex rest index (S i)
      else x :: dropIndex rest index (S i)
  end.

Definition removeItem (items : list InvoiceItem.t) (index : nat)
    : list InvoiceItem.t :=
  dropIndex items index 0.

Section WithEnvironment.

Variable rt : Runtime.

(** The time value of [new Date(s)], [NaN] for an invalid date. *)
Variable dateValue : string -> number.

(** The callback of [items.some] in [validateForm]. *)
Definition badItem (item : InvoiceItem.t) : bool :=
  Text.isBlank (InvoiceItem.description item)
  || NumberOrder.le (InvoiceItem.quantity item) Number.zero
  || NumberOrder.lt (InvoiceItem.unitPrice item) Number.zero.

(** [newErrors] of [validateForm]; for [dueDate] the later assignment
    wins. *)
Definition validateForm (f : InvoiceFormState.t) : InvoiceFormErrors.t :=
  {| InvoiceFormErrors.customerId :=
       if Text.nonEmpty (InvoiceFormState.customerId f) then None
       else Some "Customer is required.";
     InvoiceFormErrors.invoiceDate :=
       if Text.nonEmpty (InvoiceFormState.invoiceDate f) then None
       else Some "Invoice date is required.";
     InvoiceFormErrors.dueDate :=
       if NumberOrder.lt (dateValue (InvoiceFormState.dueDate f))
                         (dateValue (InvoiceFormState.invoiceDate f))
       then Some "Due date cannot be before invoice date."
       else if Text.nonEmpty (InvoiceFormState.dueDate f) then None
            else Some "Due date is required.";
     InvoiceFormErrors.items :=
       if existsb badItem (InvoiceFormState.items f)
       then Some "All items must have a description, positive quantity, and non-negative price."
       else None;
     InvoiceFormErrors.taxRate :=
       if NumberOrder.lt (InvoiceFormState.taxRate f) Number.zero
          || NumberOrder.gt (InvoiceFormState.taxRate f) Number.one
       then Some "Tax rate must be between 0 (0%) and 1 (100%)."
       else None |}.

Definition invoiceFormOk (e : InvoiceFormErrors.t) : bool :=
  negb (isSet (InvoiceFormErrors.customerId e)
        || isSet (InvoiceFormErrors.invoiceDate e)
        || isSet (InvoiceFormErrors.dueDate e)
        || isSet (InvoiceFormErrors.items e)
        || isSet (InvoiceFormErrors.taxRate e)).

(** [handleSubmit] of the invoice form with [onSave = addInvoice] and
    [onUpdate = updateInvoice]; the result is the path given to
    [navigate], if any. *)
Definition submitInvoiceForm (invoiceToEdit : option Invoice.t)
    (f : InvoiceFormState.t) : M (option string) :=
  if negb (invoiceFormOk (validateForm f)) then
    addNotification "Please correct the errors in the form." error ;;
    ret None
  else
    match invoiceToEdit with
    | Some edited =>
        updateInvoice
          {| InvoiceUpdate.id := Invoice.id edited;
             InvoiceUpdate.customerId := InvoiceFormState.customerId f;
             InvoiceUpdate.invoiceDate := InvoiceFormState.invoiceDate f;
             InvoiceUpdate.dueDate := InvoiceFormState.dueDate f;
             InvoiceUpdate.taxRate := InvoiceFormState.taxRate f;
             InvoiceUpdate.notes := Some (InvoiceFormState.notes f);
             InvoiceUpdate.status := InvoiceFormState.status f |}
          (InvoiceFormState.items f) ;;
        ret (Some ("/invoices/" ++ Invoice.id edited)%string)
    | None =>
        newInvoiceId <-
          addInvoice rt
            {| NewInvoiceData.customerId := InvoiceFormState.customerId f;
               NewInvoiceData.invoiceDate := InvoiceFormState.invoiceDate f;
               NewInvoiceData.dueDate := InvoiceFormState.dueDate f;
               NewInvoiceData.taxRate := InvoiceFormState.taxRate f;
               NewInvoiceData.notes := Some (InvoiceFormState.notes f);
               NewInvoiceData.supplied_status := None |}
            (InvoiceFormState.items f) ;;
        match newInvoiceId with
        | Some id =>
            if Text.nonEmpty id then ret (Some ("/invoices/" ++ id)%string)
            else ret None
        | None => ret None
        end
    end.

(** *** The settings page *)

(** [newErrors] of [validateSettings]. *)
Definition validateSettings (currentSettings : AppSettings.t) : SettingsErrors.t :=
  {| SettingsErrors.invoicePrefix :=
       if Text.isBlank (AppSettings.invoicePrefix currentSettings)
       then Some "Invoice prefix cannot be empty." else None;
     SettingsErrors.nextInvoiceNumber :=
       if Number.isNaN (AppSettings.nextInvoiceNumber currentSettings)
          || NumberOrder.lt (AppSettings.nextInvoiceNumber currentSettings) Number.one
       then Some "Next invoice number must be a positive integer." else None;
     SettingsErrors.defaultTaxRate :=
       if Number.isNaN (AppSettings.defaultTaxRate currentSettings)
          || NumberOrder.lt (AppSettings.defaultTaxRate currentSettings) Number.zero
          || NumberOrder.gt (AppSettings.defaultTaxRate currentSettings) Number.one
       then Some "Default tax rate must be between 0 (0%) and 1 (100%)."
       else None |}.

Definition settingsOk (e : SettingsErrors.t) : bool :=
  negb (isSet (SettingsErrors.invoicePrefix e)
        || isSet (SettingsErrors.nextInvoiceNumber e)
        || isSet (SettingsErrors.defaultTaxRate e)).

Definition handleSaveSettings (currentSettings : AppSettings.t) : M unit :=
  if negb (settingsOk (validateSettings currentSettings)) then
    addNotification "Please correct the errors in settings." error
  else
    setSettings (fun _ => currentSettings) ;;
    addNotification "Settings saved successfully!" success.

(** [previewNextId] for the settings being edited. *)
Definition previewNextId (currentSettings : AppSettings.t) : M string :=
  today <- newDate ;;
  let currentYear := Date.getFullYear today in
  let invoiceNumberStr :=
    JSString.padStart 4 "0"
      (NumberFormat.toString rt
         (if Number.truthy (AppSettings.nextInvoiceNumber currentSettings)
          then AppSettings.nextInvoiceNumber currentSettings
          else Number.one)) in
  ret (Text.orElse (AppSettings.invoicePrefix currentSettings) "INV-"
         ++ JSString.decimal currentYear ++ "-" ++ invoiceNumberStr)%string.

End WithEnvironment.

(** *** The dashboard *)

Definition statusIs (s : InvoiceStatus) (inv : Invoice.t) : bool :=
  match Invoice.status inv, s with
  | Draft, Draft | Sent, Sent | Paid, Paid | Overdue, Overdue => true
  | _, _ => false
  end.

(** [invs.reduce((sum, inv) => sum + inv.totalAmount, 0)]. *)
Definition revenue (invs : list Invoice.t) : number :=
  fold_left (fun sum inv => Number.add sum (Invoice.totalAmount inv))
            invs Number.zero.

Definition paidInvoices (invs : list Invoice.t) : list Invoice.t :=
  filter (statusIs Paid) invs.

Definition pendingInvoices (invs : list Invoice.t) : list Invoice.t :=
  filter (fun inv => statusIs Draft inv || statusIs Sent inv) invs.

Definition overdueInvoices (invs : list Invoice.t) : list Invoice.t :=
  filter (statusIs Overdue) invs.

(** [invoices.length > 0 ? totalRevenue / invoices.length : 0]. *)
Definition averageInvoiceValue (invs : list Invoice.t) : number :=
  if (0 <? List.length invs)%nat
  then Number.div (revenue invs) (Number.of_Z (Z.of_nat (List.length invs)))
  else Number.zero.

End Pages.

(** ** Persistence ([src/services/storageService.ts])

    [localStorage] is a map from keys to strings.  [JSON.parse] and
    [JSON.stringify] are taken as a codec on the values the program
    stores ([parse] is [None] where [JSON.parse] throws), and [accepts]
    says whether [localStorage.setItem] stores the string rather than
    throwing. *)

Module StorageService.

Definition Store : Type := string -> option string.

(** [LOCAL_STORAGE_KEYS] of [src/constants.ts]. *)
Definition CUSTOMERS : string := "billing_app_customers".
Definition INVOICES : string := "billing_app_invoices".
Definition SETTINGS : string := "billing_app_settings".

Definition put (store : Store) (key item : string) : Store :=
  fun k => if (k =? key)%string then Some item else store k.

Section WithCodec.

Variable Value : Type.
Variable parse : string -> option Value.
Variable stringify : Value -> string.
Variable accepts : Store -> string -> string -> bool.

(** [getItem]: the default for a missing or empty item and when parsing
    throws. *)
Definition getItem (store : Store) (key : string) (defaultValue : Value)
    : Value :=
  match store key with
  | Some item =>
      if Text.nonEmpty item
      then match parse item with
           | Some value => value
           | None => defaultValue
           end
      else defaultValue
  | None => defaultValue
  end.

(** [setItem]: a write that throws is logged and leaves the store as it
    is. *)
Definition setItem (store : Store) (key : string) (value : Value) : Store :=
  if accepts store key (stringify value)
  then put store key (stringify value)
  else store.

Definition loadCustomers (store : Store) (empty : Value) : Value :=
  getItem store CUSTOMERS empty.
Definition saveCustomers (store : Store) (customers : Value) : Store :=
  setItem store CUSTOMERS customers.
Definition loadInvoices (store : Store) (empty : Value) : Value :=
  getItem store INVOICES empty.
Definition saveInvoices (store : Store) (invoices : Value) : Store :=
  setItem store INVOICES invoices.
Definition loadSettings (store : Store) (defaultSettings : Value) : Value :=
  getItem store SETTINGS defaultSettings.
Definition saveSettings (store : Store) (settings : Value) : Store :=
  setItem store SETTINGS settings.

End WithCodec.

End StorageService.

(** ** Notions used to state further properties *)

Module PageSpec.

Import Number.

(** The number of records among the first [i] of [cs] that carry [id]. *)
Definition matchesBefore (id : string) (cs : list Customer.t) (i : nat) : nat :=
  List.length (filter (fun c => (Customer.id c =? id)%string) (firstn i cs)).

Definition notificationIds (st : AppState) : list string :=
  map Notification.id (notifications st).

(** The integer amount of an invoice total (0 when it is no integer). *)
Definition invoiceAmount (inv : Invoice.t) : Z :=
  match to_Z (Invoice.totalAmount inv) with
  | Some z => z
  | None => 0
  end.

Definition wholeInvoice (inv : Invoice.t) : Prop :=
  Invoice.totalAmount inv = of_Z (invoiceAmount inv).

Definition sumInvoiceAmounts (invs : list Invoice.t) : Z :=
  fold_right (fun inv acc => invoiceAmount inv + acc) 0 invs.

Definition sumInvoiceMagnitudes (invs : list Invoice.t) : Z :=
  fold_right (fun inv acc => Z.abs (invoiceAmount inv) + acc) 0 invs.

(** The field that an edit of a row writes. *)
Definition fieldOf (edit : App.ItemEdit) : nat :=
  match edit with
  | App.EditId _ => 0
  | App.EditDescription _ => 1
  | App.EditQuantity _ => 2
  | App.EditUnitPrice _ => 3
  | App.EditTotal _ => 4
  end%nat.

(** Two edits in a row. *)
Definition editTwice (rt : Runtime) (items : list InvoiceItem.t) (index : nat)
    (first second : App.ItemEdit) : option (list InvoiceItem.t) :=
  match App.handleItemChange rt items index first with
  | Some items' => App.handleItemChange rt items' index second
  | None => None
  end.

Definition countChar (c : ascii) (s : string) : nat :=
  List.length (filter (fun x => (x =? c)%char) (list_ascii_of_string s)).

(** Whether the text begins with ['+']. *)
Definition startsWithPlus (s : string) : bool :=
  match s with
  | String c _ => (c =? "+")%char
  | EmptyString => false
  end.

End PageSpec.

(** ** More concrete data *)

Module MoreExamples.

Import Number.

Definition ghost : Customer.t :=
  {| Customer.id := "nobody"; Customer.name := "Ghost"; Customer.phone := "1";
     Customer.whatsapp := None; Customer.email := None; Customer.address := None;
     Customer.createdAt := ""; Customer.updatedAt := "" |}.

(** Dates as days since the epoch times 86400000 would do; for the
    examples the day of the month of a [yyyy-mm-dd] string stands for the
    time value, and other strings are invalid dates. *)
Definition dayOf (s : string) : number :=
  match ReferenceRuntime.readDigits (substring 8 2 s) 0 O with
  | (d, 2%nat, _) => of_Z d
  | _ => NaN
  end.

Definition acmeForm : CustomerFormState.t :=
  {| CustomerFormState.name := "Acme Ltd";
     CustomerFormState.phone := "+1 (555) 111-2222";
     CustomerFormState.whatsapp := "";
     CustomerFormState.email := "billing@acme.example";
     CustomerFormState.address := "1 Main St" |}.

Definition blankForm : CustomerFormState.t :=
  {| CustomerFormState.name := "   ";
     CustomerFormState.phone := "555";
     CustomerFormState.whatsapp := "";
     CustomerFormState.email := "";
     CustomerFormState.address := "" |}.

Definition invoiceForm (taxRate : number) : InvoiceFormState.t :=
  {| InvoiceFormState.customerId := Examples.acmeId;
     InvoiceFormState.invoiceDate := "2024-05-01";
     InvoiceFormState.dueDate := "2024-05-31";
     InvoiceFormState.items := [Examples.widget];
     InvoiceFormState.taxRate := taxRate;
     InvoiceFormState.notes := "";
     InvoiceFormState.status := Draft |}.

(** A form whose due date lies before the invoice date. *)
Definition lateForm : InvoiceFormState.t :=
  {| InvoiceFormState.customerId := Examples.acmeId;
     InvoiceFormState.invoiceDate := "2024-05-20";
     InvoiceFormState.dueDate := "2024-05-10";
     InvoiceFormState.items := [Examples.widget];
     InvoiceFormState.taxRate := zero;
     InvoiceFormState.notes := "";
     InvoiceFormState.status := Draft |}.

Definition settingsFrom (n : Z) : AppSettings.t :=
  {| AppSettings.invoicePrefix := "BILL-";
     AppSettings.nextInvoiceNumber := of_Z n;
     AppSettings.defaultTaxRate := ReferenceRuntime.parseFloat "0.05" |}.

(** A registry with one invoice of each status for Acme, totals 30, 12, 7
    and 30. *)
Definition invoiceWith (id : string) (status : InvoiceStatus)
    (item : InvoiceItem.t) : Invoice.t :=
  {| Invoice.id := id; Invoice.customerId := Examples.acmeId;
     Invoice.customerName := "Acme"; Invoice.invoiceDate := "2024-05-01";
     Invoice.dueDate := "2024-05-31"; Invoice.items := [item];
     Invoice.subTotal := InvoiceItem.total item; Invoice.taxRate := zero;
     Invoice.taxAmount := zero; Invoice.totalAmount := InvoiceItem.total item;
     Invoice.notes := None; Invoice.status := status;
     Invoice.createdAt := ""; Invoice.updatedAt := "" |}.

Definition ledger : list Invoice.t :=
  [invoiceWith "INV-2024-0001" Paid Examples.widget;
   invoiceWith "INV-2024-0002" Sent Examples.gadget;
   invoiceWith "INV-2024-0003" Overdue Examples.gizmo;
   invoiceWith "INV-2024-0004" Draft Examples.widget].

(** A store and a codec for one kind of value: a list of digits kept as
    a string. *)
Definition emptyStore : StorageService.Store := fun _ => None.

Definition parseDigits (s : string) : option (list ascii) :=
  if forallb Text.isDigit (list_ascii_of_string s)
  then Some (list_ascii_of_string s) else None.

Definition printDigits (v : list ascii) : string := string_of_list_ascii v.

Definition roomy (store : StorageService.Store) (key item : string) : bool :=
  (String.length item <=? 16)%nat.

(** The registry after the counter was set back and a second invoice was
    created: two invoices with one id. *)
Definition withTwins : AppState :=
  Handler.exec (App.addInvoice Examples.rt (Examples.draftFor Examples.acmeId)
                               [Examples.gadget])
    (Handler.exec (Pages.handleSaveSettings (settings Examples.withAcme))
                  Examples.withInvoice).
End MoreExamples.

(** * Properties

    From here on: facts about the definitions above, and the properties of
    the specification. *)

(** ** The reference runtime on known values *)

Example parseFloat_examples :
  map ReferenceRuntime.parseFloat ["0.1"; " 2.5"; "-0"; "12px"; "1e3"; "abc"; ""]
  = [Number.div (Number.of_Z 1) (Number.of_Z 10);
     Number.div (Number.of_Z 5) (Number.of_Z 2);
     S754_zero true; Number.of_Z 12; Number.of_Z 1000; Number.NaN; Number.NaN].
Proof. vm_compute. reflexivity. Qed.

Example toString_examples :
  map (NumberFormat.toString ReferenceRuntime.runtime)
      [Number.of_Z 7; Number.of_Z (2 ^ 53); Number.of_Z (2 ^ 60);
       Number.div (Number.of_Z 1) (Number.of_Z 10);
       Number.add (ReferenceRuntime.parseFloat "0.1") (ReferenceRuntime.parseFloat "0.2");
       ReferenceRuntime.parseFloat "1e21"; ReferenceRuntime.parseFloat "1e-7"]
  = ["7"; "9007199254740992"; "1152921504606847000"; "0.1";
     "0.30000000000000004"; "1e+21"; "1e-7"].
Proof. vm_compute. reflexivity. Qed.

(** ** Integers as numbers: exact arithmetic below 2^53 *)

Module NumberFacts.

Import Number.

Lemma Zpos_shifted k c : Zpos (shifted k c) = Zpos c * 2 ^ Z.of_nat k.
Proof.
  induction k as [|k IH].
  - simpl. lia.
  - unfold shifted in *. rewrite Nat.iter_succ, Pos2Z.inj_xO, IH.
    rewrite Nat2Z.inj_succ, Z.pow_succ_r by lia. lia.
Qed.

Lemma shifted_add j k c : shifted (j + k) c = shifted j (shifted k c).
Proof. unfold shifted. apply Nat.iter_add. Qed.

Lemma digits_shifted k c : digits (shifted k c) = digits c + Z.of_nat k.
Proof.
  unfold digits. induction k as [|k IH].
  - simpl. lia.
  - unfold shifted in *. rewrite Nat.iter_succ. cbn [digits2_pos].
    rewrite Pos2Z.inj_succ, IH. lia.
Qed.

Lemma digits_pos c : 1 <= digits c.
Proof. unfold digits. lia. Qed.

Lemma digits_bounds c : 2 ^ (digits c - 1) <= Zpos c < 2 ^ digits c.
Proof.
  unfold digits. induction c as [c IH|c IH|]; cbn [digits2_pos].
  - rewrite Pos2Z.inj_succ, (Pos2Z.inj_xI c).
    replace (Z.succ (Zpos (digits2_pos c)) - 1) with (Z.succ (Zpos (digits2_pos c) - 1)) by lia.
    rewrite !Z.pow_succ_r by lia.
    revert IH. generalize (2 ^ (Zpos (digits2_pos c) - 1)) (2 ^ Zpos (digits2_pos c)). intros; lia.
  - rewrite Pos2Z.inj_succ, (Pos2Z.inj_xO c).
    replace (Z.succ (Zpos (digits2_pos c)) - 1) with (Z.succ (Zpos (digits2_pos c) - 1)) by lia.
    rewrite !Z.pow_succ_r by lia.
    revert IH. generalize (2 ^ (Zpos (digits2_pos c) - 1)) (2 ^ Zpos (digits2_pos c)). intros; lia.
  - simpl. lia.
Qed.

Lemma digits_le_53 c : Zpos c < 2 ^ 53 -> digits c <= 53.
Proof.
  intros H. destruct (Z_le_gt_dec (digits c) 53) as [|G]; [assumption|].
  pose proof (digits_bounds c) as [L _].
  assert (2 ^ 53 <= 2 ^ (digits c - 1)) by (apply Z.pow_le_mono_r; lia).
  lia.
Qed.

Lemma iter_pos_nat {A} (f : A -> A) n x :
  iter_pos f n x = Nat.iter (Pos.to_nat n) f x.
Proof.
  revert x. induction n as [n IH|n IH|]; intros x; cbn [iter_pos].
  - rewrite !IH, Pos2Nat.inj_xI.
    replace (S (2 * Pos.to_nat n))%nat with (Pos.to_nat n + (Pos.to_nat n + 1))%nat by lia.
    rewrite !Nat.iter_add. reflexivity.
  - rewrite !IH, Pos2Nat.inj_xO.
    replace (2 * Pos.to_nat n)%nat with (Pos.to_nat n + Pos.to_nat n)%nat by lia.
    rewrite Nat.iter_add. reflexivity.
  - reflexivity.
Qed.

Lemma shr_shifted k c :
  Nat.iter k shr_1 (Build_shr_record (Zpos (shifted k c)) false false)
  = Build_shr_record (Zpos c) false false.
Proof.
  induction k as [|k IH].
  - reflexivity.
  - rewrite Nat.iter_succ_r. unfold shifted. rewrite Nat.iter_succ.
    cbn [shr_1 orb]. exact IH.
Qed.

Lemma fexp_small x : -1021 <= x -> fexp prec emax x = x - 53.
Proof. intros H. unfold fexp, emin, prec, emax. lia. Qed.

(** Rounding a 53-digit mantissa that carries [j] more zero bits. *)
Lemma binary_round_aux_shifted s j M ez :
  digits M = 53 -> -1074 <= ez <= 971 ->
  binary_round_aux prec emax s (Zpos (shifted j M)) (ez - Z.of_nat j) loc_Exact
  = S754_finite s M ez.
Proof.
  intros HM Hez.
  assert (Hcanon : shr_fexp prec emax (Zpos M) ez loc_Exact
                   = (Build_shr_record (Zpos M) false false, ez)).
  { unfold shr_fexp. cbn [Zdigits2 shr_record_of_loc]. fold (digits M).
    rewrite HM, fexp_small by lia.
    replace (53 + ez - 53 - ez) with 0 by lia. reflexivity. }
  assert (Hfirst : shr_fexp prec emax (Zpos (shifted j M)) (ez - Z.of_nat j) loc_Exact
                   = (Build_shr_record (Zpos M) false false, ez)).
  { unfold shr_fexp. cbn [Zdigits2 shr_record_of_loc]. fold (digits (shifted j M)).
    rewrite digits_shifted, HM, fexp_small by lia.
    replace (53 + Z.of_nat j + (ez - Z.of_nat j) - 53 - (ez - Z.of_nat j))
      with (Z.of_nat j) by lia.
    destruct j as [|j].
    - cbn [Z.of_nat shr]. unfold shifted. cbn [Nat.iter nat_rect].
      f_equal. lia.
    - cbn [Z.of_nat shr]. rewrite iter_pos_nat, SuccNat2Pos.id_succ, shr_shifted.
      f_equal. lia. }
  unfold binary_round_aux. rewrite Hfirst.
  cbn [shr_m loc_of_shr_record round_nearest_even]. rewrite Hcanon.
  cbn [shr_m].
  replace (ez <=? emax - prec) with true; [reflexivity|].
  symmetry. apply Z.leb_le. unfold emax, prec. lia.
Qed.

Lemma shl_align_shifted mx ex ez :
  ez <= ex -> shl_align mx ex ez = (shifted (Z.to_nat (ex - ez)) mx, ez).
Proof.
  intros H. unfold shl_align. destruct (ez - ex) as [|q|q] eqn:E.
  - replace (ex - ez) with 0 by lia. replace ez with ex by lia. reflexivity.
  - lia.
  - rewrite Pos2Nat.inj_iter. fold (Nat.iter (Pos.to_nat q) xO mx).
    replace (ex - ez) with (Zpos q) by lia. reflexivity.
Qed.

Lemma shl_align_keep mx ex ez : ex <= ez -> shl_align mx ex ez = (mx, ex).
Proof.
  intros H. unfold shl_align. destruct (ez - ex) as [|q|q] eqn:E; try reflexivity. lia.
Qed.

(** A mantissa and exponent that denote the integer [c] of at most 53 bits
    round to the normal form of [c]. *)
Lemma binary_round_exact s m e c :
  e <= 0 -> Zpos m = Zpos c * 2 ^ (- e) -> digits c <= 53 ->
  binary_round prec emax s m e = norm s c.
Proof.
  intros He Hm Hd.
  pose proof (digits_pos c) as Hd1.
  assert (Em : m = shifted (Z.to_nat (- e)) c).
  { apply Pos2Z.inj. rewrite Zpos_shifted, Z2Nat.id by lia. exact Hm. }
  unfold binary_round, norm. fold (digits m).
  assert (Dm : digits m = digits c + - e).
  { rewrite Em, digits_shifted, Z2Nat.id by lia. reflexivity. }
  rewrite Dm, fexp_small by lia.
  replace (digits c + - e + e - 53) with (digits c - 53) by lia.
  set (M := shifted (Z.to_nat (53 - digits c)) c).
  assert (HM : digits M = 53).
  { unfold M. rewrite digits_shifted, Z2Nat.id by lia. lia. }
  destruct (Z_le_gt_dec (digits c - 53) e) as [Hle|Hgt].
  - rewrite shl_align_shifted by assumption.
    assert (E1 : shifted (Z.to_nat (e - (digits c - 53))) m = M).
    { unfold M. rewrite Em, <- shifted_add. f_equal. lia. }
    rewrite E1.
    pose proof (binary_round_aux_shifted s 0 M (digits c - 53) HM) as R.
    cbn [Z.of_nat shifted Nat.iter nat_rect] in R. rewrite Z.sub_0_r in R.
    apply R. lia.
  - rewrite shl_align_keep by lia.
    assert (E2 : m = shifted (Z.to_nat (digits c - 53 - e)) M).
    { unfold M. rewrite Em, <- shifted_add. f_equal. lia. }
    pose proof (binary_round_aux_shifted s (Z.to_nat (digits c - 53 - e)) M
                  (digits c - 53) HM) as R.
    rewrite <- E2, Z2Nat.id in R by lia.
    replace (digits c - 53 - (digits c - 53 - e)) with e in R by lia.
    apply R. lia.
Qed.

Lemma of_Z_pos c : digits c <= 53 -> of_Z (Zpos c) = norm false c.
Proof.
  intros H. unfold of_Z, binary_normalize.
  apply binary_round_exact; [lia| simpl; lia | assumption].
Qed.

Lemma of_Z_neg c : digits c <= 53 -> of_Z (Zneg c) = norm true c.
Proof.
  intros H. unfold of_Z, binary_normalize.
  apply binary_round_exact; [lia| simpl; lia | assumption].
Qed.


Lemma of_Z_signed s c : digits c <= 53 -> of_Z (signed s c) = norm s c.
Proof. destruct s; [apply of_Z_neg | apply of_Z_pos]. Qed.

Lemma Z_signed z : z <> 0 -> exists s c, z = signed s c /\ Z.abs z = Zpos c.
Proof.
  destruct z as [|p|p]; intros H.
  - congruence.
  - exists false, p. split; reflexivity.
  - exists true, p. split; reflexivity.
Qed.

Lemma add_norm sa a sb b :
  digits a <= 53 -> digits b <= 53 ->
  Z.abs (signed sa a + signed sb b) < 2 ^ 53 ->
  add (norm sa a) (norm sb b) = of_Z (signed sa a + signed sb b).
Proof.
  intros Ha Hb Hab.
  pose proof (digits_pos a) as Ha1. pose proof (digits_pos b) as Hb1.
  unfold add, norm. cbn [SFadd].
  set (ez := Z.min (digits a - 53) (digits b - 53)).
  rewrite !shl_align_shifted by (unfold ez; lia). cbn [fst].
  rewrite <- !shifted_add.
  set (ka := (Z.to_nat (digits a - 53 - ez) + Z.to_nat (53 - digits a))%nat).
  set (kb := (Z.to_nat (digits b - 53 - ez) + Z.to_nat (53 - digits b))%nat).
  assert (Eka : Z.of_nat ka = - ez) by (unfold ka, ez; lia).
  assert (Ekb : Z.of_nat kb = - ez) by (unfold kb, ez; lia).
  assert (Esum : cond_Zopp sa (Zpos (shifted ka a)) + cond_Zopp sb (Zpos (shifted kb b))
                 = (signed sa a + signed sb b) * 2 ^ (- ez)).
  { rewrite !Zpos_shifted, Eka, Ekb. unfold signed.
    generalize (2 ^ (- ez)). intros p. destruct sa, sb; cbn [cond_Zopp]; lia. }
  rewrite Esum.
  assert (Hp : 0 < 2 ^ (- ez)) by (apply Z.pow_pos_nonneg; unfold ez; lia).
  destruct (Z.eq_dec (signed sa a + signed sb b) 0) as [E0|N0].
  - rewrite E0. reflexivity.
  - destruct (Z_signed _ N0) as (s & c & Ec & Eabs).
    rewrite Ec. rewrite of_Z_signed by (apply digits_le_53; lia).
    unfold signed. unfold binary_normalize.
    destruct s; cbn [cond_Zopp].
    + destruct (- Zpos c * 2 ^ (- ez)) as [|q|q] eqn:Eq; try lia.
      apply binary_round_exact; [unfold ez; lia | lia | apply digits_le_53; lia].
    + destruct (Zpos c * 2 ^ (- ez)) as [|q|q] eqn:Eq; try lia.
      apply binary_round_exact; [unfold ez; lia | lia | apply digits_le_53; lia].
Qed.

Lemma of_Z_0 : of_Z 0 = zero.
Proof. reflexivity. Qed.

Lemma of_Z_nonzero z :
  z <> 0 -> Z.abs z < 2 ^ 53 ->
  exists s c, z = signed s c /\ digits c <= 53 /\ of_Z z = norm s c.
Proof.
  intros N B. destruct (Z_signed z N) as (s & c & E & A).
  exists s, c. assert (digits c <= 53) by (apply digits_le_53; lia).
  repeat split; try assumption. rewrite E. apply of_Z_signed. assumption.
Qed.

(** Additions of integers are exact while the operands and the result
    stay below 2^53 in absolute value. *)
Lemma add_of_Z a b :
  Z.abs a < 2 ^ 53 -> Z.abs b < 2 ^ 53 -> Z.abs (a + b) < 2 ^ 53 ->
  add (of_Z a) (of_Z b) = of_Z (a + b).
Proof.
  intros Ha Hb Hab.
  destruct (Z.eq_dec a 0) as [->|Na]; destruct (Z.eq_dec b 0) as [->|Nb].
  - reflexivity.
  - destruct (of_Z_nonzero b Nb Hb) as (s & c & _ & _ & E).
    rewrite Z.add_0_l, E. reflexivity.
  - destruct (of_Z_nonzero a Na Ha) as (s & c & _ & _ & E).
    rewrite Z.add_0_r, E. reflexivity.
  - destruct (of_Z_nonzero a Na Ha) as (sa & ca & Ea & Da & Fa).
    destruct (of_Z_nonzero b Nb Hb) as (sb & cb & Eb & Db & Fb).
    rewrite Fa, Fb, Ea, Eb. apply add_norm; try assumption.
    rewrite <- Ea, <- Eb. assumption.
Qed.

Lemma to_Z_norm s c : digits c <= 53 -> to_Z (norm s c) = Some (signed s c).
Proof.
  intros H. pose proof (digits_pos c) as H1. unfold norm, to_Z.
  rewrite Zpos_shifted, Z2Nat.id by lia.
  destruct (0 <=? digits c - 53) eqn:E.
  - apply Z.leb_le in E. replace (digits c - 53) with 0 by lia.
    replace (53 - digits c) with 0 by lia. unfold signed.
    do 2 f_equal. simpl. lia.
  - replace (- (digits c - 53)) with (53 - digits c) by lia.
    assert (0 < 2 ^ (53 - digits c)) by (apply Z.pow_pos_nonneg; lia).
    rewrite Z.mod_mul, Z.div_mul by lia. reflexivity.
Qed.

Lemma to_Z_of_Z z : Z.abs z < 2 ^ 53 -> to_Z (of_Z z) = Some z.
Proof.
  intros B. destruct (Z.eq_dec z 0) as [->|N].
  - reflexivity.
  - destruct (of_Z_nonzero z N B) as (s & c & E & D & F).
    rewrite F, E. apply to_Z_norm. assumption.
Qed.

Lemma of_Z_inj a b :
  Z.abs a < 2 ^ 53 -> Z.abs b < 2 ^ 53 -> of_Z a = of_Z b -> a = b.
Proof.
  intros Ha Hb E. apply (f_equal to_Z) in E.
  rewrite !to_Z_of_Z in E by assumption. congruence.
Qed.

Lemma add_one n :
  0 <= n -> n + 1 <= MAX_SAFE_INTEGER -> add (of_Z n) one = of_Z (n + 1).
Proof.
  intros H0 H1. unfold one, MAX_SAFE_INTEGER in *.
  apply add_of_Z; lia.
Qed.

End NumberFacts.

Module StringFacts.

Import JSString.

Lemma fill_zeros_rest n : fill n "0" "" = zeros n.
Proof. induction n as [|n IH]; [reflexivity|]. cbn [fill zeros]. now rewrite IH. Qed.

Lemma fill_zeros n : fill n "0" "0" = zeros n.
Proof. destruct n as [|n]; [reflexivity|]. cbn [fill zeros]. now rewrite fill_zeros_rest. Qed.

(** Padding with ["0"] puts the missing zeros in front and never cuts. *)
Lemma padStart_zeros k s :
  padStart k "0" s = (zeros (k - String.length s) ++ s)%string.
Proof.
  unfold padStart. cbn [String.eqb Ascii.eqb Bool.eqb orb].
  rewrite orb_false_r.
  destruct (k <=? String.length s)%nat eqn:E.
  - apply Nat.leb_le in E. replace (k - String.length s)%nat with O by lia.
    reflexivity.
  - now rewrite fill_zeros.
Qed.

End StringFacts.

Module FormatFacts.

Import Number NumberFacts.

(** A safe integer prints as its decimal numeral. *)
Lemma toString_of_Z rt n :
  safe_integer n -> NumberFormat.toString rt (of_Z n) = JSString.decimal n.
Proof.
  unfold safe_integer, MAX_SAFE_INTEGER. intros H.
  destruct (Z.eq_dec n 0) as [->|N]; [reflexivity|].
  destruct (of_Z_nonzero n N) as (s & c & E & D & F); [lia|].
  rewrite F. unfold NumberFormat.toString, norm. fold (norm s c).
  rewrite to_Z_norm, <- E by assumption.
  unfold is_safe, MAX_SAFE_INTEGER.
  replace (Z.abs n <=? 2 ^ 53 - 1) with true; [reflexivity|].
  symmetry. apply Z.leb_le. lia.
Qed.

End FormatFacts.

Module TotalsFacts.

Import Number NumberFacts Spec.

Lemma partialSum_app (xs ys : list number) n :
  (n <= List.length xs)%nat -> partialSum (xs ++ ys) n = partialSum xs n.
Proof.
  induction n as [|n IH]; intros H; [reflexivity|].
  cbn [partialSum]. rewrite IH by lia. rewrite app_nth1 by lia. reflexivity.
Qed.

Lemma reduce_partialSum items :
  fold_left (fun sum item => add sum (InvoiceItem.total item)) items zero
  = partialSum (map InvoiceItem.total items) (List.length items).
Proof.
  induction items as [|item items IH] using rev_ind; [reflexivity|].
  rewrite fold_left_app, IH, map_app, length_app. cbn [fold_left map length].
  rewrite Nat.add_1_r. cbn [partialSum].
  rewrite partialSum_app by (rewrite length_map; lia).
  rewrite app_nth2 by (rewrite length_map; lia).
  rewrite length_map, Nat.sub_diag. reflexivity.
Qed.

Lemma sumMagnitudes_nonneg items : 0 <= sumMagnitudes items.
Proof. induction items as [|i items IH]; cbn [sumMagnitudes fold_right]; [lia|]. fold (sumMagnitudes items). lia. Qed.

Lemma sumAmounts_bound items : Z.abs (sumAmounts items) <= sumMagnitudes items.
Proof.
  induction items as [|i items IH]; cbn [sumAmounts sumMagnitudes fold_right]; [lia|].
  fold (sumAmounts items) (sumMagnitudes items). lia.
Qed.

(** Whole line totals add up exactly while the running sum stays below
    2^53. *)
Lemma reduce_whole items acc :
  Forall wholeTotal items ->
  Z.abs acc + sumMagnitudes items < 2 ^ 53 ->
  fold_left (fun sum item => add sum (InvoiceItem.total item)) items (of_Z acc)
  = of_Z (acc + sumAmounts items).
Proof.
  revert acc. induction items as [|item items IH]; intros acc Hw Hb.
  - cbn [fold_left sumAmounts fold_right]. now rewrite Z.add_0_r.
  - inversion Hw as [|? ? Hi Hrest]; subst.
    cbn [sumMagnitudes fold_right] in Hb. fold (sumMagnitudes items) in Hb.
    pose proof (sumMagnitudes_nonneg items) as Hn.
    cbn [fold_left sumAmounts fold_right]. fold (sumAmounts items).
    rewrite Hi, add_of_Z by lia.
    rewrite IH by (try assumption; lia). f_equal. lia.
Qed.

Lemma subTotal_whole items taxRate :
  Forall wholeTotal items -> sumMagnitudes items < 2 ^ 53 ->
  Totals.subTotal (App.calculateInvoiceTotals items taxRate)
  = of_Z (sumAmounts items).
Proof.
  intros Hw Hb. unfold App.calculateInvoiceTotals. cbn [Totals.subTotal].
  change zero with (of_Z 0). rewrite reduce_whole by (try assumption; simpl; lia).
  reflexivity.
Qed.



End TotalsFacts.

Import Number NumberFacts Spec TotalsFacts.

(** C1.  For every list of items and every tax rate, the subtotal is the
    sum of the line totals, taken from left to right starting at 0 (it is
    0 for the empty list), the tax amount is the subtotal times the rate
    and the total amount is the subtotal plus the tax amount; sums and
    products are those of double-precision numbers.  When the line totals
    are whole numbers whose absolute values add up to less than 2^53, no
    addition rounds and the subtotal is the sum of these integers. *)
Theorem calculateInvoiceTotals_correct (items : list InvoiceItem.t) (taxRate : number) :
  let totals := App.calculateInvoiceTotals items taxRate in
  Totals.subTotal totals
    = partialSum (map InvoiceItem.total items) (List.length items)
  /\ Totals.subTotal (App.calculateInvoiceTotals [] taxRate) = zero
  /\ Totals.taxAmount totals = mul (Totals.subTotal totals) taxRate
  /\ Totals.totalAmount totals
     = add (Totals.subTotal totals) (Totals.taxAmount totals)
  /\ (Forall wholeTotal items -> sumMagnitudes items < 2 ^ 53 ->
      Totals.subTotal totals = of_Z (sumAmounts items)).
Proof.
  cbv zeta. split; [|split; [|split; [|split]]].
  - apply reduce_partialSum.
  - reflexivity.
  - reflexivity.
  - reflexivity.
  - apply subTotal_whole.
Qed.

Lemma calculateInvoiceTotals_correct_witness :
  Forall wholeTotal [Examples.widget; Examples.gadget; Examples.gizmo]
  /\ Totals.subTotal
       (App.calculateInvoiceTotals
          [Examples.widget; Examples.gadget; Examples.gizmo] zero)
     = of_Z 49.
Proof.
  assert (Hw : Forall wholeTotal [Examples.widget; Examples.gadget; Examples.gizmo])
    by (repeat constructor).
  split; [exact Hw|].
  apply (calculateInvoiceTotals_correct
           [Examples.widget; Examples.gadget; Examples.gizmo] zero).
  - exact Hw.
  - vm_compute. reflexivity.
Defined.

(** The scenario of the specification: three widgets at 10 with a tax rate
    of 0.1 come to 30, 3 and 33. *)
Example calculateInvoiceTotals_widgets :
  App.calculateInvoiceTotals [Examples.widget] (ReferenceRuntime.parseFloat "0.1")
  = {| Totals.subTotal := of_Z 30;
       Totals.taxAmount := of_Z 3;
       Totals.totalAmount := of_Z 33 |}.
Proof. vm_compute. reflexivity. Qed.




Module HandlerFacts.

Import Handler App Spec.

#[local] Arguments Number.add : simpl never.
#[local] Arguments Number.mul : simpl never.
#[local] Arguments NumberFormat.toString : simpl never.
#[local] Arguments JSString.padStart : simpl never.
#[local] Arguments JSString.decimal : simpl never.
#[local] Arguments calculateInvoiceTotals : simpl never.
#[local] Arguments String.append : simpl never.

Ltac handler :=
  unfold exec, eval, run,
    addNotification, newDate, generateId, setCustomers, setInvoices,
    setSettings, setNotifications, setWorld, gets, bind, ret in *;
  cbn in *.

Lemma mapM_cons {A B} (f : A -> M B) x xs st :
  mapM f (x :: xs) st
  = (let '(y, st1) := f x st in
     let '(ys, st2) := mapM f xs st1 in (y :: ys, st2)).
Proof. reflexivity. Qed.

(** [prev.map] in [updateCustomer] touches the clock only, and the records
    it returns carry the ids they had. *)
Lemma replaceAll u cs st :
  customers (snd (mapM (replaceCustomer u) cs st)) = customers st
  /\ invoices (snd (mapM (replaceCustomer u) cs st)) = invoices st
  /\ settings (snd (mapM (replaceCustomer u) cs st)) = settings st
  /\ notifications (snd (mapM (replaceCustomer u) cs st)) = notifications st
  /\ map Customer.id (fst (mapM (replaceCustomer u) cs st)) = map Customer.id cs.
Proof.
  revert st. induction cs as [|c cs IH]; intros st.
  - cbn. auto.
  - rewrite !mapM_cons.
    destruct (replaceCustomer u c st) as [y st1] eqn:E1.
    destruct (mapM (replaceCustomer u) cs st1) as [ys st2] eqn:E2.
    specialize (IH st1). rewrite E2 in IH. cbn [fst snd] in IH.
    destruct IH as (Hc & Hi & Hs & Hn & Hid).
    assert (F : customers st1 = customers st /\ invoices st1 = invoices st
                /\ settings st1 = settings st /\ notifications st1 = notifications st
                /\ Customer.id y = Customer.id c).
    { unfold replaceCustomer in E1.
      destruct (Customer.id c =? Customer.id u)%string eqn:Eid.
      - handler. inversion E1; subst. cbn.
        apply String.eqb_eq in Eid. auto.
      - handler. inversion E1; subst. auto. }
    destruct F as (Fc & Fi & Fs & Fn & Fid).
    cbn [fst snd map].
    rewrite Hc, Hi, Hs, Hn, Hid, Fid. auto.
Qed.

Lemma addCustomer_effect d st :
  customers (exec (addCustomer d) st)
  = customers st ++
      [ {| Customer.id := nextDraw st;
           Customer.name := CustomerData.name d;
           Customer.phone := CustomerData.phone d;
           Customer.whatsapp := CustomerData.whatsapp d;
           Customer.email := CustomerData.email d;
           Customer.address := CustomerData.address d;
           Customer.createdAt := Date.toISOString (reading st 0);
           Customer.updatedAt := Date.toISOString (reading st 1) |} ]
  /\ invoices (exec (addCustomer d) st) = invoices st
  /\ settings (exec (addCustomer d) st) = settings st.
Proof.
  unfold addCustomer, nextDraw, reading. handler.
  rewrite Nat.add_0_r, Nat.add_1_r. auto.
Qed.

Lemma updateCustomer_effect u st :
  map Customer.id (customers (exec (updateCustomer u) st))
  = map Customer.id (customers st)
  /\ invoices (exec (updateCustomer u) st) = invoices st
  /\ settings (exec (updateCustomer u) st) = settings st.
Proof.
  unfold updateCustomer. unfold exec, bind, gets.
  destruct (replaceAll u (customers st) st) as (Hc & Hi & Hs & Hn & Hid).
  destruct (mapM (replaceCustomer u) (customers st) st) as [next st1].
  cbn [fst snd] in *. handler. auto.
Qed.

Lemma existsb_referenced st customerId :
  existsb (fun inv => (Invoice.customerId inv =? customerId)%string) (invoices st) = true
  <-> referenced st customerId.
Proof.
  unfold referenced. rewrite existsb_exists.
  split; intros (inv & Hin & H); exists inv; split; try assumption.
  - now apply String.eqb_eq.
  - now apply String.eqb_eq.
Qed.

Lemma deleteCustomer_effect customerId st :
  customers (exec (deleteCustomer customerId) st)
  = (if existsb (fun inv => (Invoice.customerId inv =? customerId)%string) (invoices st)
     then customers st
     else filter (fun c => negb (Customer.id c =? customerId)%string) (customers st))
  /\ invoices (exec (deleteCustomer customerId) st) = invoices st
  /\ settings (exec (deleteCustomer customerId) st) = settings st.
Proof.
  unfold deleteCustomer, exec, bind, gets.
  destruct (existsb _ (invoices st)); handler; auto.
Qed.

Lemma deleteInvoice_effect invoiceId st :
  invoices (exec (deleteInvoice invoiceId) st)
  = filter (fun inv => negb (Invoice.id inv =? invoiceId)%string) (invoices st)
  /\ customers (exec (deleteInvoice invoiceId) st) = customers st
  /\ settings (exec (deleteInvoice invoiceId) st) = settings st.
Proof. unfold deleteInvoice. handler. auto. Qed.

End HandlerFacts.

Module InvoiceFacts.

Import Handler App Spec HandlerFacts.

#[local] Arguments Number.add : simpl never.
#[local] Arguments Number.mul : simpl never.
#[local] Arguments NumberFormat.toString : simpl never.
#[local] Arguments JSString.padStart : simpl never.
#[local] Arguments JSString.decimal : simpl never.
#[local] Arguments calculateInvoiceTotals : simpl never.
#[local] Arguments String.append : simpl never.

Lemma addInvoice_found rt d items st c :
  findCustomerById (customers st) (NewInvoiceData.customerId d) = Some c ->
  exists inv,
    eval (addInvoice rt d items) st = Some (Invoice.id inv)
    /\ invoices (exec (addInvoice rt d items) st) = invoices st ++ [inv]
    /\ customers (exec (addInvoice rt d items) st) = customers st
    /\ settings (exec (addInvoice rt d items) st)
       = {| AppSettings.invoicePrefix := AppSettings.invoicePrefix (settings st);
            AppSettings.nextInvoiceNumber :=
              Number.add (AppSettings.nextInvoiceNumber (settings st)) Number.one;
            AppSettings.defaultTaxRate := AppSettings.defaultTaxRate (settings st) |}
    /\ Invoice.id inv
       = (AppSettings.invoicePrefix (settings st)
            ++ JSString.decimal (Date.getFullYear (reading st 0)) ++ "-"
            ++ JSString.padStart 4 "0"
                 (NumberFormat.toString rt
                    (AppSettings.nextInvoiceNumber (settings st))))%string
    /\ Invoice.customerName inv = Customer.name c
    /\ Invoice.items inv = items
    /\ Invoice.subTotal inv
       = Totals.subTotal (calculateInvoiceTotals items (NewInvoiceData.taxRate d))
    /\ Invoice.taxAmount inv
       = Totals.taxAmount (calculateInvoiceTotals items (NewInvoiceData.taxRate d))
    /\ Invoice.totalAmount inv
       = Totals.totalAmount (calculateInvoiceTotals items (NewInvoiceData.taxRate d))
    /\ Invoice.status inv = Draft
    /\ Invoice.createdAt inv = Date.toISOString (reading st 1)
    /\ Invoice.updatedAt inv = Date.toISOString (reading st 2).
Proof.
  intros H. unfold addInvoice, getNextInvoiceId, reading, exec, eval, bind, gets.
  cbn [fst snd]. rewrite H. handler.
  rewrite Nat.add_0_r, Nat.add_1_r.
  replace (clock_reads (world st) + 2)%nat with (S (S (clock_reads (world st)))) by lia.
  eexists. split; [|split; [reflexivity|]]; repeat split.
Qed.

Lemma addInvoice_missing rt d items st :
  findCustomerById (customers st) (NewInvoiceData.customerId d) = None ->
  eval (addInvoice rt d items) st = None
  /\ invoices (exec (addInvoice rt d items) st) = invoices st
  /\ customers (exec (addInvoice rt d items) st) = customers st
  /\ settings (exec (addInvoice rt d items) st) = settings st
  /\ map Notification.type (notifications (exec (addInvoice rt d items) st))
     = map Notification.type (notifications st) ++ [error].
Proof.
  intros H. unfold addInvoice, exec, eval, bind, gets.
  cbn [fst snd]. rewrite H. handler. rewrite map_app. auto.
Qed.

Lemma updateInvoice_found d items st c orig :
  findCustomerById (customers st) (InvoiceUpdate.customerId d) = Some c ->
  findInvoiceById (invoices st) (InvoiceUpdate.id d) = Some orig ->
  exists u,
    invoices (exec (updateInvoice d items) st)
    = map (fun inv => if (Invoice.id inv =? InvoiceUpdate.id d)%string
                      then u else inv) (invoices st)
    /\ Invoice.id u = InvoiceUpdate.id d
    /\ Invoice.createdAt u = Invoice.createdAt orig
    /\ Invoice.updatedAt u = Date.toISOString (reading st 0)
    /\ Invoice.customerName u = Customer.name c
    /\ Invoice.status u = InvoiceUpdate.status d
    /\ Invoice.items u = items
    /\ Invoice.subTotal u
       = Totals.subTotal (calculateInvoiceTotals items (InvoiceUpdate.taxRate d))
    /\ Invoice.taxAmount u
       = Totals.taxAmount (calculateInvoiceTotals items (InvoiceUpdate.taxRate d))
    /\ Invoice.totalAmount u
       = Totals.totalAmount (calculateInvoiceTotals items (InvoiceUpdate.taxRate d)).
Proof.
  intros Hc Hi. unfold updateInvoice, reading, exec, bind, gets.
  cbn [fst snd]. rewrite Hc, Hi. handler. rewrite Nat.add_0_r.
  eexists. repeat split.
Qed.

Lemma updateInvoice_frame d items st :
  customers (exec (updateInvoice d items) st) = customers st
  /\ settings (exec (updateInvoice d items) st) = settings st
  /\ (findCustomerById (customers st) (InvoiceUpdate.customerId d) = None
      \/ findInvoiceById (invoices st) (InvoiceUpdate.id d) = None ->
      invoices (exec (updateInvoice d items) st) = invoices st
      /\ map Notification.type (notifications (exec (updateInvoice d items) st))
         = map Notification.type (notifications st) ++ [error]).
Proof.
  unfold updateInvoice, exec, bind, gets. cbn [fst snd].
  destruct (findCustomerById _ _) as [c|];
    [destruct (findInvoiceById _ _) as [orig|]|]; handler;
    rewrite ?map_app; (split; [reflexivity|]); (split; [reflexivity|]);
    intros Hnone; [destruct Hnone; discriminate | | ]; split; reflexivity.
Qed.

End InvoiceFacts.

Import Handler App Spec Number NumberFacts HandlerFacts InvoiceFacts.

(** C2, as stated, fails when the counter has reached 2^53: the customer
    resolves and the invoice is created, but [n + 1] rounds back to [n]
    and the counter keeps its value. *)
Lemma addInvoice_counter_not_advanced :
  let st := Examples.atLimit in
  let st' := exec (addInvoice Examples.rt (Examples.draftFor Examples.acmeId)
                              [Examples.widget]) st in
  findCustomerById (customers st) Examples.acmeId <> None
  /\ eval (addInvoice Examples.rt (Examples.draftFor Examples.acmeId)
                      [Examples.widget]) st
     = Some "INV-2024-9007199254740992"
  /\ to_Z (AppSettings.nextInvoiceNumber (settings st)) = Some (2 ^ 53)
  /\ to_Z (AppSettings.nextInvoiceNumber (settings st')) = Some (2 ^ 53).
Proof. vm_compute. repeat split; discriminate. Qed.

(** C2, amended.  When the customer id resolves and the counter is an
    integer [n] with [0 <= n] and [n + 1 <= 2^53 - 1], the call returns the
    id of the one invoice it appends; that id is the prefix, the year of the
    clock, a dash and [n] in decimal with zeros in front up to four digits
    and nothing cut off; the invoice carries the name of the resolved
    customer, the given items, the totals of [calculateInvoiceTotals] and
    status Draft whatever status the argument carries; [createdAt] and
    [updatedAt] are the two clock readings that follow the one taken for
    the year; and the counter becomes [n + 1], the rest of the settings and
    the customers staying as they were. *)
Theorem addInvoice_creates rt (st : AppState) (d : NewInvoiceData.t)
    (items : list InvoiceItem.t) (c : Customer.t) (n : Z) :
  findCustomerById (customers st) (NewInvoiceData.customerId d) = Some c ->
  AppSettings.nextInvoiceNumber (settings st) = of_Z n ->
  0 <= n -> n + 1 <= MAX_SAFE_INTEGER ->
  let st' := exec (addInvoice rt d items) st in
  let totals := calculateInvoiceTotals items (NewInvoiceData.taxRate d) in
  exists inv,
    eval (addInvoice rt d items) st = Some (Invoice.id inv)
    /\ invoices st' = invoices st ++ [inv]
    /\ Invoice.id inv
       = (AppSettings.invoicePrefix (settings st)
            ++ JSString.decimal (Date.getFullYear (reading st 0)) ++ "-"
            ++ JSString.zeros (4 - String.length (JSString.decimal n))
            ++ JSString.decimal n)%string
    /\ Invoice.customerName inv = Customer.name c
    /\ Invoice.items inv = items
    /\ Invoice.subTotal inv = Totals.subTotal totals
    /\ Invoice.taxAmount inv = Totals.taxAmount totals
    /\ Invoice.totalAmount inv = Totals.totalAmount totals
    /\ Invoice.status inv = Draft
    /\ Invoice.createdAt inv = Date.toISOString (reading st 1)
    /\ Invoice.updatedAt inv = Date.toISOString (reading st 2)
    /\ AppSettings.nextInvoiceNumber (settings st') = of_Z (n + 1)
    /\ AppSettings.invoicePrefix (settings st')
       = AppSettings.invoicePrefix (settings st)
    /\ AppSettings.defaultTaxRate (settings st')
       = AppSettings.defaultTaxRate (settings st)
    /\ customers st' = customers st.
Proof.
  intros Hc Hn H0 H1. cbv zeta.
  destruct (addInvoice_found rt d items st c Hc)
    as (inv & Hr & Hi & Hcs & Hs & Hid & Hname & Hitems & Hsub & Htax & Htot
        & Hst & Hcr & Hup).
  exists inv. rewrite Hs. cbn [AppSettings.nextInvoiceNumber
    AppSettings.invoicePrefix AppSettings.defaultTaxRate].
  repeat split; try assumption.
  - rewrite Hid, Hn, FormatFacts.toString_of_Z, StringFacts.padStart_zeros
      by (unfold safe_integer; lia).
    reflexivity.
  - rewrite Hn. apply add_one; assumption.
Qed.

(** The identifiers of the specification's examples, and its end-to-end
    scenario on a fresh registry. *)
Example getNextInvoiceId_examples :
  map (fun n => eval (getNextInvoiceId Examples.rt)
                     (Examples.withCounter Examples.withAcme (of_Z n)))
      [1; 42; 10000]
  = ["INV-2024-0001"; "INV-2024-0042"; "INV-2024-10000"].
Proof. vm_compute. reflexivity. Qed.

Example first_invoice_of_acme :
  map (fun inv => (Invoice.id inv, Invoice.customerName inv, Invoice.status inv,
                   Invoice.subTotal inv, Invoice.taxAmount inv,
                   Invoice.totalAmount inv))
      (invoices Examples.withInvoice)
  = [("INV-2024-0001", "Acme", Draft, of_Z 30, of_Z 3, of_Z 33)].
Proof. vm_compute. reflexivity. Qed.

Lemma addInvoice_creates_witness :
  let st' := exec (addInvoice Examples.rt (Examples.draftFor Examples.acmeId)
                              [Examples.widget]) Examples.withAcme in
  exists inv,
    invoices st' = invoices Examples.withAcme ++ [inv]
    /\ Invoice.id inv = "INV-2024-0001"
    /\ Invoice.status inv = Draft
    /\ AppSettings.nextInvoiceNumber (settings st') = of_Z 2.
Proof.
  cbv zeta.
  destruct (addInvoice_creates Examples.rt Examples.withAcme
              (Examples.draftFor Examples.acmeId) [Examples.widget]
              Examples.acmeRecord 1)
    as (inv & Hr & Hi & Hid & _ & _ & _ & _ & _ & Hst & _ & _ & Hn & _).
  - reflexivity.
  - reflexivity.
  - lia.
  - unfold MAX_SAFE_INTEGER. lia.
  - exists inv. repeat split; assumption.
Defined.

Import Handler App Spec Number NumberFacts HandlerFacts InvoiceFacts.

Lemma filter_id_differs {A} (key : A -> string) (k : string) (xs : list A) (x : A) :
  In x (filter (fun y => negb (key y =? k)%string) xs) <-> In x xs /\ key x <> k.
Proof.
  rewrite filter_In, negb_true_iff, String.eqb_neq. reflexivity.
Qed.

(** C3.  When the customer id of a create-invoice call resolves to no
    customer, the call fails (it returns [null] and notifies an error), and
    the invoices and the settings, [nextInvoiceNumber] with them, are what
    they were before the call. *)
Theorem addInvoice_unknown_customer rt (st : AppState) (d : NewInvoiceData.t)
    (items : list InvoiceItem.t) :
  findCustomerById (customers st) (NewInvoiceData.customerId d) = None ->
  eval (addInvoice rt d items) st = None
  /\ invoices (exec (addInvoice rt d items) st) = invoices st
  /\ settings (exec (addInvoice rt d items) st) = settings st
  /\ AppSettings.nextInvoiceNumber (settings (exec (addInvoice rt d items) st))
     = AppSettings.nextInvoiceNumber (settings st)
  /\ map Notification.type (notifications (exec (addInvoice rt d items) st))
     = map Notification.type (notifications st) ++ [error].
Proof.
  intros H.
  destruct (addInvoice_missing rt d items st H) as (Hr & Hi & _ & Hs & Hn).
  rewrite Hs. auto.
Qed.

Lemma addInvoice_unknown_customer_witness :
  findCustomerById (customers Examples.withAcme) "nobody" = None
  /\ eval (addInvoice Examples.rt (Examples.draftFor "nobody") [Examples.widget])
          Examples.withAcme = None
  /\ invoices (exec (addInvoice Examples.rt (Examples.draftFor "nobody")
                                [Examples.widget]) Examples.withAcme)
     = invoices Examples.withAcme.
Proof.
  split; [reflexivity|].
  destruct (addInvoice_unknown_customer Examples.rt Examples.withAcme
              (Examples.draftFor "nobody") [Examples.widget])
    as (Hr & Hi & _); [reflexivity|].
  split; assumption.
Defined.

Module UpdateFacts.

Lemma find_split {A} (p : A -> bool) (xs : list A) x :
  find p xs = Some x ->
  exists before after,
    xs = before ++ x :: after
    /\ Forall (fun y => p y = false) before
    /\ p x = true.
Proof.
  induction xs as [|y ys IH]; cbn [find]; [discriminate|].
  destruct (p y) eqn:E.
  - intros H. inversion H; subst y. exists [], ys. auto.
  - intros H. destruct (IH H) as (before & after & -> & Hb & Hx).
    exists (y :: before), after. split; [reflexivity|]. split; [|exact Hx].
    constructor; assumption.
Qed.

Lemma map_untouched {A} (p : A -> bool) (u : A) (xs : list A) :
  Forall (fun y => p y = false) xs ->
  map (fun y => if p y then u else y) xs = xs.
Proof.
  induction 1 as [|y ys Hy Hys IH]; [reflexivity|].
  cbn [map]. rewrite Hy, IH. reflexivity.
Qed.

Lemma Forall_differs (i : string) (invs : list Invoice.t) :
  Forall (fun inv => Invoice.id inv <> i) invs
  <-> Forall (fun inv => (Invoice.id inv =? i)%string = false) invs.
Proof.
  split; intros H; eapply Forall_impl; try exact H; intros inv;
    apply String.eqb_neq.
Qed.

End UpdateFacts.

Import UpdateFacts.

(** C7, as stated, fails when two invoices carry the id, as they do once
    the counter has been set back on the settings page: both are replaced
    by one record, which has the [createdAt] of the first, so the second
    loses its own. *)
Lemma updateInvoice_overwrites_createdAt :
  let st := MoreExamples.withTwins in
  let st' := exec (updateInvoice
                     (Examples.revision Examples.firstInvoiceId Examples.acmeId)
                     [Examples.widget]) st in
  map Invoice.id (invoices st) = ["INV-2024-0001"; "INV-2024-0001"]
  /\ map Invoice.createdAt (invoices st)
     = ["2024-05-01T10:00:00.003Z"; "2024-05-01T10:00:00.006Z"]
  /\ map Invoice.id (invoices st') = ["INV-2024-0001"; "INV-2024-0001"]
  /\ map Invoice.createdAt (invoices st')
     = ["2024-05-01T10:00:00.003Z"; "2024-05-01T10:00:00.003Z"]
  /\ map Invoice.createdAt (invoices st') <> map Invoice.createdAt (invoices st).
Proof.
  cbv zeta.
  assert (H1 : map Invoice.createdAt (invoices MoreExamples.withTwins)
               = ["2024-05-01T10:00:00.003Z"; "2024-05-01T10:00:00.006Z"])
    by (vm_compute; reflexivity).
  assert (H2 : map Invoice.createdAt
                 (invoices (exec (updateInvoice
                     (Examples.revision Examples.firstInvoiceId Examples.acmeId)
                     [Examples.widget]) MoreExamples.withTwins))
               = ["2024-05-01T10:00:00.003Z"; "2024-05-01T10:00:00.003Z"])
    by (vm_compute; reflexivity).
  split; [vm_compute; reflexivity|]. split; [exact H1|].
  split; [vm_compute; reflexivity|]. split; [exact H2|].
  rewrite H1, H2. discriminate.
Qed.

(** C7, amended.  When the customer id resolves and an invoice with the
    given id exists, the invoice found is the first one with that id; it
    and every later invoice with the id are replaced by one record, and
    all other invoices stay where they are.  The record keeps the
    [createdAt] of the invoice found, its [updatedAt] is the clock reading
    of the call, and its totals are recomputed from the new items and tax
    rate: the subtotal is the sum of the line totals from left to right
    (the exact sum for whole totals below 2^53), the tax amount is the
    subtotal times the rate and the total amount is their sum.  So when
    one invoice only carries the id, it keeps its [createdAt] and so does
    every invoice of the registry.  When no invoice has the given id, the
    update fails: an error is notified and the invoices are what they were
    before the call. *)
Theorem updateInvoice_preserves_createdAt (st : AppState) (d : InvoiceUpdate.t)
    (items : list InvoiceItem.t) :
  let st' := exec (updateInvoice d items) st in
  let subTotal := partialSum (map InvoiceItem.total items) (List.length items) in
  let taxAmount := mul subTotal (InvoiceUpdate.taxRate d) in
  (forall c orig,
      findCustomerById (customers st) (InvoiceUpdate.customerId d) = Some c ->
      findInvoiceById (invoices st) (InvoiceUpdate.id d) = Some orig ->
      exists u before after,
        invoices st = before ++ orig :: after
        /\ Forall (fun inv => Invoice.id inv <> InvoiceUpdate.id d) before
        /\ invoices st'
           = before ++ u ::
               map (fun inv => if (Invoice.id inv =? InvoiceUpdate.id d)%string
                               then u else inv) after
        /\ (Forall (fun inv => Invoice.id inv <> InvoiceUpdate.id d) after ->
            invoices st' = before ++ u :: after
            /\ map Invoice.createdAt (invoices st')
               = map Invoice.createdAt (invoices st))
        /\ In u (invoices st')
        /\ (forall inv, In inv (invoices st') ->
                        Invoice.id inv = InvoiceUpdate.id d -> inv = u)
        /\ (forall inv, Invoice.id inv <> InvoiceUpdate.id d ->
                        (In inv (invoices st') <-> In inv (invoices st)))
        /\ List.length (invoices st') = List.length (invoices st)
        /\ Invoice.id u = InvoiceUpdate.id d
        /\ Invoice.createdAt u = Invoice.createdAt orig
        /\ Invoice.updatedAt u = Date.toISOString (reading st 0)
        /\ Invoice.items u = items
        /\ Invoice.subTotal u = subTotal
        /\ Invoice.taxAmount u = taxAmount
        /\ Invoice.totalAmount u = add subTotal taxAmount
        /\ (Forall wholeTotal items -> sumMagnitudes items < 2 ^ 53 ->
            Invoice.subTotal u = of_Z (sumAmounts items)))
  /\ (findInvoiceById (invoices st) (InvoiceUpdate.id d) = None ->
      invoices st' = invoices st
      /\ map Notification.type (notifications st')
         = map Notification.type (notifications st) ++ [error]).
Proof.
  cbv zeta. split.
  - intros c orig Hc Hi.
    destruct (updateInvoice_found d items st c orig Hc Hi)
      as (u & Hmap & Hid & Hcr & Hup & _ & _ & Hitems & Hsub & Htax & Htot).
    unfold findInvoiceById in Hi.
    destruct (find_split _ _ _ Hi) as (before & after & Hsplit & Hbefore & Horig).
    assert (Hshape : invoices (exec (updateInvoice d items) st)
                     = before ++ u ::
                         map (fun inv =>
                                if (Invoice.id inv =? InvoiceUpdate.id d)%string
                                then u else inv) after).
    { rewrite Hmap, Hsplit, map_app. cbn [map]. rewrite Horig.
      rewrite (map_untouched (fun inv => (Invoice.id inv =? InvoiceUpdate.id d)%string)
                 u before Hbefore).
      reflexivity. }
    assert (Hsum : Invoice.subTotal u
                   = partialSum (map InvoiceItem.total items) (List.length items)).
    { rewrite Hsub. unfold calculateInvoiceTotals. cbn [Totals.subTotal].
      apply reduce_partialSum. }
    exists u, before, after.
    split; [exact Hsplit|].
    split; [apply Forall_differs; exact Hbefore|].
    split; [exact Hshape|].
    split.
    { intros Hafter. apply Forall_differs in Hafter.
      assert (E : invoices (exec (updateInvoice d items) st) = before ++ u :: after).
      { rewrite Hshape.
        rewrite (map_untouched (fun inv => (Invoice.id inv =? InvoiceUpdate.id d)%string)
                   u after Hafter).
        reflexivity. }
      split; [exact E|].
      rewrite E, Hsplit, !map_app. cbn [map]. rewrite Hcr. reflexivity. }
    split; [rewrite Hshape; apply in_or_app; right; left; reflexivity|].
    split.
    { intros inv Hinv Hidv. rewrite Hmap in Hinv. apply in_map_iff in Hinv.
      destruct Hinv as (inv0 & E & _).
      destruct (Invoice.id inv0 =? InvoiceUpdate.id d)%string eqn:E0.
      - congruence.
      - subst inv. apply String.eqb_neq in E0. contradiction. }
    split.
    { intros inv Hne. rewrite Hmap. split.
      - intros Hinv. apply in_map_iff in Hinv.
        destruct Hinv as (inv0 & E & Hin0).
        destruct (Invoice.id inv0 =? InvoiceUpdate.id d)%string eqn:E0.
        + subst inv. contradiction.
        + subst inv. assumption.
      - intros Hinv. apply in_map_iff. exists inv.
        apply String.eqb_neq in Hne. rewrite Hne. auto. }
    split; [rewrite Hmap; apply length_map|].
    split; [exact Hid|]. split; [exact Hcr|]. split; [exact Hup|].
    split; [exact Hitems|]. split; [exact Hsum|].
    split; [rewrite Htax, <- Hsum, Hsub; reflexivity|].
    split; [rewrite Htot, <- Hsum, Hsub; reflexivity|].
    intros Hw Hb. rewrite Hsub. apply subTotal_whole; assumption.
  - intros Hi. apply (updateInvoice_frame d items st). auto.
Qed.

Lemma updateInvoice_preserves_createdAt_witness :
  (exists u,
     invoices (exec (updateInvoice
              (Examples.revision Examples.firstInvoiceId Examples.acmeId)
              [Examples.widget; Examples.gadget]) Examples.withInvoice)
     = [u]
     /\ Invoice.createdAt u = "2024-05-01T10:00:00.003Z"
     /\ Invoice.updatedAt u = "2024-05-01T10:00:00.005Z"
     /\ Invoice.subTotal u = of_Z 42)
  /\ invoices (exec (updateInvoice
              (Examples.revision "INV-2024-0777" Examples.acmeId)
              [Examples.widget]) Examples.withInvoice)
     = invoices Examples.withInvoice.
Proof.
  split.
  - destruct (proj1 (updateInvoice_preserves_createdAt Examples.withInvoice
                (Examples.revision Examples.firstInvoiceId Examples.acmeId)
                [Examples.widget; Examples.gadget])
                Examples.acmeRecord
                (hd (Invoice.Build_t "" "" "" "" "" [] zero zero zero zero None Draft "" "")
                    (invoices Examples.withInvoice))
                eq_refl eq_refl)
      as (u & before & after & Hsplit & _ & _ & Hone & _ & _ & _ & _ & _
          & Hcr & Hup & _ & _ & _ & _ & Hwhole).
    assert (Hw : Forall wholeTotal [Examples.widget; Examples.gadget])
      by (repeat constructor).
    assert (Hb : sumMagnitudes [Examples.widget; Examples.gadget] < 2 ^ 53)
      by reflexivity.
    destruct before as [|b before].
    + cbn [app] in Hsplit. destruct after as [|a after].
      * destruct (Hone (Forall_nil _)) as [E _]. exists u.
        split; [exact E|]. split; [exact Hcr|]. split; [exact Hup|].
        exact (Hwhole Hw Hb).
      * exfalso. discriminate Hsplit.
    + exfalso. destruct before; discriminate Hsplit.
  - apply (proj2 (updateInvoice_preserves_createdAt Examples.withInvoice
                    (Examples.revision "INV-2024-0777" Examples.acmeId)
                    [Examples.widget])).
    reflexivity.
Defined.

(** C8.  Deleting a customer to whom an invoice refers is rejected: an
    error is notified and the customers and the invoices are what they
    were before the call.  When no invoice refers to the customer, the
    records with that id are removed, the other customers and the invoices
    staying as they were. *)
Theorem deleteCustomer_guard (st : AppState) (customerId : string) :
  let st' := exec (deleteCustomer customerId) st in
  (referenced st customerId ->
     customers st' = customers st
     /\ invoices st' = invoices st
     /\ map Notification.type (notifications st')
        = map Notification.type (notifications st) ++ [error])
  /\ (~ referenced st customerId ->
     customers st'
     = filter (fun c => negb (Customer.id c =? customerId)%string) (customers st)
     /\ (forall c, In c (customers st') <->
                   In c (customers st) /\ Customer.id c <> customerId)
     /\ invoices st' = invoices st).
Proof.
  cbv zeta.
  destruct (deleteCustomer_effect customerId st) as (Hc & Hi & _).
  pose proof (existsb_referenced st customerId) as Href.
  split; intros H.
  - apply Href in H. rewrite H in Hc. repeat split; try assumption.
    unfold deleteCustomer, exec, bind, gets. rewrite H. handler.
    rewrite map_app. reflexivity.
  - destruct (existsb _ (invoices st)) eqn:E.
    + exfalso. apply H, Href. reflexivity.
    + rewrite Hc. split; [reflexivity|]. split; [|assumption].
      intros c. apply filter_id_differs.
Qed.

Lemma deleteCustomer_guard_witness :
  (customers (exec (deleteCustomer Examples.acmeId) Examples.withInvoice)
   = customers Examples.withInvoice
   /\ invoices (exec (deleteCustomer Examples.acmeId) Examples.withInvoice)
      = invoices Examples.withInvoice)
  /\ customers (exec (deleteCustomer Examples.acmeId) Examples.withAcme) = [].
Proof.
  split.
  - destruct (proj1 (deleteCustomer_guard Examples.withInvoice Examples.acmeId))
      as (Hc & Hi & _).
    + eexists. split; [left; reflexivity | reflexivity].
    + split; assumption.
  - destruct (proj2 (deleteCustomer_guard Examples.withAcme Examples.acmeId))
      as (Hc & _).
    + intros (inv & Hin & _). exact Hin.
    + rewrite Hc. reflexivity.
Defined.

(** C10.  Deleting an invoice removes every invoice whose id is the given
    one, also when several invoices share it, and keeps the others in
    their order; the call always completes with a success notification and
    leaves the customers and the settings as they were. *)
Theorem deleteInvoice_removes_all (st : AppState) (invoiceId : string) :
  let st' := exec (deleteInvoice invoiceId) st in
  invoices st'
  = filter (fun inv => negb (Invoice.id inv =? invoiceId)%string) (invoices st)
  /\ (forall inv, In inv (invoices st') <->
                  In inv (invoices st) /\ Invoice.id inv <> invoiceId)
  /\ customers st' = customers st
  /\ settings st' = settings st
  /\ map Notification.type (notifications st')
     = map Notification.type (notifications st) ++ [success].
Proof.
  cbv zeta.
  destruct (deleteInvoice_effect invoiceId st) as (Hi & Hc & Hs).
  rewrite Hi. split; [reflexivity|]. split; [|split; [assumption|split; [assumption|]]].
  - intros inv. apply filter_id_differs.
  - unfold deleteInvoice. handler. rewrite map_app. reflexivity.
Qed.

(** Two invoices numbered alike (the counter was at 2^53) go with one
    call. *)
Example deleteInvoice_duplicates :
  let ops := [AddInvoice (Examples.draftFor Examples.acmeId) [Examples.widget];
              AddInvoice (Examples.draftFor Examples.acmeId) [Examples.gadget]] in
  let st := performAll Examples.rt ops Examples.atLimit in
  map Invoice.id (invoices st)
  = ["INV-2024-9007199254740992"; "INV-2024-9007199254740992"]
  /\ invoices (exec (deleteInvoice "INV-2024-9007199254740992") st) = [].
Proof. vm_compute. split; reflexivity. Qed.

Module RunFacts.

Import Handler App Spec Number NumberFacts HandlerFacts InvoiceFacts.

(** An operation that is no successful creation leaves the settings
    alone. *)
Lemma perform_keeps_settings rt op st :
  fst (perform rt op st) = false ->
  settings (snd (perform rt op st)) = settings st.
Proof.
  destruct op as [d|u|i|d its|d its|i]; cbn [perform fst snd]; intros H.
  - apply addCustomer_effect.
  - apply updateCustomer_effect.
  - apply deleteCustomer_effect.
  - unfold run in *.
    destruct (findCustomerById (customers st) (NewInvoiceData.customerId d)) as [c|] eqn:E.
    + destruct (addInvoice_found rt d its st c E) as (inv & Hr & _).
      unfold eval in Hr. destruct (addInvoice rt d its st) as [r st'].
      cbn [fst snd] in *. subst r. discriminate.
    + destruct (addInvoice_missing rt d its st E) as (_ & _ & _ & Hs & _).
      unfold exec in Hs. destruct (addInvoice rt d its st) as [r st'].
      exact Hs.
  - apply updateInvoice_frame.
  - apply deleteInvoice_effect.
Qed.

(** A successful creation adds 1 to the counter, in double precision. *)
Lemma perform_created rt op st :
  fst (perform rt op st) = true ->
  AppSettings.nextInvoiceNumber (settings (snd (perform rt op st)))
  = add (AppSettings.nextInvoiceNumber (settings st)) one.
Proof.
  destruct op as [d|u|i|d its|d its|i]; cbn [perform fst snd]; intros H;
    try discriminate.
  unfold run in *.
  destruct (findCustomerById (customers st) (NewInvoiceData.customerId d)) as [c|] eqn:E.
  - destruct (addInvoice_found rt d its st c E) as (inv & _ & _ & _ & Hs & _).
    unfold exec in Hs. destruct (addInvoice rt d its st) as [r st'].
    cbn [fst snd] in *. rewrite Hs. reflexivity.
  - destruct (addInvoice_missing rt d its st E) as (Hr & _).
    unfold eval in Hr. destruct (addInvoice rt d its st) as [r st'].
    cbn [fst snd] in *. subst r. discriminate.
Qed.

Lemma issued_cons rt op ops st :
  issued rt (op :: ops) st
  = if fst (perform rt op st)
    then AppSettings.nextInvoiceNumber (settings st)
           :: issued rt ops (snd (perform rt op st))
    else issued rt ops (snd (perform rt op st)).
Proof. cbn [issued]. destruct (perform rt op st) as [created st']. reflexivity. Qed.

Lemma range_cons n k : range n (S k) = n :: range (n + 1) k.
Proof.
  unfold range. cbn [seq map]. rewrite Z.add_0_r. f_equal.
  rewrite <- seq_shift, map_map. apply map_ext. intros i. lia.
Qed.

Lemma range_bounds n k z : In z (range n k) -> n <= z < n + Z.of_nat k.
Proof.
  unfold range. rewrite in_map_iff. intros (i & <- & Hi).
  apply in_seq in Hi. lia.
Qed.

Lemma range_NoDup n k : NoDup (range n k).
Proof.
  revert n. induction k as [|k IH]; intros n.
  - constructor.
  - rewrite range_cons. constructor; [|apply IH].
    intros Hin. apply range_bounds in Hin. lia.
Qed.

Lemma NoDup_map_injective {A B} (f : A -> B) (xs : list A) :
  (forall x y, In x xs -> In y xs -> f x = f y -> x = y) ->
  NoDup xs -> NoDup (map f xs).
Proof.
  intros Hinj Hnd. induction Hnd as [|x xs Hx Hnd IH]; cbn [map]; constructor.
  - intros Hin. apply in_map_iff in Hin. destruct Hin as (y & E & Hy).
    assert (y = x) by (apply Hinj; [right; assumption | left; reflexivity | assumption]).
    subst y. contradiction.
  - apply IH. intros a b Ha Hb. apply Hinj; right; assumption.
Qed.

Lemma of_Z_range_NoDup n k :
  0 <= n -> n + Z.of_nat k <= MAX_SAFE_INTEGER -> NoDup (map of_Z (range n k)).
Proof.
  intros H0 H1. unfold MAX_SAFE_INTEGER in H1.
  apply NoDup_map_injective; [|apply range_NoDup].
  intros a b Ha Hb E. apply range_bounds in Ha, Hb.
  apply of_Z_inj; [lia|lia|assumption].
Qed.

(** The counter along a run that stays within the safe integers. *)
Lemma counter_run rt ops : forall st n,
  AppSettings.nextInvoiceNumber (settings st) = of_Z n ->
  0 <= n ->
  n + Z.of_nat (List.length (issued rt ops st)) <= MAX_SAFE_INTEGER ->
  AppSettings.nextInvoiceNumber (settings (performAll rt ops st))
  = of_Z (n + Z.of_nat (List.length (issued rt ops st)))
  /\ issued rt ops st = map of_Z (range n (List.length (issued rt ops st))).
Proof.
  induction ops as [|op ops IH]; intros st n Hn H0 Hb.
  - cbn. rewrite Z.add_0_r. auto.
  - rewrite issued_cons in *. cbn [performAll].
    destruct (fst (perform rt op st)) eqn:E.
    + cbn [List.length] in *.
      pose proof (perform_created rt op st E) as Hc.
      rewrite Hn, add_one in Hc by lia.
      destruct (IH _ (n + 1) Hc) as [Hfin Hiss]; [lia|lia|].
      rewrite Hfin, range_cons. cbn [map]. rewrite <- Hiss, Hn.
      split; [f_equal; lia | reflexivity].
    + pose proof (perform_keeps_settings rt op st E) as Hk.
      apply IH; [rewrite Hk; assumption | assumption | assumption].
Qed.

End RunFacts.

Import Handler App Spec Number NumberFacts HandlerFacts InvoiceFacts RunFacts.

(** C4, as stated, fails when the counter has reached 2^53: two successive
    successful creations leave the counter where it was, and both invoices
    are numbered 9007199254740992. *)
Lemma counter_reuses_number :
  let ops := [AddInvoice (Examples.draftFor Examples.acmeId) [Examples.widget];
              AddInvoice (Examples.draftFor Examples.acmeId) [Examples.gadget]] in
  let st' := performAll Examples.rt ops Examples.atLimit in
  map (fun op => fst (perform Examples.rt op Examples.atLimit)) ops = [true; true]
  /\ issued Examples.rt ops Examples.atLimit = [of_Z (2 ^ 53); of_Z (2 ^ 53)]
  /\ AppSettings.nextInvoiceNumber (settings st')
     = AppSettings.nextInvoiceNumber (settings Examples.atLimit)
  /\ map Invoice.id (invoices st')
     = ["INV-2024-9007199254740992"; "INV-2024-9007199254740992"].
Proof. vm_compute. repeat split. Qed.

(** C4, amended.  The settings are changed by no registry operation other
    than an invoice creation that succeeds, and that one adds 1 to the
    counter in double precision.  So along every sequence of registry
    operations that starts with the counter at an integer [n >= 0] and
    contains [k] successful creations with [n + k <= 2^53 - 1], the counter
    ends at [n + k] and the numbers given out are [n], [n + 1], ...,
    [n + k - 1], none of them twice, whatever was updated or deleted in
    between. *)
Theorem counter_monotonic rt (ops : list Operation) (st : AppState) (n : Z) :
  AppSettings.nextInvoiceNumber (settings st) = of_Z n ->
  0 <= n ->
  n + Z.of_nat (List.length (issued rt ops st)) <= MAX_SAFE_INTEGER ->
  let k := List.length (issued rt ops st) in
  AppSettings.nextInvoiceNumber (settings (performAll rt ops st))
  = of_Z (n + Z.of_nat k)
  /\ issued rt ops st = map of_Z (range n k)
  /\ NoDup (issued rt ops st)
  /\ (forall op st0,
        fst (perform rt op st0) = false ->
        settings (snd (perform rt op st0)) = settings st0)
  /\ (forall op st0,
        fst (perform rt op st0) = true ->
        AppSettings.nextInvoiceNumber (settings (snd (perform rt op st0)))
        = add (AppSettings.nextInvoiceNumber (settings st0)) one).
Proof.
  intros Hn H0 Hb. cbv zeta.
  destruct (counter_run rt ops st n Hn H0 Hb) as [Hfin Hiss].
  split; [assumption|]. split; [assumption|]. split.
  - rewrite Hiss. apply of_Z_range_NoDup; assumption.
  - split; intros op st0.
    + apply perform_keeps_settings.
    + apply perform_created.
Qed.

Lemma counter_monotonic_witness :
  let ops := [AddInvoice (Examples.draftFor Examples.acmeId) [Examples.widget];
              UpdateInvoice (Examples.revision Examples.firstInvoiceId Examples.acmeId)
                            [Examples.gadget];
              DeleteInvoice Examples.firstInvoiceId;
              AddInvoice (Examples.draftFor "nobody") [Examples.widget];
              AddInvoice (Examples.draftFor Examples.acmeId) [Examples.gizmo]] in
  AppSettings.nextInvoiceNumber
    (settings (performAll Examples.rt ops Examples.withAcme)) = of_Z 3
  /\ issued Examples.rt ops Examples.withAcme = [of_Z 1; of_Z 2].
Proof.
  cbv zeta.
  match goal with
  | |- context [performAll _ ?ops _] =>
      destruct (counter_monotonic Examples.rt ops Examples.withAcme 1)
        as (Hfin & Hiss & _)
  end.
  - reflexivity.
  - lia.
  - vm_compute. discriminate.
  - split; [exact Hfin | exact Hiss].
Defined.

Module RegistryFacts.

Import Handler App Spec Number HandlerFacts InvoiceFacts.

Lemma map_filter_id (i : string) (cs : list Customer.t) :
  map Customer.id (filter (fun c => negb (Customer.id c =? i)%string) cs)
  = filter (fun x => negb (x =? i)%string) (map Customer.id cs).
Proof.
  induction cs as [|c cs IH]; [reflexivity|]. cbn [filter map].
  destruct (negb (Customer.id c =? i)%string); cbn [map]; now rewrite IH.
Qed.

(** What one operation does to the list of customer ids. *)
Lemma perform_customerIds rt op st :
  customerIds (snd (perform rt op st))
  = match op with
    | AddCustomer _ => customerIds st ++ [nextDraw st]
    | DeleteCustomer i =>
        if existsb (fun inv => (Invoice.customerId inv =? i)%string) (invoices st)
        then customerIds st
        else filter (fun x => negb (x =? i)%string) (customerIds st)
    | _ => customerIds st
    end.
Proof.
  unfold customerIds.
  destruct op as [d|u|i|d its|d its|i]; cbn [perform fst snd].
  - destruct (addCustomer_effect d st) as (Hc & _). rewrite Hc, map_app. reflexivity.
  - apply updateCustomer_effect.
  - destruct (deleteCustomer_effect i st) as (Hc & _). rewrite Hc.
    destruct (existsb _ (invoices st)); [reflexivity | apply map_filter_id].
  - unfold run.
    destruct (findCustomerById (customers st) (NewInvoiceData.customerId d)) as [c|] eqn:E.
    + destruct (addInvoice_found rt d its st c E) as (inv & _ & _ & Hc & _).
      unfold exec in Hc. destruct (addInvoice rt d its st) as [r st'].
      cbn [snd] in *. now rewrite Hc.
    + destruct (addInvoice_missing rt d its st E) as (_ & _ & Hc & _).
      unfold exec in Hc. destruct (addInvoice rt d its st) as [r st'].
      cbn [snd] in *. now rewrite Hc.
  - destruct (updateInvoice_frame d its st) as (Hc & _). now rewrite Hc.
  - destruct (deleteInvoice_effect i st) as (_ & Hc & _). now rewrite Hc.
Qed.

Lemma inList_In x xs : inList x xs = true <-> In x xs.
Proof.
  unfold inList. rewrite existsb_exists. split.
  - intros (y & Hy & E). apply String.eqb_eq in E. now subst.
  - intros H. exists x. split; [assumption | apply String.eqb_refl].
Qed.

Lemma NoDup_snoc {A} (xs : list A) (x : A) :
  NoDup xs -> ~ In x xs -> NoDup (xs ++ [x]).
Proof.
  intros Hnd Hx. induction Hnd as [|y ys Hy Hnd IH]; cbn [app].
  - constructor; [intros []|constructor].
  - constructor.
    + rewrite in_app_iff. intros [H|[H|[]]]; [contradiction|].
      subst. apply Hx. left. reflexivity.
    + apply IH. intros H. apply Hx. right. assumption.
Qed.

Lemma perform_NoDup rt op st :
  NoDup (customerIds st) ->
  match op with
  | AddCustomer _ => inList (nextDraw st) (customerIds st) = false
  | _ => True
  end ->
  NoDup (customerIds (snd (perform rt op st))).
Proof.
  intros Hnd Hfresh. rewrite perform_customerIds.
  destruct op as [d|u|i|d its|d its|i]; try assumption.
  - apply NoDup_snoc; [assumption|]. intros Hin.
    apply inList_In in Hin. congruence.
  - destruct (existsb _ (invoices st)); [assumption | now apply NoDup_filter].
Qed.

End RegistryFacts.

Import Handler App Spec Number HandlerFacts InvoiceFacts RegistryFacts.

(** C5.  [generateId] is meant to give unique ids, and [addCustomer]
    takes its result without comparing it with the ids in the registry:
    when [Math.random()] yields 0.5 for two new customers, both get the
    id ["i"] and the registry holds two customers under one id. *)
Lemma customer_ids_collide :
  let st := performAll Examples.rt [AddCustomer Examples.acme;
                                    AddCustomer Examples.bolt]
                       (initialState Examples.worldRepeating) in
  map Customer.name (customers st) = ["Acme"; "Bolt"]
  /\ customerIds st = ["i"; "i"]
  /\ ~ NoDup (customerIds st).
Proof.
  cbv zeta. split; [reflexivity|]. split; [reflexivity|].
  intros H. change (NoDup ["i"; "i"]) in H.
  inversion H as [|x xs Hin _]. apply Hin. left. reflexivity.
Qed.

(** What does hold of the ids of the customers.  No operation changes
    the id of a customer in the registry: adding a customer appends one
    id, the next random draw; deleting a customer removes the given id or
    nothing; every other operation, updating a customer included, leaves
    the list of ids as it is.  So from a registry without a repeated id,
    every run in which each id drawn for a new customer is not yet in the
    registry ends in a registry without a repeated id. *)
Theorem customer_ids_unique rt (ops : list Operation) (st : AppState) :
  NoDup (customerIds st) ->
  freshDraws rt ops st = true ->
  NoDup (customerIds (performAll rt ops st))
  /\ (forall op st0,
        customerIds (snd (perform rt op st0))
        = match op with
          | AddCustomer _ => customerIds st0 ++ [nextDraw st0]
          | DeleteCustomer i =>
              if existsb (fun inv => (Invoice.customerId inv =? i)%string)
                         (invoices st0)
              then customerIds st0
              else filter (fun x => negb (x =? i)%string) (customerIds st0)
          | _ => customerIds st0
          end).
Proof.
  intros Hnd Hfresh. split; [|intros op st0; apply perform_customerIds].
  revert st Hnd Hfresh. induction ops as [|op ops IH]; intros st Hnd Hfresh.
  - exact Hnd.
  - cbn [performAll freshDraws] in *. apply andb_true_iff in Hfresh.
    destruct Hfresh as [Hop Hrest]. apply IH; [|assumption].
    apply perform_NoDup; [assumption|].
    destruct op; try exact I. now apply negb_true_iff in Hop.
Qed.

Lemma customer_ids_unique_witness :
  let ops := [AddCustomer Examples.bolt;
              UpdateCustomer (Customer.with_updatedAt Examples.acmeRecord "");
              DeleteCustomer "k3x0";
              AddCustomer Examples.acme] in
  NoDup (customerIds Examples.withAcme)
  /\ NoDup (customerIds (performAll Examples.rt ops Examples.withAcme))
  /\ customerIds (performAll Examples.rt ops Examples.withAcme) = ["k3x2"; "k3x6"].
Proof.
  cbv zeta.
  assert (H0 : NoDup (customerIds Examples.withAcme)).
  { change (NoDup ["k3x0"]). constructor; [intros []|constructor]. }
  split; [exact H0|]. split; [|reflexivity].
  match goal with
  | |- NoDup (customerIds (performAll _ ?ops _)) =>
      apply (proj1 (customer_ids_unique Examples.rt ops Examples.withAcme H0
                      eq_refl))
  end.
Defined.

Module EditorFacts.

Import App Spec Number.

Lemma same_value_refl x : same_value x x.
Proof. destruct x; cbn; auto. Qed.

(** Without a [NaN] operand, [(q || 0) * (p || 0)] is the number [q * p]. *)
Lemma guarded_product q p :
  isNaN q = false -> isNaN p = false ->
  same_value (mul (or_zero q) (or_zero p)) (mul q p).
Proof.
  intros Hq Hp.
  destruct q as [sq|sq| |sq mq eq]; destruct p as [sp|sp| |sp mp ep];
    try discriminate; unfold or_zero; cbn [truthy];
    try apply same_value_refl; unfold mul, zero; cbn [SFmul same_value];
    auto.
Qed.

Lemma parsedValue_string rt s :
  parsedValue rt (inl s)
  = (if isNaN (parseFloat rt s) then zero else parseFloat rt s)
  /\ isNaN (parsedValue rt (inl s)) = false.
Proof.
  cbn [parsedValue]. split; [reflexivity|].
  destruct (isNaN (parseFloat rt s)) eqn:E; [reflexivity | assumption].
Qed.

Lemma replaceAt_same {A} (xs : list A) i x y :
  nth_error xs i = Some y -> nth_error (replaceAt xs i x) i = Some x.
Proof.
  revert i. induction xs as [|z xs IH]; intros [|i] H; cbn in *;
    try discriminate; auto.
Qed.

Lemma replaceAt_other {A} (xs : list A) i j x :
  j <> i -> nth_error (replaceAt xs i x) j = nth_error xs j.
Proof.
  revert i j. induction xs as [|z xs IH]; intros [|i] [|j] H; cbn;
    try reflexivity; try contradiction.
  apply IH. congruence.
Qed.

Lemma replaceAt_length {A} (xs : list A) i x :
  List.length (replaceAt xs i x) = List.length xs.
Proof.
  revert i. induction xs as [|z xs IH]; intros [|i]; cbn; auto.
Qed.

Lemma recomputeTotal_fields item :
  InvoiceItem.quantity (recomputeTotal item) = InvoiceItem.quantity item
  /\ InvoiceItem.unitPrice (recomputeTotal item) = InvoiceItem.unitPrice item
  /\ InvoiceItem.total (recomputeTotal item)
     = mul (or_zero (InvoiceItem.quantity item)) (or_zero (InvoiceItem.unitPrice item)).
Proof. cbn. auto. Qed.

Lemma replaceAt_Forall {A} (P : A -> Prop) (xs : list A) i x :
  Forall P xs -> P x -> Forall P (replaceAt xs i x).
Proof.
  intros H Hx. revert i. induction H as [|y ys Hy Hys IH]; intros [|i];
    cbn [replaceAt]; constructor; auto.
Qed.

Lemma or_zero_truthy x : truthy x = true -> or_zero x = x.
Proof. intros H. unfold or_zero. rewrite H. reflexivity. Qed.

(** The rows that [addItem] appends are numeric. *)
Lemma addItem_numeric items st :
  Forall numericRow items -> Forall numericRow (Handler.eval (Pages.addItem items) st).
Proof.
  intros H. unfold Pages.addItem. handler. apply Forall_app. split; [exact H|].
  constructor; [|constructor]. split; reflexivity.
Qed.

Lemma removeItem_numeric items index :
  Forall numericRow items -> Forall numericRow (Pages.removeItem items index).
Proof.
  unfold Pages.removeItem. generalize 0%nat.
  intros n H. revert n. induction H as [|x xs Hx Hxs IH]; intros n;
    cbn [Pages.dropIndex]; [constructor|].
  destruct (n =? index)%nat; [apply IH | constructor; [exact Hx | apply IH]].
Qed.
End EditorFacts.

Import App Spec Number EditorFacts.

(** C9.  The inputs of the form pass what was typed, a string, and the
    rows of the form hold numbers as quantity and unit price: a new row
    has quantity 1 and price 0, and an edit stores what [parseFloat]
    returns, or 0 when that is [NaN].  For every such edit of the quantity
    or the unit price of a row, the edit is not rejected and replaces that
    row only; the edited field is the parsed number, 0 for a text that does
    not parse; the other fields but the total are kept; and the total of
    the new row is its quantity times its unit price (as numbers: the sign
    of a zero apart, and the very product when neither is a zero).  The
    rows hold numbers afterwards as well. *)
Theorem handleItemChange_total rt (items : list InvoiceItem.t) (index : nat)
    (edit : ItemEdit) (item : InvoiceItem.t) (s : string) :
  nth_error items index = Some item ->
  typedText edit = Some s ->
  Forall numericRow items ->
  exists item',
    handleItemChange rt items index edit = Some (replaceAt items index item')
    /\ nth_error (replaceAt items index item') index = Some item'
    /\ (forall j, j <> index ->
          nth_error (replaceAt items index item') j = nth_error items j)
    /\ same_value (InvoiceItem.total item')
         (mul (InvoiceItem.quantity item') (InvoiceItem.unitPrice item'))
    /\ (truthy (InvoiceItem.quantity item') = true ->
        truthy (InvoiceItem.unitPrice item') = true ->
        InvoiceItem.total item'
        = mul (InvoiceItem.quantity item') (InvoiceItem.unitPrice item'))
    /\ editedField edit item'
       = Some (if isNaN (parseFloat rt s) then zero else parseFloat rt s)
    /\ (isNaN (parseFloat rt s) = true -> editedField edit item' = Some zero)
    /\ InvoiceItem.id item' = InvoiceItem.id item
    /\ InvoiceItem.description item' = InvoiceItem.description item
    /\ match edit with
       | EditQuantity _ => InvoiceItem.unitPrice item' = InvoiceItem.unitPrice item
       | EditUnitPrice _ => InvoiceItem.quantity item' = InvoiceItem.quantity item
       | _ => True
       end
    /\ Forall numericRow (replaceAt items index item').
Proof.
  intros Hnth Hedit Hrows.
  assert (Hitem : numericRow item).
  { rewrite Forall_forall in Hrows. apply Hrows.
    eapply nth_error_In. exact Hnth. }
  exists (recomputeTotal (assignField rt item edit)).
  destruct (recomputeTotal_fields (assignField rt item edit)) as (Hq & Hp & Ht).
  assert (Hnum : numericRow (recomputeTotal (assignField rt item edit))).
  { unfold numericRow. rewrite Hq, Hp.
    destruct item as [id description quantity unitPrice total].
    destruct Hitem as [Nq Np]. cbn in Nq, Np.
    destruct edit as [v|v|[s0|n]|[s0|n]|v]; try discriminate Hedit;
      cbn [assignField InvoiceItem.quantity InvoiceItem.unitPrice];
      split; try assumption; apply parsedValue_string. }
  split; [unfold handleItemChange; rewrite Hnth; reflexivity|].
  split; [eapply replaceAt_same; eassumption|].
  split; [intros j Hj; apply replaceAt_other; assumption|].
  split.
  { destruct Hnum as [Nq Np]. rewrite Ht. rewrite Hq in Nq. rewrite Hp in Np.
    rewrite Hq, Hp. apply guarded_product; assumption. }
  split.
  { intros Tq Tp. rewrite Ht. rewrite Hq in *. rewrite Hp in *.
    rewrite !or_zero_truthy by assumption. reflexivity. }
  assert (Hfield : editedField edit (recomputeTotal (assignField rt item edit))
                   = Some (if isNaN (parseFloat rt s) then zero
                           else parseFloat rt s)).
  { destruct item as [id description quantity unitPrice total].
    destruct edit as [v|v|[s0|n]|[s0|n]|v]; try discriminate Hedit;
      cbn [typedText] in Hedit; inversion Hedit; subst s0; reflexivity. }
  split; [exact Hfield|].
  split; [intros Hnan; rewrite Hfield, Hnan; reflexivity|].
  split; [destruct item, edit as [v|v|[s0|n]|[s0|n]|v];
          try discriminate Hedit; reflexivity|].
  split; [destruct item, edit as [v|v|[s0|n]|[s0|n]|v];
          try discriminate Hedit; reflexivity|].
  split; [destruct item, edit as [v|v|[s0|n]|[s0|n]|v];
          try discriminate Hedit; reflexivity|].
  apply replaceAt_Forall; assumption.
Qed.

Lemma handleItemChange_total_witness :
  nth_error [Examples.widget; Examples.gadget] 1 = Some Examples.gadget
  /\ exists item',
       handleItemChange Examples.rt [Examples.widget; Examples.gadget] 1
         (EditUnitPrice (inl "abc"))
       = Some [Examples.widget; item']
       /\ InvoiceItem.unitPrice item' = zero
       /\ same_value (InvoiceItem.total item')
            (mul (InvoiceItem.quantity item') zero).
Proof.
  split; [reflexivity|].
  assert (Hrows : Forall numericRow [Examples.widget; Examples.gadget])
    by (repeat constructor).
  destruct (handleItemChange_total Examples.rt [Examples.widget; Examples.gadget]
              1%nat (EditUnitPrice (inl "abc")) Examples.gadget "abc"
              eq_refl eq_refl Hrows)
    as (item' & Hr & _ & _ & Ht & _ & _ & Hs & _).
  exists item'. split; [exact Hr|].
  assert (Hp : InvoiceItem.unitPrice item' = zero).
  { pose proof (Hs eq_refl) as E. cbn [editedField] in E.
    injection E as E. exact E. }
  split; [exact Hp|]. rewrite <- Hp. exact Ht.
Defined.

(** ** More on the registries: lookups, round trips and compositions *)

Module LookupFacts.

Import Handler App Spec PageSpec HandlerFacts InvoiceFacts.

Lemma find_app_none {A} (p : A -> bool) (xs ys : list A) :
  find p xs = None -> find p (xs ++ ys) = find p ys.
Proof.
  induction xs as [|x xs IH]; cbn [find app]; [reflexivity|].
  destruct (p x); [discriminate | exact IH].
Qed.

Lemma find_app_some {A} (p : A -> bool) (xs ys : list A) x :
  find p xs = Some x -> find p (xs ++ ys) = Some x.
Proof.
  induction xs as [|y xs IH]; cbn [find app]; [discriminate|].
  destruct (p y); [auto | exact IH].
Qed.

Lemma find_filter_key {A} (key : A -> string) (k j : string) (xs : list A) :
  find (fun x => (key x =? j)%string)
       (filter (fun x => negb (key x =? k)%string) xs)
  = if (j =? k)%string then None
    else find (fun x => (key x =? j)%string) xs.
Proof.
  induction xs as [|x xs IH]; cbn [find filter].
  - destruct (j =? k)%string; reflexivity.
  - destruct (key x =? k)%string eqn:Ek; cbn [negb find].
    + rewrite IH. destruct (j =? k)%string eqn:Ejk; [reflexivity|].
      apply String.eqb_eq in Ek. apply String.eqb_neq in Ejk.
      destruct (key x =? j)%string eqn:Ej; [|reflexivity].
      apply String.eqb_eq in Ej. congruence.
    + destruct (key x =? j)%string eqn:Ej.
      * destruct (j =? k)%string eqn:Ejk; [|reflexivity].
        apply String.eqb_eq in Ej, Ejk. apply String.eqb_neq in Ek. congruence.
      * exact IH.
Qed.

Lemma find_customer_none cs i :
  inList i (map Customer.id cs) = false <-> findCustomerById cs i = None.
Proof.
  unfold findCustomerById, inList. induction cs as [|c cs IH]; cbn [map existsb find].
  - tauto.
  - destruct (Customer.id c =? i)%string; cbn [orb]; [split; discriminate | exact IH].
Qed.

Lemma filter_all {A} (p : A -> bool) (xs : list A) :
  (forall x, In x xs -> p x = true) -> filter p xs = xs.
Proof.
  induction xs as [|x xs IH]; intros H; cbn [filter]; [reflexivity|].
  rewrite (H x) by (left; reflexivity). f_equal. apply IH.
  intros y Hy. apply H. right. assumption.
Qed.

Lemma filter_customers_absent cs i :
  inList i (map Customer.id cs) = false ->
  filter (fun c => negb (Customer.id c =? i)%string) cs = cs.
Proof.
  intros H. apply filter_all. intros c Hc.
  destruct (Customer.id c =? i)%string eqn:E; [|reflexivity].
  exfalso. apply String.eqb_eq in E.
  assert (Hin : inList i (map Customer.id cs) = true).
  { apply RegistryFacts.inList_In. rewrite <- E. apply in_map. assumption. }
  congruence.
Qed.

(** Without a record of the id, [prev.map] in [updateCustomer] returns
    the list and reads no clock. *)
Lemma replaceAll_absent u cs st :
  inList (Customer.id u) (map Customer.id cs) = false ->
  mapM (replaceCustomer u) cs st = (cs, st).
Proof.
  revert st. induction cs as [|c cs IH]; intros st H; [reflexivity|].
  cbn [map inList existsb] in H. unfold inList in IH.
  apply orb_false_iff in H. destruct H as [Hc Hrest].
  rewrite mapM_cons. unfold replaceCustomer at 1. rewrite Hc.
  unfold ret at 1. rewrite IH by assumption. reflexivity.
Qed.

Lemma addInvoice_appends rt d items st c :
  findCustomerById (customers st) (NewInvoiceData.customerId d) = Some c ->
  exists inv,
    invoices (exec (addInvoice rt d items) st) = invoices st ++ [inv]
    /\ customers (exec (addInvoice rt d items) st) = customers st
    /\ Invoice.customerId inv = NewInvoiceData.customerId d.
Proof.
  intros H. unfold addInvoice, getNextInvoiceId, exec, bind, gets.
  cbn [fst snd]. rewrite H. handler. eexists. split; [reflexivity|].
  split; reflexivity.
Qed.

End LookupFacts.
Import Handler App Spec PageSpec HandlerFacts InvoiceFacts LookupFacts.

(** X1.  A customer that was just added is found under the id drawn for
    it, provided no customer had that id before; the record found carries
    the data that was passed. *)
Theorem findCustomerById_after_add (d : CustomerData.t) (st : AppState) :
  inList (nextDraw st) (customerIds st) = false ->
  exists c,
    findCustomerById (customers (exec (addCustomer d) st)) (nextDraw st) = Some c
    /\ Customer.id c = nextDraw st
    /\ Customer.name c = CustomerData.name d
    /\ Customer.phone c = CustomerData.phone d
    /\ forall i, i <> nextDraw st ->
         findCustomerById (customers (exec (addCustomer d) st)) i
         = findCustomerById (customers st) i.
Proof.
  intros Hfresh. destruct (addCustomer_effect d st) as (Hc & _).
  rewrite Hc. eexists. split; [|split; [|split; [|split]]].
  - unfold findCustomerById. rewrite find_app_none.
    + cbn [find Customer.id]. rewrite String.eqb_refl. reflexivity.
    + apply find_customer_none. exact Hfresh.
  - reflexivity.
  - reflexivity.
  - reflexivity.
  - intros i Hi. unfold findCustomerById.
    destruct (find (fun c => (Customer.id c =? i)%string) (customers st)) as [c|] eqn:E.
    + apply find_app_some. exact E.
    + rewrite find_app_none by exact E. cbn [find Customer.id].
      apply String.eqb_neq in Hi. rewrite String.eqb_sym in Hi. rewrite Hi. reflexivity.
Qed.

Lemma findCustomerById_after_add_witness :
  inList (nextDraw Examples.withAcme) (customerIds Examples.withAcme) = false
  /\ exists c,
       findCustomerById
         (customers (exec (addCustomer Examples.bolt) Examples.withAcme)) "k3x2"
       = Some c
       /\ Customer.name c = "Bolt".
Proof.
  split; [reflexivity|].
  destruct (findCustomerById_after_add Examples.bolt Examples.withAcme eq_refl)
    as (c & Hf & _ & Hn & _).
  exists c. split; [exact Hf | exact Hn].
Defined.

(** X2.  Updating a customer whose id is not in the registry changes no
    customer, no invoice and no setting, yet a success is notified. *)
Theorem updateCustomer_missing (u : Customer.t) (st : AppState) :
  inList (Customer.id u) (customerIds st) = false ->
  customers (exec (updateCustomer u) st) = customers st
  /\ invoices (exec (updateCustomer u) st) = invoices st
  /\ settings (exec (updateCustomer u) st) = settings st
  /\ map Notification.type (notifications (exec (updateCustomer u) st))
     = map Notification.type (notifications st) ++ [success].
Proof.
  intros H. unfold updateCustomer, exec, bind, gets.
  rewrite replaceAll_absent by exact H. handler. rewrite map_app. auto.
Qed.

Lemma updateCustomer_missing_witness :
  inList "nobody" (customerIds Examples.withAcme) = false
  /\ customers (exec (updateCustomer MoreExamples.ghost) Examples.withAcme)
     = customers Examples.withAcme.
Proof.
  split; [reflexivity|].
  apply (updateCustomer_missing MoreExamples.ghost Examples.withAcme). reflexivity.
Defined.

Module StampFacts.

Lemma replaceCustomer_hit u c st :
  (Customer.id c =? Customer.id u)%string = true ->
  fst (replaceCustomer u c st)
  = Customer.with_updatedAt u
      (Date.toISOString (clock (world st) (clock_reads (world st))))
  /\ clock (world (snd (replaceCustomer u c st))) = clock (world st)
  /\ clock_reads (world (snd (replaceCustomer u c st))) = S (clock_reads (world st)).
Proof.
  intros E. unfold replaceCustomer. rewrite E. handler. auto.
Qed.

Lemma replaceCustomer_miss u c st :
  (Customer.id c =? Customer.id u)%string = false ->
  replaceCustomer u c st = (c, st).
Proof. intros E. unfold replaceCustomer. rewrite E. reflexivity. Qed.

Lemma mapM_step u c cs st :
  fst (mapM (replaceCustomer u) (c :: cs) st)
  = fst (replaceCustomer u c st)
      :: fst (mapM (replaceCustomer u) cs (snd (replaceCustomer u c st))).
Proof.
  rewrite mapM_cons.
  destruct (replaceCustomer u c st) as [y st1]. cbn [fst snd].
  destruct (mapM (replaceCustomer u) cs st1) as [ys st2]. reflexivity.
Qed.

(** The [j]-th record that [prev.map] replaces gets the [j]-th clock
    reading of the call as [updatedAt]. *)
Lemma replaceAll_stamps u cs st i c :
  nth_error cs i = Some c ->
  nth_error (fst (mapM (replaceCustomer u) cs st)) i
  = Some (if (Customer.id c =? Customer.id u)%string
          then Customer.with_updatedAt u
                 (Date.toISOString
                    (clock (world st)
                       (clock_reads (world st)
                        + matchesBefore (Customer.id u) cs i)))
          else c).
Proof.
  revert st i. induction cs as [|c0 cs IH]; intros st [|i] H;
    cbn [nth_error] in H; try discriminate.
  - inversion H; subst c0. rewrite mapM_step. cbn [nth_error].
    unfold matchesBefore. cbn [firstn filter List.length]. rewrite Nat.add_0_r.
    destruct (Customer.id c =? Customer.id u)%string eqn:E.
    + rewrite (proj1 (replaceCustomer_hit u c st E)). reflexivity.
    + rewrite (replaceCustomer_miss u c st E). reflexivity.
  - rewrite mapM_step. cbn [nth_error]. rewrite (IH _ _ H).
    unfold matchesBefore. cbn [firstn filter].
    destruct (Customer.id c0 =? Customer.id u)%string eqn:E0.
    + destruct (replaceCustomer_hit u c0 st E0) as (_ & Hclock & Hreads).
      rewrite Hclock, Hreads. cbn [List.length].
      rewrite Nat.add_succ_l, <- Nat.add_succ_r. reflexivity.
    + rewrite (replaceCustomer_miss u c0 st E0). reflexivity.
Qed.

Lemma replaceAll_find u cs st :
  inList (Customer.id u) (map Customer.id cs) = true ->
  findCustomerById (fst (mapM (replaceCustomer u) cs st)) (Customer.id u)
  = Some (Customer.with_updatedAt u
            (Date.toISOString (clock (world st) (clock_reads (world st))))).
Proof.
  unfold findCustomerById, inList.
  induction cs as [|c cs IH]; intros H; [discriminate|].
  cbn [map existsb] in H. rewrite mapM_step. cbn [find].
  destruct (Customer.id c =? Customer.id u)%string eqn:E.
  - rewrite (proj1 (replaceCustomer_hit u c st E)).
    cbn [Customer.with_updatedAt Customer.id]. rewrite String.eqb_refl.
    reflexivity.
  - rewrite (replaceCustomer_miss u c st E). cbn [fst snd]. rewrite E.
    apply IH. exact H.
Qed.

Lemma updateCustomer_customers u st :
  customers (exec (updateCustomer u) st)
  = fst (mapM (replaceCustomer u) (customers st) st).
Proof.
  unfold updateCustomer, exec, bind, gets.
  destruct (mapM (replaceCustomer u) (customers st) st) as [next st1].
  handler. reflexivity.
Qed.

End StampFacts.

Import StampFacts.

(** X3.  Updating a customer keeps the number and the order of the
    records.  Each record with the id of the argument becomes the argument
    with a clock reading of the call as [updatedAt]: the first such record
    gets the first reading, the next one the second, and so on; every other
    record stays as it is.  When the id is in the registry, a lookup of it
    afterwards returns the argument with the first clock reading of the
    call as [updatedAt]. *)
Theorem updateCustomer_replaces (u : Customer.t) (st : AppState) :
  let st' := exec (updateCustomer u) st in
  List.length (customers st') = List.length (customers st)
  /\ (forall i c, nth_error (customers st) i = Some c ->
        nth_error (customers st') i
        = Some (if (Customer.id c =? Customer.id u)%string
                then Customer.with_updatedAt u
                       (Date.toISOString
                          (reading st (matchesBefore (Customer.id u)
                                                     (customers st) i)))
                else c))
  /\ (inList (Customer.id u) (customerIds st) = true ->
      findCustomerById (customers st') (Customer.id u)
      = Some (Customer.with_updatedAt u (Date.toISOString (reading st 0)))).
Proof.
  cbv zeta. rewrite updateCustomer_customers. split; [|split].
  - destruct (replaceAll u (customers st) st) as (_ & _ & _ & _ & Hid).
    apply (f_equal (@List.length string)) in Hid.
    rewrite !length_map in Hid. exact Hid.
  - intros i c H. unfold reading. apply replaceAll_stamps. exact H.
  - intros H. unfold reading. rewrite Nat.add_0_r.
    apply replaceAll_find. exact H.
Qed.

Lemma updateCustomer_replaces_witness :
  findCustomerById
    (customers (exec (updateCustomer
                        (Pages.mergeCustomer Examples.acmeRecord
                           (Pages.customerDataOf MoreExamples.acmeForm)))
                     Examples.withAcme))
    Examples.acmeId
  = Some (Customer.with_updatedAt
            (Pages.mergeCustomer Examples.acmeRecord
               (Pages.customerDataOf MoreExamples.acmeForm))
            "2024-05-01T10:00:00.002Z").
Proof.
  apply (proj2 (proj2 (updateCustomer_replaces
                  (Pages.mergeCustomer Examples.acmeRecord
                     (Pages.customerDataOf MoreExamples.acmeForm))
                  Examples.withAcme))).
  reflexivity.
Defined.

(** X4.  Adding a customer and deleting the id drawn for it gives back
    the customers there were, provided the id was new to the registry and
    no invoice refers to it. *)
Theorem addCustomer_then_delete (d : CustomerData.t) (st : AppState) :
  inList (nextDraw st) (customerIds st) = false ->
  ~ referenced st (nextDraw st) ->
  customers (exec (deleteCustomer (nextDraw st)) (exec (addCustomer d) st))
  = customers st.
Proof.
  intros Hfresh Href.
  destruct (addCustomer_effect d st) as (Hc & Hi & _).
  destruct (deleteCustomer_effect (nextDraw st) (exec (addCustomer d) st))
    as (Hd & _).
  rewrite Hd, Hi.
  destruct (existsb _ (invoices st)) eqn:E.
  - exfalso. apply Href, existsb_referenced. exact E.
  - rewrite Hc, filter_app. cbn [filter Customer.id].
    rewrite String.eqb_refl. cbn [negb]. rewrite app_nil_r.
    apply filter_customers_absent. exact Hfresh.
Qed.

Lemma addCustomer_then_delete_witness :
  customers (exec (deleteCustomer "k3x3")
                  (exec (addCustomer Examples.bolt) Examples.withInvoice))
  = customers Examples.withInvoice.
Proof.
  apply (addCustomer_then_delete Examples.bolt Examples.withInvoice).
  - reflexivity.
  - intros (inv & Hin & Hid). cbn in Hin. destruct Hin as [<-|[]].
    discriminate Hid.
Defined.

(** X5.  Once an invoice has been created for a customer, deleting that
    customer is rejected: the customers stay as they were. *)
Theorem addInvoice_blocks_delete rt (d : NewInvoiceData.t)
    (items : list InvoiceItem.t) (st : AppState) (c : Customer.t) :
  findCustomerById (customers st) (NewInvoiceData.customerId d) = Some c ->
  let st1 := exec (addInvoice rt d items) st in
  let st2 := exec (deleteCustomer (NewInvoiceData.customerId d)) st1 in
  customers st2 = customers st
  /\ In c (customers st2)
  /\ map Notification.type (notifications st2)
     = map Notification.type (notifications st1) ++ [error].
Proof.
  intros Hc. cbv zeta.
  destruct (addInvoice_appends rt d items st c Hc) as (inv & Hi & Hcs & Hcid).
  set (st1 := exec (addInvoice rt d items) st) in *.
  assert (Href : existsb (fun inv0 => (Invoice.customerId inv0
                                        =? NewInvoiceData.customerId d)%string)
                         (invoices st1) = true).
  { apply existsb_exists. exists inv. rewrite Hi. split.
    - apply in_or_app. right. left. reflexivity.
    - rewrite Hcid. apply String.eqb_refl. }
  destruct (deleteCustomer_effect (NewInvoiceData.customerId d) st1) as (Hd & _).
  rewrite Href in Hd. rewrite Hd, Hcs.
  split; [reflexivity|]. split.
  - apply find_some in Hc. tauto.
  - unfold deleteCustomer, exec, bind, gets. rewrite Href. handler.
    rewrite map_app. reflexivity.
Qed.

Lemma addInvoice_blocks_delete_witness :
  customers (exec (deleteCustomer Examples.acmeId)
                  (exec (addInvoice Examples.rt (Examples.draftFor Examples.acmeId)
                                    [Examples.widget]) Examples.withAcme))
  = customers Examples.withAcme.
Proof.
  apply (addInvoice_blocks_delete Examples.rt (Examples.draftFor Examples.acmeId)
           [Examples.widget] Examples.withAcme Examples.acmeRecord).
  reflexivity.
Defined.

(** X6.  When every invoice that refers to a customer has one id,
    deleting the invoices of that id and then the customer removes the
    customer. *)
Theorem deleteInvoice_then_deleteCustomer (invoiceId customerId : string)
    (st : AppState) :
  (forall inv, In inv (invoices st) -> Invoice.customerId inv = customerId ->
               Invoice.id inv = invoiceId) ->
  let st' := exec (deleteCustomer customerId) (exec (deleteInvoice invoiceId) st) in
  customers st'
  = filter (fun c => negb (Customer.id c =? customerId)%string) (customers st)
  /\ findCustomerById (customers st') customerId = None.
Proof.
  intros Hall. cbv zeta.
  destruct (deleteInvoice_effect invoiceId st) as (Hi & Hc & _).
  destruct (deleteCustomer_effect customerId (exec (deleteInvoice invoiceId) st))
    as (Hd & _).
  destruct (existsb _ (invoices (exec (deleteInvoice invoiceId) st))) eqn:E.
  - exfalso. apply existsb_exists in E. destruct E as (inv & Hin & Hcid).
    rewrite Hi in Hin. apply filter_In in Hin. destruct Hin as [Hin Hid].
    apply String.eqb_eq in Hcid. apply negb_true_iff, String.eqb_neq in Hid.
    apply Hid, Hall; assumption.
  - rewrite Hd, Hc. split; [reflexivity|].
    unfold findCustomerById. rewrite find_filter_key, String.eqb_refl. reflexivity.
Qed.

Lemma deleteInvoice_then_deleteCustomer_witness :
  customers (exec (deleteCustomer Examples.acmeId)
                  (exec (deleteInvoice Examples.firstInvoiceId) Examples.withInvoice))
  = [].
Proof.
  apply (proj1 (deleteInvoice_then_deleteCustomer Examples.firstInvoiceId
                  Examples.acmeId Examples.withInvoice
                  (fun inv Hin _ =>
                     match Hin with
                     | or_introl E => f_equal Invoice.id (eq_sym E)
                     | or_intror F => match F with end
                     end))).
Defined.

(** X7.  A successful creation returns an id under which a lookup finds
    the new invoice, unless an older invoice already has that id: then the
    lookup finds the older one. *)
Theorem findInvoiceById_after_add rt (d : NewInvoiceData.t)
    (items : list InvoiceItem.t) (st : AppState) (c : Customer.t) :
  findCustomerById (customers st) (NewInvoiceData.customerId d) = Some c ->
  let st' := exec (addInvoice rt d items) st in
  exists id inv,
    eval (addInvoice rt d items) st = Some id
    /\ invoices st' = invoices st ++ [inv]
    /\ Invoice.id inv = id
    /\ (findInvoiceById (invoices st) id = None ->
        findInvoiceById (invoices st') id = Some inv)
    /\ (forall old, findInvoiceById (invoices st) id = Some old ->
        findInvoiceById (invoices st') id = Some old).
Proof.
  intros Hc. cbv zeta.
  destruct (addInvoice_found rt d items st c Hc) as (inv & Hr & Hi & _).
  exists (Invoice.id inv), inv. rewrite Hi.
  split; [exact Hr|]. split; [reflexivity|]. split; [reflexivity|]. split.
  - intros Hnone. unfold findInvoiceById in *. rewrite find_app_none by exact Hnone.
    cbn [find]. rewrite String.eqb_refl. reflexivity.
  - intros old Hold. unfold findInvoiceById in *. apply find_app_some. exact Hold.
Qed.

Lemma findInvoiceById_after_add_witness :
  exists inv,
    findInvoiceById
      (invoices (exec (addInvoice Examples.rt (Examples.draftFor Examples.acmeId)
                                  [Examples.gadget]) Examples.withInvoice))
      "INV-2024-0002" = Some inv
    /\ Invoice.items inv = [Examples.gadget].
Proof.
  destruct (findInvoiceById_after_add Examples.rt (Examples.draftFor Examples.acmeId)
              [Examples.gadget] Examples.withInvoice Examples.acmeRecord eq_refl)
    as (id & inv & Hr & Hi & Hid & Hnew & _).
  assert (E : id = "INV-2024-0002") by (vm_compute in Hr; congruence).
  subst id. exists inv. split.
  - rewrite <- E. apply Hnew. rewrite E. reflexivity.
  - apply app_inv_head in Hi. vm_compute in Hi. inversion Hi. reflexivity.
Defined.

(** X8.  After an invoice id has been deleted a lookup of it finds
    nothing, and the lookup of every other id gives what it gave
    before. *)
Theorem findInvoiceById_after_delete (invoiceId : string) (st : AppState) :
  let st' := exec (deleteInvoice invoiceId) st in
  findInvoiceById (invoices st') invoiceId = None
  /\ forall other, other <> invoiceId ->
       findInvoiceById (invoices st') other = findInvoiceById (invoices st) other.
Proof.
  cbv zeta. destruct (deleteInvoice_effect invoiceId st) as (Hi & _).
  rewrite Hi. unfold findInvoiceById. split.
  - rewrite find_filter_key, String.eqb_refl. reflexivity.
  - intros other Hne. rewrite find_filter_key.
    apply String.eqb_neq in Hne. rewrite Hne. reflexivity.
Qed.

(** X9.  Renaming a customer leaves every invoice as it is, so the
    customer name kept on an invoice is the one taken when the invoice was
    saved. *)
Theorem updateCustomer_keeps_invoices (u : Customer.t) (st : AppState) :
  invoices (exec (updateCustomer u) st) = invoices st
  /\ map Invoice.customerName (invoices (exec (updateCustomer u) st))
     = map Invoice.customerName (invoices st).
Proof.
  destruct (updateCustomer_effect u st) as (_ & Hi & _). rewrite Hi. auto.
Qed.

(** ** Notifications and the rows of the invoice form *)

Module RowFacts.

Import Handler App Spec PageSpec Pages EditorFacts.

Lemma filter_snoc_absent (ns : list Notification.t) (n : Notification.t) :
  inList (Notification.id n) (map Notification.id ns) = false ->
  filter (fun m => negb (Notification.id m =? Notification.id n)%string) (ns ++ [n])
  = ns.
Proof.
  intros H. rewrite filter_app. cbn [filter]. rewrite String.eqb_refl.
  cbn [negb]. rewrite app_nil_r. apply LookupFacts.filter_all.
  intros m Hm. destruct (Notification.id m =? Notification.id n)%string eqn:E;
    [|reflexivity].
  exfalso. apply String.eqb_eq in E.
  assert (Hin : inList (Notification.id n) (map Notification.id ns) = true).
  { apply RegistryFacts.inList_In. rewrite <- E. apply in_map. assumption. }
  congruence.
Qed.

Lemma dropIndex_beyond {A} (xs : list A) (index i : nat) :
  (index < i)%nat -> dropIndex xs index i = xs.
Proof.
  revert i. induction xs as [|x xs IH]; intros i H; cbn [dropIndex]; [reflexivity|].
  replace (i =? index)%nat with false by (symmetry; apply Nat.eqb_neq; lia).
  f_equal. apply IH. lia.
Qed.

Lemma dropIndex_nth {A} (xs : list A) (index i j : nat) :
  (i <= index)%nat ->
  nth_error (dropIndex xs index i) j
  = if (j <? index - i)%nat then nth_error xs j else nth_error xs (S j).
Proof.
  revert i j. induction xs as [|x xs IH]; intros i j Hi.
  - cbn [dropIndex]. destruct (j <? index - i)%nat; destruct j; reflexivity.
  - cbn [dropIndex]. destruct (i =? index)%nat eqn:E.
    + apply Nat.eqb_eq in E. subst i.
      replace (index - index)%nat with O by lia.
      replace (j <? 0)%nat with false by (symmetry; apply Nat.ltb_ge; lia).
      rewrite dropIndex_beyond by lia. reflexivity.
    + apply Nat.eqb_neq in E. destruct j as [|j].
      * replace (0 <? index - i)%nat with true
          by (symmetry; apply Nat.ltb_lt; lia). reflexivity.
      * cbn [nth_error]. rewrite IH by lia.
        replace (S j <? index - i)%nat with (j <? index - S i)%nat; [reflexivity|].
        destruct (j <? index - S i)%nat eqn:E1; symmetry.
        -- apply Nat.ltb_lt in E1. apply Nat.ltb_lt. lia.
        -- apply Nat.ltb_ge in E1. apply Nat.ltb_ge. lia.
Qed.

Lemma dropIndex_length {A} (xs : list A) (index i : nat) :
  (i <= index)%nat ->
  List.length (dropIndex xs index i)
  = if (index - i <? List.length xs)%nat
    then (List.length xs - 1)%nat else List.length xs.
Proof.
  revert i. induction xs as [|x xs IH]; intros i Hi; cbn [dropIndex List.length].
  - destruct (index - i <? 0)%nat; reflexivity.
  - destruct (i =? index)%nat eqn:E.
    + apply Nat.eqb_eq in E. subst i. rewrite dropIndex_beyond by lia.
      replace (index - index <? S (List.length xs))%nat with true
        by (symmetry; apply Nat.ltb_lt; lia). lia.
    + apply Nat.eqb_neq in E. cbn [List.length]. rewrite IH by lia.
      destruct (index - S i <? List.length xs)%nat eqn:E1.
      * apply Nat.ltb_lt in E1.
        replace (index - i <? S (List.length xs))%nat with true
          by (symmetry; apply Nat.ltb_lt; lia). lia.
      * apply Nat.ltb_ge in E1.
        replace (index - i <? S (List.length xs))%nat with false
          by (symmetry; apply Nat.ltb_ge; lia). reflexivity.
Qed.

Lemma dropIndex_last {A} (xs : list A) (x : A) (i : nat) :
  dropIndex (xs ++ [x]) (i + List.length xs) i = xs.
Proof.
  revert i. induction xs as [|y xs IH]; intros i; cbn [app dropIndex List.length].
  - rewrite Nat.add_0_r, Nat.eqb_refl. reflexivity.
  - replace (i =? i + S (List.length xs))%nat with false
      by (symmetry; apply Nat.eqb_neq; lia).
    f_equal. replace (i + S (List.length xs))%nat with (S i + List.length xs)%nat by lia.
    apply IH.
Qed.

Lemma replaceAt_twice {A} (xs : list A) i x y :
  replaceAt (replaceAt xs i x) i y = replaceAt xs i y.
Proof.
  revert i. induction xs as [|z xs IH]; intros [|i]; cbn; try reflexivity.
  now rewrite IH.
Qed.

Lemma handleItemChange_step rt items index edit item :
  nth_error items index = Some item ->
  handleItemChange rt items index edit
  = Some (replaceAt items index (recomputeTotal (assignField rt item edit))).
Proof. intros H. unfold handleItemChange. rewrite H. reflexivity. Qed.

Lemma handleItemChange_none rt items index edit :
  nth_error items index = None -> handleItemChange rt items index edit = None.
Proof. intros H. unfold handleItemChange. rewrite H. reflexivity. Qed.

End RowFacts.

Import Handler App Spec PageSpec Pages EditorFacts RowFacts.

(** X10.  Dismissing the notification that was just added gives back the
    notifications there were, provided the id drawn for it was carried by
    none of them; customers, invoices and settings are not touched. *)
Theorem dismissNotification_after_add (message : string)
    (type : NotificationType) (st : AppState) :
  inList (nextDraw st) (notificationIds st) = false ->
  let st' := exec (dismissNotification (nextDraw st))
                  (exec (addNotification message type) st) in
  notifications st' = notifications st
  /\ customers st' = customers st
  /\ invoices st' = invoices st
  /\ settings st' = settings st.
Proof.
  intros H. cbv zeta. unfold dismissNotification, nextDraw, notificationIds in *.
  handler. repeat split.
  apply (filter_snoc_absent (notifications st)
           {| Notification.id := entropy (world st) (draws (world st));
              Notification.message := message; Notification.type := type |}).
  exact H.
Qed.

Lemma dismissNotification_after_add_witness :
  notifications (exec (dismissNotification "k3x3")
                      (exec (addNotification "Saved" info) Examples.withInvoice))
  = notifications Examples.withInvoice.
Proof.
  apply (dismissNotification_after_add "Saved" info Examples.withInvoice).
  reflexivity.
Defined.

(** X11.  Removing row [index] keeps the rows before it where they are and
    moves each later row up by one; the list gets one row shorter when
    [index] is the position of a row, and is unchanged otherwise. *)
Theorem removeItem_rows (items : list InvoiceItem.t) (index : nat) :
  (forall j, nth_error (removeItem items index) j
             = if (j <? index)%nat then nth_error items j
               else nth_error items (S j))
  /\ List.length (removeItem items index)
     = (if (index <? List.length items)%nat
        then List.length items - 1 else List.length items)%nat
  /\ ((List.length items <= index)%nat -> removeItem items index = items).
Proof.
  unfold removeItem. split; [|split].
  - intros j. rewrite dropIndex_nth by lia. rewrite Nat.sub_0_r. reflexivity.
  - rewrite dropIndex_length by lia. rewrite Nat.sub_0_r. reflexivity.
  - intros H. apply nth_error_ext. intros j.
    rewrite dropIndex_nth by lia. rewrite Nat.sub_0_r.
    destruct (j <? index)%nat eqn:E; [reflexivity|].
    apply Nat.ltb_ge in E.
    rewrite (proj2 (nth_error_None items j)) by lia.
    apply nth_error_None. lia.
Qed.

Lemma removeItem_rows_witness :
  removeItem [Examples.widget; Examples.gadget; Examples.gizmo] 7
  = [Examples.widget; Examples.gadget; Examples.gizmo].
Proof.
  apply (proj2 (proj2 (removeItem_rows
                         [Examples.widget; Examples.gadget; Examples.gizmo] 7))).
  cbn. lia.
Defined.

(** X12.  Adding a row and removing the last row gives back the rows
    there were; the row added is blank with quantity 1, price 0 and
    total 0. *)
Theorem addItem_then_removeItem (items : list InvoiceItem.t) (st : AppState) :
  let items' := eval (addItem items) st in
  removeItem items' (List.length items) = items
  /\ List.length items' = S (List.length items)
  /\ exists row,
       nth_error items' (List.length items) = Some row
       /\ InvoiceItem.id row = nextDraw st
       /\ InvoiceItem.description row = ""
       /\ Number.to_Z (InvoiceItem.quantity row) = Some 1
       /\ InvoiceItem.unitPrice row = Number.zero
       /\ InvoiceItem.total row = Number.zero
       /\ recomputeTotal row = row.
Proof.
  cbv zeta. unfold addItem, removeItem, nextDraw. handler.
  split; [apply (dropIndex_last items _ 0)|].
  split; [rewrite length_app; cbn; lia|].
  eexists. split.
  - rewrite nth_error_app2 by lia. rewrite Nat.sub_diag. reflexivity.
  - repeat split.
Qed.

(** X13.  An edit of a row made twice gives what it gives made once. *)
Theorem handleItemChange_idempotent rt (items items' : list InvoiceItem.t)
    (index : nat) (edit : ItemEdit) :
  handleItemChange rt items index edit = Some items' ->
  handleItemChange rt items' index edit = Some items'.
Proof.
  unfold handleItemChange. destruct (nth_error items index) as [item|] eqn:E;
    [|discriminate].
  intros H. inversion H as [H1]. clear H.
  rewrite (replaceAt_same items index _ item E).
  rewrite replaceAt_twice. do 2 f_equal.
  destruct item as [id description quantity unitPrice total].
  destruct edit; reflexivity.
Qed.

Lemma handleItemChange_idempotent_witness :
  exists items',
    handleItemChange Examples.rt [Examples.widget] 0 (EditQuantity (inl "2.5"))
    = Some items'
    /\ handleItemChange Examples.rt items' 0 (EditQuantity (inl "2.5"))
       = Some items'.
Proof.
  eexists. split; [reflexivity|].
  apply (handleItemChange_idempotent Examples.rt [Examples.widget]).
  reflexivity.
Defined.

(** X14.  Two edits of one row that write different fields give the same
    rows in either order. *)
Theorem handleItemChange_commute rt (items : list InvoiceItem.t) (index : nat)
    (first second : ItemEdit) :
  fieldOf first <> fieldOf second ->
  editTwice rt items index first second = editTwice rt items index second first.
Proof.
  intros Hne. unfold editTwice.
  destruct (nth_error items index) as [item|] eqn:E.
  - rewrite !(handleItemChange_step rt items index _ item E).
    rewrite !(handleItemChange_step rt _ index _ _
                (replaceAt_same items index _ item E)).
    rewrite !replaceAt_twice. do 2 f_equal.
    destruct item as [id description quantity unitPrice total].
    destruct first, second; cbn [fieldOf] in Hne; try congruence; reflexivity.
  - rewrite !handleItemChange_none by exact E. reflexivity.
Qed.

Lemma handleItemChange_commute_witness :
  editTwice Examples.rt [Examples.widget; Examples.gadget] 1
    (EditQuantity (inl "4")) (EditUnitPrice (inl "2.5"))
  = editTwice Examples.rt [Examples.widget; Examples.gadget] 1
      (EditUnitPrice (inl "2.5")) (EditQuantity (inl "4")).
Proof.
  apply handleItemChange_commute. cbn. discriminate.
Defined.

(** ** The order of numbers *)

Module OrderFacts.

Import Number NumberOrder.

Lemma compare_cont_opp p q c :
  Pos.compare_cont (CompOpp c) q p = CompOpp (Pos.compare_cont c p q).
Proof. symmetry. apply Pos.compare_cont_antisym. Qed.

(** Comparing the other way round gives the opposite answer. *)
Lemma SFcompare_opp x y :
  SFcompare y x = option_map CompOpp (SFcompare x y).
Proof.
  destruct x as [sx|sx| |sx mx ex]; destruct y as [sy|sy| |sy my ey];
    cbn [SFcompare option_map CompOpp]; try reflexivity;
    try (destruct sx; reflexivity); try (destruct sy; reflexivity);
    try (destruct sx, sy; reflexivity).
  pose proof (compare_cont_opp mx my Eq) as H. cbn [CompOpp] in H.
  destruct sx, sy; cbn [CompOpp]; try reflexivity;
    rewrite (Z.compare_antisym ex ey);
    destruct (ex ?= ey); cbn [CompOpp]; try reflexivity;
    rewrite H; reflexivity.
Qed.

Lemma SFcompare_defined x y :
  isNaN x = false -> isNaN y = false -> exists c, SFcompare x y = Some c.
Proof.
  destruct x, y; cbn [isNaN SFcompare]; intros; try discriminate; eauto.
Qed.

(** Among numbers other than [NaN], [x < y] fails exactly when
    [y <= x]. *)
Lemma not_lt_le x y :
  isNaN x = false -> isNaN y = false -> lt x y = false -> le y x = true.
Proof.
  intros Hx Hy. unfold lt, le, SFltb, SFleb. rewrite (SFcompare_opp x y).
  destruct (SFcompare_defined x y Hx Hy) as [c ->]. cbn [option_map].
  destruct c; cbn [CompOpp]; congruence.
Qed.

Lemma not_le_lt x y :
  isNaN x = false -> isNaN y = false -> le x y = false -> lt y x = true.
Proof.
  intros Hx Hy. unfold lt, le, SFltb, SFleb. rewrite (SFcompare_opp x y).
  destruct (SFcompare_defined x y Hx Hy) as [c ->]. cbn [option_map].
  destruct c; cbn [CompOpp]; congruence.
Qed.

Lemma lt_not_NaN x y : lt x y = true -> isNaN x = false /\ isNaN y = false.
Proof.
  unfold lt, SFltb. destruct x, y; cbn [SFcompare isNaN]; intros; auto; discriminate.
Qed.

Lemma le_not_NaN x y : le x y = true -> isNaN x = false /\ isNaN y = false.
Proof.
  unfold le, SFleb. destruct x, y; cbn [SFcompare isNaN]; intros; auto; discriminate.
Qed.

(** A number that is at least 1 is truthy. *)
Lemma le_one_truthy x : le one x = true -> truthy x = true.
Proof.
  unfold le, SFleb. destruct x as [s|s| |s m e]; try reflexivity;
    vm_compute; discriminate.
Qed.

Lemma mul_NaN x : mul x NaN = NaN.
Proof. destruct x; reflexivity. Qed.

Lemma add_NaN x : add x NaN = NaN.
Proof. destruct x; reflexivity. Qed.

End OrderFacts.

(** ** The invoice form and the settings page *)

Module FormFacts.

Import Handler App Spec PageSpec Pages Number NumberOrder OrderFacts.
Import HandlerFacts InvoiceFacts.

Lemma nonEmpty_true s : Text.nonEmpty s = true <-> s <> "".
Proof.
  unfold Text.nonEmpty. rewrite negb_true_iff. apply String.eqb_neq.
Qed.

Lemma isBlank_false_nonempty s : Text.isBlank s = false -> s <> "".
Proof.
  intros H E. subst s. discriminate H.
Qed.

Lemma isSet_if (b : bool) (m : string) :
  isSet (if b then Some m else None) = b.
Proof. destruct b; reflexivity. Qed.

Lemma isSet_unless (b : bool) (m : string) :
  isSet (if b then None else Some m) = negb b.
Proof. destruct b; reflexivity. Qed.

(** The form is accepted exactly when none of the five checks fires. *)
Lemma invoiceFormOk_iff dateValue f :
  invoiceFormOk (validateForm dateValue f) = true <->
  Text.nonEmpty (InvoiceFormState.customerId f) = true
  /\ Text.nonEmpty (InvoiceFormState.invoiceDate f) = true
  /\ lt (dateValue (InvoiceFormState.dueDate f))
        (dateValue (InvoiceFormState.invoiceDate f)) = false
  /\ Text.nonEmpty (InvoiceFormState.dueDate f) = true
  /\ existsb badItem (InvoiceFormState.items f) = false
  /\ lt (InvoiceFormState.taxRate f) zero = false
  /\ gt (InvoiceFormState.taxRate f) one = false.
Proof.
  unfold invoiceFormOk, validateForm.
  cbn [InvoiceFormErrors.customerId InvoiceFormErrors.invoiceDate
       InvoiceFormErrors.dueDate InvoiceFormErrors.items InvoiceFormErrors.taxRate].
  rewrite !isSet_unless, !isSet_if.
  destruct (Text.nonEmpty (InvoiceFormState.customerId f));
  destruct (Text.nonEmpty (InvoiceFormState.invoiceDate f));
  destruct (lt (dateValue (InvoiceFormState.dueDate f))
               (dateValue (InvoiceFormState.invoiceDate f)));
  destruct (Text.nonEmpty (InvoiceFormState.dueDate f));
  destruct (existsb badItem (InvoiceFormState.items f));
  destruct (lt (InvoiceFormState.taxRate f) zero);
  destruct (gt (InvoiceFormState.taxRate f) one);
  cbn; intuition congruence.
Qed.

Lemma settingsOk_iff cs :
  settingsOk (validateSettings cs) = true <->
  Text.isBlank (AppSettings.invoicePrefix cs) = false
  /\ isNaN (AppSettings.nextInvoiceNumber cs) = false
  /\ lt (AppSettings.nextInvoiceNumber cs) one = false
  /\ isNaN (AppSettings.defaultTaxRate cs) = false
  /\ lt (AppSettings.defaultTaxRate cs) zero = false
  /\ gt (AppSettings.defaultTaxRate cs) one = false.
Proof.
  unfold settingsOk, validateSettings.
  cbn [SettingsErrors.invoicePrefix SettingsErrors.nextInvoiceNumber
       SettingsErrors.defaultTaxRate].
  rewrite !isSet_if.
  destruct (Text.isBlank (AppSettings.invoicePrefix cs));
  destruct (isNaN (AppSettings.nextInvoiceNumber cs));
  destruct (lt (AppSettings.nextInvoiceNumber cs) one);
  destruct (isNaN (AppSettings.defaultTaxRate cs));
  destruct (lt (AppSettings.defaultTaxRate cs) zero);
  destruct (gt (AppSettings.defaultTaxRate cs) one);
  cbn; intuition congruence.
Qed.

Lemma append_nonempty_r a b : b <> "" -> (a ++ b)%string <> "".
Proof.
  intros Hb. destruct a; cbn; [exact Hb | discriminate].
Qed.

(** An invoice id is never the empty string. *)
Lemma invoice_id_nonempty prefix year number :
  Text.nonEmpty (prefix ++ year ++ "-" ++ number)%string = true.
Proof.
  apply nonEmpty_true. apply append_nonempty_r, append_nonempty_r.
  discriminate.
Qed.

(** The world after a creation that succeeds: three clock readings and
    one draw further. *)
Lemma addInvoice_world rt d items st c :
  findCustomerById (customers st) (NewInvoiceData.customerId d) = Some c ->
  clock (world (exec (addInvoice rt d items) st)) = clock (world st)
  /\ clock_reads (world (exec (addInvoice rt d items) st))
     = (clock_reads (world st) + 3)%nat.
Proof.
  intros H. unfold addInvoice, getNextInvoiceId, exec, bind, gets.
  cbn [fst snd]. rewrite H. handler. split; [reflexivity | lia].
Qed.

Lemma handleSaveSettings_effect cs st :
  customers (exec (handleSaveSettings cs) st) = customers st
  /\ invoices (exec (handleSaveSettings cs) st) = invoices st
  /\ clock (world (exec (handleSaveSettings cs) st)) = clock (world st)
  /\ clock_reads (world (exec (handleSaveSettings cs) st)) = clock_reads (world st)
  /\ settings (exec (handleSaveSettings cs) st)
     = (if settingsOk (validateSettings cs) then cs else settings st)
  /\ map Notification.type (notifications (exec (handleSaveSettings cs) st))
     = map Notification.type (notifications st)
         ++ [if settingsOk (validateSettings cs) then success else error].
Proof.
  unfold handleSaveSettings, exec.
  destruct (settingsOk (validateSettings cs)); handler; rewrite map_app;
    repeat split.
Qed.

Lemma validateSettings_sound cs :
  settingsOk (validateSettings cs) = true ->
  Text.nonEmpty (AppSettings.invoicePrefix cs) = true
  /\ truthy (AppSettings.nextInvoiceNumber cs) = true.
Proof.
  intros H. apply settingsOk_iff in H. destruct H as (Hp & Hn & Hn1 & _).
  split.
  - apply nonEmpty_true. now apply isBlank_false_nonempty.
  - apply le_one_truthy. apply not_lt_le; [exact Hn | reflexivity | exact Hn1].
Qed.

End FormFacts.

Import Handler App Spec PageSpec Pages Number NumberOrder OrderFacts.
Import HandlerFacts InvoiceFacts FormFacts.

(** X15.  A form that [validateForm] accepts has a customer id and both
    dates, its due date is not before its invoice date, and every row has
    a description that is not blank.  Its numbers are in range unless they
    are [NaN], which no check rejects: a quantity that is a number is
    above 0, a price that is a number is at least 0, and a tax rate that is
    a number lies between 0 and 1. *)
Theorem validateForm_accepts (dateValue : string -> number)
    (f : InvoiceFormState.t) :
  invoiceFormOk (validateForm dateValue f) = true ->
  InvoiceFormState.customerId f <> ""
  /\ InvoiceFormState.invoiceDate f <> ""
  /\ InvoiceFormState.dueDate f <> ""
  /\ lt (dateValue (InvoiceFormState.dueDate f))
        (dateValue (InvoiceFormState.invoiceDate f)) = false
  /\ Forall (fun item =>
               Text.isBlank (InvoiceItem.description item) = false
               /\ (isNaN (InvoiceItem.quantity item) = false ->
                   lt zero (InvoiceItem.quantity item) = true)
               /\ (isNaN (InvoiceItem.unitPrice item) = false ->
                   le zero (InvoiceItem.unitPrice item) = true))
            (InvoiceFormState.items f)
  /\ (isNaN (InvoiceFormState.taxRate f) = false ->
      le zero (InvoiceFormState.taxRate f) = true
      /\ le (InvoiceFormState.taxRate f) one = true).
Proof.
  intros H. apply invoiceFormOk_iff in H.
  destruct H as (Hc & Hi & Hlt & Hd & Hitems & Hr0 & Hr1).
  split; [now apply nonEmpty_true|]. split; [now apply nonEmpty_true|].
  split; [now apply nonEmpty_true|]. split; [exact Hlt|]. split.
  - apply Forall_forall. intros item Hin.
    assert (Hb : badItem item = false).
    { destruct (badItem item) eqn:E; [|reflexivity].
      assert (existsb badItem (InvoiceFormState.items f) = true)
        by (apply existsb_exists; eauto).
      congruence. }
    unfold badItem in Hb. apply orb_false_iff in Hb. destruct Hb as [Hb Hp].
    apply orb_false_iff in Hb. destruct Hb as [Hdesc Hq].
    split; [exact Hdesc|]. split; intros Hn.
    + apply not_le_lt; [exact Hn | reflexivity | exact Hq].
    + apply not_lt_le; [exact Hn | reflexivity | exact Hp].
  - intros Hn. split.
    + apply not_lt_le; [exact Hn | reflexivity | exact Hr0].
    + apply not_lt_le; [reflexivity | exact Hn | exact Hr1].
Qed.

Lemma validateForm_accepts_witness :
  invoiceFormOk (validateForm MoreExamples.dayOf
                   (MoreExamples.invoiceForm (ReferenceRuntime.parseFloat "0.1")))
  = true
  /\ le (ReferenceRuntime.parseFloat "0.1") one = true.
Proof.
  split; [reflexivity|].
  apply (validateForm_accepts MoreExamples.dayOf
           (MoreExamples.invoiceForm (ReferenceRuntime.parseFloat "0.1")));
    reflexivity.
Defined.

(** X16.  Submitting a form that [validateForm] rejects changes no
    customer, no invoice and no setting, in create mode and in edit mode
    alike: an error is notified and nothing is navigated to. *)
Theorem submitInvoiceForm_rejected rt (dateValue : string -> number)
    (invoiceToEdit : option Invoice.t) (f : InvoiceFormState.t) (st : AppState) :
  invoiceFormOk (validateForm dateValue f) = false ->
  let st' := exec (submitInvoiceForm rt dateValue invoiceToEdit f) st in
  eval (submitInvoiceForm rt dateValue invoiceToEdit f) st = None
  /\ customers st' = customers st
  /\ invoices st' = invoices st
  /\ settings st' = settings st
  /\ map Notification.type (notifications st')
     = map Notification.type (notifications st) ++ [error].
Proof.
  intros H. cbv zeta. unfold submitInvoiceForm. rewrite H. cbn [negb].
  handler. rewrite map_app. repeat split.
Qed.

Lemma submitInvoiceForm_rejected_witness :
  invoiceFormOk (validateForm MoreExamples.dayOf MoreExamples.lateForm) = false
  /\ invoices (exec (submitInvoiceForm Examples.rt MoreExamples.dayOf None
                       MoreExamples.lateForm) Examples.withAcme)
     = invoices Examples.withAcme.
Proof.
  split; [reflexivity|].
  apply (submitInvoiceForm_rejected Examples.rt MoreExamples.dayOf None
           MoreExamples.lateForm Examples.withAcme).
  reflexivity.
Defined.

(** X17.  A tax rate of [NaN], which the form holds after its tax field
    was emptied, passes [validateForm]; the invoice created from such a
    form has [NaN] as tax amount and as total amount. *)
Theorem submitInvoiceForm_NaN_tax rt (dateValue : string -> number)
    (f : InvoiceFormState.t) (st : AppState) (c : Customer.t) :
  InvoiceFormState.taxRate f = NaN ->
  invoiceFormOk (validateForm dateValue f) = true ->
  findCustomerById (customers st) (InvoiceFormState.customerId f) = Some c ->
  let st' := exec (submitInvoiceForm rt dateValue None f) st in
  exists inv,
    invoices st' = invoices st ++ [inv]
    /\ eval (submitInvoiceForm rt dateValue None f) st
       = Some ("/invoices/" ++ Invoice.id inv)%string
    /\ Invoice.items inv = InvoiceFormState.items f
    /\ Invoice.taxAmount inv = NaN
    /\ Invoice.totalAmount inv = NaN.
Proof.
  intros Hrate Hok Hc. cbv zeta.
  set (d := {| NewInvoiceData.customerId := InvoiceFormState.customerId f;
               NewInvoiceData.invoiceDate := InvoiceFormState.invoiceDate f;
               NewInvoiceData.dueDate := InvoiceFormState.dueDate f;
               NewInvoiceData.taxRate := InvoiceFormState.taxRate f;
               NewInvoiceData.notes := Some (InvoiceFormState.notes f);
               NewInvoiceData.supplied_status := None |}).
  destruct (addInvoice_found rt d (InvoiceFormState.items f) st c Hc)
    as (inv & Hr & Hi & _ & _ & Hid & _ & Hitems & _ & Htax & Htot & _).
  exists inv.
  assert (Hrun : submitInvoiceForm rt dateValue None f st
                 = (Some ("/invoices/" ++ Invoice.id inv)%string,
                    exec (addInvoice rt d (InvoiceFormState.items f)) st)).
  { unfold submitInvoiceForm. rewrite Hok. cbn [negb]. fold d.
    unfold bind, exec, eval in *.
    destruct (addInvoice rt d (InvoiceFormState.items f) st) as [r st1].
    cbn [fst snd] in *. subst r. rewrite Hid, invoice_id_nonempty. reflexivity. }
  unfold exec at 1, eval. rewrite Hrun. cbn [fst snd].
  split; [exact Hi|]. split; [reflexivity|]. split; [exact Hitems|].
  unfold calculateInvoiceTotals in Htax, Htot.
  cbn [Totals.taxAmount Totals.totalAmount NewInvoiceData.taxRate d] in Htax, Htot.
  rewrite Hrate, mul_NaN in Htax. rewrite Hrate, mul_NaN, add_NaN in Htot.
  split; assumption.
Qed.

Lemma submitInvoiceForm_NaN_tax_witness :
  invoiceFormOk (validateForm MoreExamples.dayOf (MoreExamples.invoiceForm NaN))
  = true
  /\ exists inv,
       invoices (exec (submitInvoiceForm Examples.rt MoreExamples.dayOf None
                         (MoreExamples.invoiceForm NaN)) Examples.withAcme)
       = [inv]
       /\ Invoice.totalAmount inv = NaN.
Proof.
  split; [reflexivity|].
  destruct (submitInvoiceForm_NaN_tax Examples.rt MoreExamples.dayOf
              (MoreExamples.invoiceForm NaN) Examples.withAcme Examples.acmeRecord
              eq_refl eq_refl eq_refl)
    as (inv & Hi & _ & _ & _ & Ht).
  exists inv. split; [exact Hi | exact Ht].
Defined.

(** X18.  Settings that [validateSettings] accepts have a prefix that is
    not blank, a counter that is a number and at least 1, and a default
    tax rate that is a number between 0 and 1. *)
Theorem validateSettings_accepts (cs : AppSettings.t) :
  settingsOk (validateSettings cs) = true ->
  Text.isBlank (AppSettings.invoicePrefix cs) = false
  /\ AppSettings.invoicePrefix cs <> ""
  /\ isNaN (AppSettings.nextInvoiceNumber cs) = false
  /\ le one (AppSettings.nextInvoiceNumber cs) = true
  /\ isNaN (AppSettings.defaultTaxRate cs) = false
  /\ le zero (AppSettings.defaultTaxRate cs) = true
  /\ le (AppSettings.defaultTaxRate cs) one = true.
Proof.
  intros H. apply settingsOk_iff in H.
  destruct H as (Hp & Hn & Hn1 & Hr & Hr0 & Hr1).
  split; [exact Hp|]. split; [now apply isBlank_false_nonempty|].
  split; [exact Hn|]. split; [apply not_lt_le; [exact Hn | reflexivity | exact Hn1]|].
  split; [exact Hr|]. split.
  - apply not_lt_le; [exact Hr | reflexivity | exact Hr0].
  - apply not_lt_le; [reflexivity | exact Hr | exact Hr1].
Qed.

Lemma validateSettings_accepts_witness :
  settingsOk (validateSettings (MoreExamples.settingsFrom 120)) = true
  /\ le one (of_Z 120) = true.
Proof.
  split; [reflexivity|].
  apply (validateSettings_accepts (MoreExamples.settingsFrom 120)). reflexivity.
Defined.

(** X19.  Saving on the settings page stores the edited settings when they
    are valid and nothing otherwise, and touches neither customers nor
    invoices; so stored settings that are valid stay valid under every
    save. *)
Theorem handleSaveSettings_keeps_valid (cs : AppSettings.t) (st : AppState) :
  let st' := exec (handleSaveSettings cs) st in
  customers st' = customers st
  /\ invoices st' = invoices st
  /\ (settings st' = cs \/ settings st' = settings st)
  /\ (settingsOk (validateSettings cs) = false -> settings st' = settings st)
  /\ (settingsOk (validateSettings (settings st)) = true ->
      settingsOk (validateSettings (settings st')) = true).
Proof.
  cbv zeta.
  destruct (handleSaveSettings_effect cs st) as (Hc & Hi & _ & _ & Hs & _).
  rewrite Hs. split; [exact Hc|]. split; [exact Hi|].
  destruct (settingsOk (validateSettings cs)) eqn:E.
  - split; [left; reflexivity|]. split; [discriminate | intros _; exact E].
  - split; [right; reflexivity|]. split; [reflexivity | auto].
Qed.

Lemma handleSaveSettings_keeps_valid_witness :
  settings (exec (handleSaveSettings (MoreExamples.settingsFrom 0)) Examples.withAcme)
  = DEFAULT_SETTINGS
  /\ settingsOk (validateSettings
       (settings (exec (handleSaveSettings (MoreExamples.settingsFrom 0))
                       Examples.withAcme))) = true.
Proof.
  destruct (handleSaveSettings_keeps_valid (MoreExamples.settingsFrom 0)
              Examples.withAcme) as (_ & _ & _ & Hbad & Hinv).
  split.
  - rewrite Hbad; reflexivity.
  - apply Hinv. reflexivity.
Defined.

(** X20.  For valid settings the preview on the settings page is the id
    that the next invoice gets once these settings are saved, provided the
    year has not changed between the two clock readings. *)
Theorem previewNextId_agrees rt (cs : AppSettings.t) (st : AppState) :
  settingsOk (validateSettings cs) = true ->
  Date.getFullYear (reading st 0) = Date.getFullYear (reading st 1) ->
  let st1 := exec (previewNextId rt cs) st in
  let st2 := exec (handleSaveSettings cs) st1 in
  eval (getNextInvoiceId rt) st2 = eval (previewNextId rt cs) st.
Proof.
  intros Hok Hyear. cbv zeta.
  destruct (validateSettings_sound cs Hok) as (Hprefix & Htruthy).
  unfold handleSaveSettings. rewrite Hok. cbn [negb].
  unfold previewNextId, getNextInvoiceId, reading in *.
  unfold Text.orElse. rewrite Hprefix, Htruthy. handler.
  rewrite Nat.add_0_r, Nat.add_1_r in Hyear. rewrite Hyear. reflexivity.
Qed.

Lemma previewNextId_agrees_witness :
  eval (previewNextId Examples.rt (MoreExamples.settingsFrom 120)) Examples.withAcme
  = "BILL-2024-0120"
  /\ eval (getNextInvoiceId Examples.rt)
          (exec (handleSaveSettings (MoreExamples.settingsFrom 120))
                (exec (previewNextId Examples.rt (MoreExamples.settingsFrom 120))
                      Examples.withAcme))
     = "BILL-2024-0120".
Proof.
  assert (H : eval (previewNextId Examples.rt (MoreExamples.settingsFrom 120))
                   Examples.withAcme = "BILL-2024-0120") by (vm_compute; reflexivity).
  split; [exact H|]. rewrite <- H.
  apply (previewNextId_agrees Examples.rt (MoreExamples.settingsFrom 120)
           Examples.withAcme); reflexivity.
Defined.

(** X21.  Invoice ids are not unique: when the settings in force before
    a creation are saved again after it, the next creation in the same
    year returns the id of the first, and the registry then holds two
    invoices with that id. *)
Theorem counter_reset_repeats_id rt (d1 d2 : NewInvoiceData.t)
    (items1 items2 : list InvoiceItem.t) (st : AppState) (c1 c2 : Customer.t) :
  findCustomerById (customers st) (NewInvoiceData.customerId d1) = Some c1 ->
  findCustomerById (customers st) (NewInvoiceData.customerId d2) = Some c2 ->
  settingsOk (validateSettings (settings st)) = true ->
  Date.getFullYear (reading st 0) = Date.getFullYear (reading st 3) ->
  let st1 := exec (addInvoice rt d1 items1) st in
  let st2 := exec (handleSaveSettings (settings st)) st1 in
  let st3 := exec (addInvoice rt d2 items2) st2 in
  exists inv1 inv2,
    invoices st3 = invoices st ++ [inv1; inv2]
    /\ eval (addInvoice rt d1 items1) st = Some (Invoice.id inv1)
    /\ eval (addInvoice rt d2 items2) st2 = Some (Invoice.id inv2)
    /\ Invoice.id inv1 = Invoice.id inv2
    /\ Invoice.items inv1 = items1
    /\ Invoice.items inv2 = items2.
Proof.
  intros Hc1 Hc2 Hok Hyear. cbv zeta.
  destruct (addInvoice_found rt d1 items1 st c1 Hc1)
    as (inv1 & Hr1 & Hi1 & Hcs1 & _ & Hid1 & _ & Hit1 & _).
  destruct (addInvoice_world rt d1 items1 st c1 Hc1) as (Hclock1 & Hreads1).
  set (st1 := exec (addInvoice rt d1 items1) st) in *.
  destruct (handleSaveSettings_effect (settings st) st1)
    as (Hcs2 & Hi2 & Hclock2 & Hreads2 & Hs2 & _).
  rewrite Hok in Hs2.
  set (st2 := exec (handleSaveSettings (settings st)) st1) in *.
  assert (Hc2' : findCustomerById (customers st2) (NewInvoiceData.customerId d2)
                 = Some c2) by (rewrite Hcs2, Hcs1; exact Hc2).
  destruct (addInvoice_found rt d2 items2 st2 c2 Hc2')
    as (inv2 & Hr2 & Hi3 & _ & _ & Hid2 & _ & Hit2 & _).
  exists inv1, inv2. rewrite Hi3, Hi2, Hi1, <- app_assoc.
  split; [reflexivity|]. split; [exact Hr1|]. split; [exact Hr2|].
  split; [|split; assumption].
  rewrite Hid1, Hid2, Hs2. unfold reading in Hyear |- *.
  rewrite Hclock2, Hreads2, Hclock1, Hreads1.
  rewrite !Nat.add_0_r. rewrite Nat.add_0_r in Hyear.
  rewrite <- Hyear. reflexivity.
Qed.

Lemma counter_reset_repeats_id_witness :
  map Invoice.id
    (invoices
       (exec (addInvoice Examples.rt (Examples.draftFor Examples.acmeId)
                         [Examples.gadget])
             (exec (handleSaveSettings (settings Examples.withAcme))
                   (exec (addInvoice Examples.rt (Examples.draftFor Examples.acmeId)
                                     [Examples.widget]) Examples.withAcme))))
  = ["INV-2024-0001"; "INV-2024-0001"].
Proof.
  destruct (counter_reset_repeats_id Examples.rt
              (Examples.draftFor Examples.acmeId) (Examples.draftFor Examples.acmeId)
              [Examples.widget] [Examples.gadget] Examples.withAcme
              Examples.acmeRecord Examples.acmeRecord
              eq_refl eq_refl eq_refl eq_refl)
    as (inv1 & inv2 & Hi & Hr1 & _ & Hid & _).
  rewrite Hi. change (invoices Examples.withAcme) with (@nil Invoice.t).
  cbn [app map].
  assert (E : Some (Invoice.id inv1) = Some "INV-2024-0001")
    by (rewrite <- Hr1; vm_compute; reflexivity).
  injection E as E.
  rewrite <- Hid, E. reflexivity.
Defined.

(** ** The customer form, phone numbers and e-mail addresses *)

Module TextFacts.

Import Text PageSpec.

Lemma list_string_inv cs : list_ascii_of_string (string_of_list_ascii cs) = cs.
Proof. apply list_ascii_of_string_of_list_ascii. Qed.

Lemma keepDigits_idem cs : keepDigits (keepDigits cs) = keepDigits cs.
Proof.
  unfold keepDigits. induction cs as [|c cs IH]; cbn [filter]; [reflexivity|].
  destruct (isDigit c) eqn:E; cbn [filter]; [rewrite E; f_equal|]; exact IH.
Qed.

Lemma keepDigits_all cs : forallb isDigit (keepDigits cs) = true.
Proof.
  unfold keepDigits. induction cs as [|c cs IH]; cbn [filter forallb]; [reflexivity|].
  destruct (isDigit c) eqn:E; cbn [forallb]; [rewrite E|]; exact IH.
Qed.

Lemma plus_no_digit : isDigit "+"%char = false.
Proof. reflexivity. Qed.

(** The cases of [cleanPhone]. *)
Lemma cleanPhone_cases s :
  (exists rest, s = String "+"%char rest
     /\ cleanPhone s
        = String "+"%char (string_of_list_ascii (keepDigits (list_ascii_of_string rest))))
  \/ ((forall rest, s <> String "+"%char rest)
      /\ cleanPhone s = string_of_list_ascii (keepDigits (list_ascii_of_string s))).
Proof.
  destruct s as [|c rest]; [right; split; [discriminate | reflexivity]|].
  destruct (Ascii.eqb c "+"%char) eqn:E.
  - apply Ascii.eqb_eq in E. subst c. left. exists rest. split; reflexivity.
  - right. apply Ascii.eqb_neq in E. split.
    + intros r H. inversion H. contradiction.
    + unfold cleanPhone.
      destruct c as [[] [] [] [] [] [] [] []]; try reflexivity.
      exfalso. apply E. reflexivity.
Qed.

Lemma digits_no_plus cs rest :
  string_of_list_ascii (keepDigits cs) <> String "+"%char rest.
Proof.
  unfold keepDigits. induction cs as [|c cs IH]; cbn [filter]; [discriminate|].
  destruct (isDigit c) eqn:E; [|exact IH].
  cbn [string_of_list_ascii]. intros H. inversion H. subst c. discriminate E.
Qed.

Lemma splitAtSign_count cs before after :
  splitAtSign cs = (before, Some after) ->
  forallb emailChar after = true ->
  List.length (filter (fun x => (x =? "@")%char) cs) = 1%nat.
Proof.
  revert before. induction cs as [|c cs IH]; intros before H Hafter;
    cbn [splitAtSign] in H; [discriminate|].
  cbn [filter]. destruct (c =? "@")%char eqn:E.
  - inversion H; subst. cbn [List.length]. f_equal.
    clear - Hafter. induction after as [|a after IH]; [reflexivity|].
    cbn [forallb filter] in *. apply andb_true_iff in Hafter.
    destruct Hafter as [Ha Hrest]. unfold emailChar in Ha.
    apply andb_true_iff in Ha. destruct Ha as [_ Ha].
    apply negb_true_iff in Ha. rewrite Ha. exact (IH Hrest).
  - destruct (splitAtSign cs) as [b a]. inversion H; subst.
    eapply IH; [reflexivity | exact Hafter].
Qed.

Lemma emailChar_no_space cs :
  forallb emailChar cs = true -> existsb isSpace cs = false.
Proof.
  induction cs as [|c cs IH]; cbn [forallb existsb]; [reflexivity|].
  intros H. apply andb_true_iff in H. destruct H as [Hc Hrest].
  unfold emailChar in Hc. apply andb_true_iff in Hc. destruct Hc as [Hs _].
  apply negb_true_iff in Hs. rewrite Hs. exact (IH Hrest).
Qed.

Lemma splitAtSign_app cs before after :
  splitAtSign cs = (before, Some after) -> cs = before ++ "@"%char :: after.
Proof.
  revert before. induction cs as [|c cs IH]; intros before H;
    cbn [splitAtSign] in H; [discriminate|].
  destruct (c =? "@")%char eqn:E.
  - inversion H; subst. apply Ascii.eqb_eq in E. subst c. reflexivity.
  - destruct (splitAtSign cs) as [b a]. inversion H; subst.
    cbn [app]. f_equal. apply IH. reflexivity.
Qed.

End TextFacts.

Import Text TextFacts.

Module PlusFacts.

Lemma startsWithPlus_true s :
  startsWithPlus s = true <-> exists rest, s = String "+"%char rest.
Proof.
  destruct s as [|c rest]; cbn [startsWithPlus].
  - split; [discriminate | intros [r H]; discriminate H].
  - rewrite Ascii.eqb_eq. split.
    + intros ->. exists rest. reflexivity.
    + intros [r H]. inversion H. reflexivity.
Qed.

Lemma startsWithPlus_false s :
  (forall rest, s <> String "+"%char rest) -> startsWithPlus s = false.
Proof.
  intros H. destruct (startsWithPlus s) eqn:E; [|reflexivity].
  apply startsWithPlus_true in E. destruct E as [rest E].
  exfalso. exact (H rest E).
Qed.

End PlusFacts.

Import PlusFacts.

(** X22.  The phone number put into the WhatsApp link is the digits of
    the stored number in their order, with a ['+'] in front exactly when
    the stored number starts with one; cleaning it again changes
    nothing. *)
Theorem cleanPhone_digits (s : string) :
  let ds := keepDigits (list_ascii_of_string s) in
  forallb isDigit ds = true
  /\ cleanPhone s
     = (if startsWithPlus s then String "+"%char (string_of_list_ascii ds)
        else string_of_list_ascii ds)
  /\ startsWithPlus (cleanPhone s) = startsWithPlus s
  /\ keepDigits (list_ascii_of_string (cleanPhone s)) = ds
  /\ cleanPhone (cleanPhone s) = cleanPhone s.
Proof.
  cbv zeta. split; [apply keepDigits_all|].
  destruct (cleanPhone_cases s) as [(rest & -> & E)|(Hno & E)]; rewrite E.
  - cbn [startsWithPlus list_ascii_of_string keepDigits filter].
    rewrite plus_no_digit, Ascii.eqb_refl. fold (keepDigits (list_ascii_of_string rest)).
    split; [reflexivity|]. split; [reflexivity|]. split.
    + rewrite list_string_inv. apply keepDigits_idem.
    + cbn [cleanPhone]. rewrite list_string_inv, keepDigits_idem. reflexivity.
  - rewrite (startsWithPlus_false s Hno).
    split; [reflexivity|]. split; [|split].
    + apply startsWithPlus_false. intros rest. apply digits_no_plus.
    + rewrite list_string_inv. apply keepDigits_idem.
    + destruct (cleanPhone_cases
                  (string_of_list_ascii (keepDigits (list_ascii_of_string s))))
        as [(rest & H & _)|(_ & ->)].
      * exfalso. exact (digits_no_plus _ _ H).
      * rewrite list_string_inv, keepDigits_idem. reflexivity.
Qed.

(** X23.  An e-mail address that the customer form accepts has exactly
    one ['@'], something before it, no white space, and after the ['@'] a
    ['.'] that is neither the first nor the last character. *)
Theorem emailPattern_shape (s : string) :
  emailPattern s = true ->
  PageSpec.countChar "@"%char s = 1%nat
  /\ existsb isSpace (list_ascii_of_string s) = false
  /\ exists before after,
       list_ascii_of_string s = before ++ "@"%char :: after
       /\ before <> []
       /\ innerDot after = true.
Proof.
  unfold emailPattern, PageSpec.countChar.
  destruct (splitAtSign (list_ascii_of_string s)) as [before [after|]] eqn:E;
    [|destruct before; discriminate].
  destruct before as [|b before]; [discriminate|].
  intros H. apply andb_true_iff in H. destruct H as [H Hdot].
  apply andb_true_iff in H. destruct H as [Hb Ha].
  pose proof (splitAtSign_app _ _ _ E) as Happ.
  split; [eapply splitAtSign_count; eassumption|]. split.
  - rewrite Happ, existsb_app, (emailChar_no_space _ Hb).
    cbn [existsb orb]. rewrite (emailChar_no_space _ Ha). reflexivity.
  - exists (b :: before), after. split; [exact Happ|]. split; [discriminate | exact Hdot].
Qed.

Lemma emailPattern_shape_witness :
  emailPattern "billing@acme.example" = true
  /\ PageSpec.countChar "@"%char "billing@acme.example" = 1%nat.
Proof.
  split; [reflexivity|].
  apply (emailPattern_shape "billing@acme.example"). reflexivity.
Defined.

Module CustomerFormFacts.

Import Handler App Spec Pages Text FormFacts.

Lemma phonePattern_nonEmpty s : phonePattern s = true -> nonEmpty s = true.
Proof. destruct s as [|c rest]; [discriminate | reflexivity]. Qed.

Lemma orElse_nonEmpty s d : nonEmpty s = true -> orElse s d = s.
Proof. intros H. unfold orElse. rewrite H. reflexivity. Qed.

(** The customer form is accepted exactly when none of its checks
    fires. *)
Lemma customerFormOk_iff f :
  customerFormOk (validate f) = true <->
  isBlank (CustomerFormState.name f) = false
  /\ isBlank (CustomerFormState.phone f) = false
  /\ phonePattern (CustomerFormState.phone f) = true
  /\ (nonEmpty (CustomerFormState.email f) = true ->
      emailPattern (CustomerFormState.email f) = true)
  /\ (nonEmpty (CustomerFormState.whatsapp f) = true ->
      phonePattern (CustomerFormState.whatsapp f) = true).
Proof.
  unfold customerFormOk, validate.
  cbn [CustomerFormErrors.name CustomerFormErrors.phone
       CustomerFormErrors.email CustomerFormErrors.whatsapp].
  destruct (isBlank (CustomerFormState.name f));
    destruct (isBlank (CustomerFormState.phone f));
    destruct (phonePattern (CustomerFormState.phone f));
    destruct (nonEmpty (CustomerFormState.email f));
    destruct (emailPattern (CustomerFormState.email f));
    destruct (nonEmpty (CustomerFormState.whatsapp f));
    destruct (phonePattern (CustomerFormState.whatsapp f));
    cbn; split; intros H; try discriminate H; try reflexivity;
    try (destruct H as (H1 & H2 & H3 & H4 & H5);
         first [discriminate H1 | discriminate H2 | discriminate H3
               | discriminate (H4 eq_refl) | discriminate (H5 eq_refl)]);
    repeat split; intros; try reflexivity; try discriminate.
Qed.

Lemma exec_then_ret {A B} (m : M A) (x : B) st :
  exec (bind m (fun _ => ret x)) st = exec m st.
Proof. unfold exec, bind, ret. destruct (m st). reflexivity. Qed.

Lemma map_id_replace (u : Invoice.t) invs :
  map Invoice.id
    (map (fun inv => if (Invoice.id inv =? Invoice.id u)%string then u else inv)
         invs)
  = map Invoice.id invs.
Proof.
  rewrite map_map. apply map_ext. intros inv.
  destruct (String.eqb_spec (Invoice.id inv) (Invoice.id u)) as [E|E];
    [symmetry; exact E | reflexivity].
Qed.

End CustomerFormFacts.

Import CustomerFormFacts.

(** X24.  A customer form that passes validation with no customer being
    edited appends one customer with a drawn id, the name and phone of the
    form, and a WhatsApp number that matches the phone pattern (that of the
    form, or the phone when the field was left empty); for this customer
    sharing an invoice always finds a number to clean. *)
Theorem submitCustomerForm_creates (f : CustomerFormState.t) (st : AppState) :
  customerFormOk (validate f) = true ->
  let p := Text.orElse (CustomerFormState.whatsapp f) (CustomerFormState.phone f) in
  exists c,
    customers (exec (submitCustomerForm None f) st) = customers st ++ [c]
    /\ invoices (exec (submitCustomerForm None f) st) = invoices st
    /\ Customer.id c = nextDraw st
    /\ Customer.name c = CustomerFormState.name f
    /\ Customer.phone c = CustomerFormState.phone f
    /\ Customer.whatsapp c = Some p
    /\ Text.phonePattern p = true
    /\ cleanedPhone c = Some (Text.cleanPhone p).
Proof.
  intros Hok. cbv zeta. pose proof Hok as Hchecks.
  apply customerFormOk_iff in Hchecks.
  destruct Hchecks as (_ & _ & Hphone & _ & Hwhats).
  unfold submitCustomerForm. rewrite Hok. cbn [negb handleSaveCustomer].
  rewrite exec_then_ret.
  destruct (addCustomer_effect (customerDataOf f) st) as (Hc & Hi & _).
  eexists. split; [exact Hc|]. split; [exact Hi|].
  assert (Hp : Text.phonePattern
                 (Text.orElse (CustomerFormState.whatsapp f)
                              (CustomerFormState.phone f)) = true).
  { unfold Text.orElse.
    destruct (Text.nonEmpty (CustomerFormState.whatsapp f));
      [apply Hwhats; reflexivity | exact Hphone]. }
  cbn [Customer.id Customer.name Customer.phone Customer.whatsapp
       customerDataOf CustomerData.name CustomerData.phone CustomerData.whatsapp].
  repeat (split; [reflexivity|]). split; [exact Hp|].
  unfold cleanedPhone, targetPhone.
  cbn [Customer.whatsapp Customer.phone customerDataOf CustomerData.whatsapp
       CustomerData.phone].
  pose proof (phonePattern_nonEmpty _ Hp) as Hne.
  rewrite (orElse_nonEmpty _ (CustomerFormState.phone f) Hne), Hne. reflexivity.
Qed.

Lemma submitCustomerForm_creates_witness :
  exists c,
    customers (exec (submitCustomerForm None MoreExamples.acmeForm) Examples.withAcme)
    = customers Examples.withAcme ++ [c]
    /\ cleanedPhone c = Some "+15551112222".
Proof.
  destruct (submitCustomerForm_creates MoreExamples.acmeForm Examples.withAcme eq_refl)
    as (c & Hc & _ & _ & _ & _ & _ & _ & Hclean).
  exists c. split; [exact Hc | exact Hclean].
Defined.

(** X25.  A customer form with a blank name, a blank phone, a phone or a
    non-empty WhatsApp number that does not match the phone pattern, or a
    non-empty e-mail address that does not match the e-mail pattern is
    rejected: nothing is saved or notified, whether a customer is being
    edited or not, and the errors are not empty. *)
Theorem submitCustomerForm_rejected (customer : option Customer.t)
    (f : CustomerFormState.t) (st : AppState) :
  Text.isBlank (CustomerFormState.name f) = true
  \/ Text.isBlank (CustomerFormState.phone f) = true
  \/ Text.phonePattern (CustomerFormState.phone f) = false
  \/ (CustomerFormState.email f <> ""
      /\ Text.emailPattern (CustomerFormState.email f) = false)
  \/ (CustomerFormState.whatsapp f <> ""
      /\ Text.phonePattern (CustomerFormState.whatsapp f) = false) ->
  exec (submitCustomerForm customer f) st = st
  /\ customerFormOk (eval (submitCustomerForm customer f) st) = false.
Proof.
  intros Hbad.
  assert (E : customerFormOk (validate f) = false).
  { destruct (customerFormOk (validate f)) eqn:E; [|reflexivity].
    apply customerFormOk_iff in E. destruct E as (H1 & H2 & H3 & H4 & H5).
    destruct Hbad as [H|[H|[H|[[Hn H]|[Hn H]]]]].
    - rewrite H in H1. discriminate H1.
    - rewrite H in H2. discriminate H2.
    - rewrite H in H3. discriminate H3.
    - apply nonEmpty_true in Hn. rewrite (H4 Hn) in H. discriminate H.
    - apply nonEmpty_true in Hn. rewrite (H5 Hn) in H. discriminate H. }
  unfold submitCustomerForm. rewrite E. cbn [negb].
  split; [reflexivity | exact E].
Qed.

Lemma submitCustomerForm_rejected_witness :
  exec (submitCustomerForm (Some Examples.acmeRecord) MoreExamples.blankForm)
       Examples.withAcme
  = Examples.withAcme.
Proof.
  apply (submitCustomerForm_rejected (Some Examples.acmeRecord)
           MoreExamples.blankForm Examples.withAcme).
  left. reflexivity.
Defined.

(** X26.  Updating an invoice never changes the customers, the settings
    or the ids of the invoices in the registry, so neither their number
    nor their order; when the customer id does not resolve, the invoices
    themselves are unchanged and an error is notified, whether or not an
    invoice with the id exists. *)
Theorem updateInvoice_keeps_ids (d : InvoiceUpdate.t)
    (items : list InvoiceItem.t) (st : AppState) :
  customers (exec (updateInvoice d items) st) = customers st
  /\ settings (exec (updateInvoice d items) st) = settings st
  /\ map Invoice.id (invoices (exec (updateInvoice d items) st))
     = map Invoice.id (invoices st)
  /\ (findCustomerById (customers st) (InvoiceUpdate.customerId d) = None ->
      invoices (exec (updateInvoice d items) st) = invoices st
      /\ map Notification.type (notifications (exec (updateInvoice d items) st))
         = map Notification.type (notifications st) ++ [error]).
Proof.
  destruct (updateInvoice_frame d items st) as (Hc & Hs & Hfail).
  split; [exact Hc|]. split; [exact Hs|]. split.
  - destruct (findCustomerById (customers st) (InvoiceUpdate.customerId d))
      as [c|] eqn:Ec.
    + destruct (findInvoiceById (invoices st) (InvoiceUpdate.id d))
        as [orig|] eqn:Ei.
      * destruct (updateInvoice_found d items st c orig Ec Ei)
          as (u & Hu & Hid & _).
        rewrite Hu, <- Hid. apply map_id_replace.
      * destruct (Hfail (or_intror eq_refl)) as [-> _]. reflexivity.
    + destruct (Hfail (or_introl eq_refl)) as [-> _]. reflexivity.
  - intros Hnone. apply Hfail. left. exact Hnone.
Qed.

Lemma updateInvoice_keeps_ids_witness :
  invoices (exec (updateInvoice
                    (Examples.revision Examples.firstInvoiceId "nobody")
                    [Examples.gadget]) Examples.withInvoice)
  = invoices Examples.withInvoice.
Proof.
  apply (updateInvoice_keeps_ids
           (Examples.revision Examples.firstInvoiceId "nobody")
           [Examples.gadget] Examples.withInvoice).
  reflexivity.
Defined.

(** ** The dashboard *)

Module DashboardFacts.

Import Number NumberFacts Pages PageSpec.

Lemma amounts_nonneg invs : 0 <= sumInvoiceMagnitudes invs.
Proof.
  induction invs as [|i invs IH]; cbn [sumInvoiceMagnitudes fold_right]; [lia|].
  fold (sumInvoiceMagnitudes invs). lia.
Qed.

Lemma amounts_bound invs :
  Z.abs (sumInvoiceAmounts invs) <= sumInvoiceMagnitudes invs.
Proof.
  induction invs as [|i invs IH];
    cbn [sumInvoiceAmounts sumInvoiceMagnitudes fold_right]; [lia|].
  fold (sumInvoiceAmounts invs) (sumInvoiceMagnitudes invs). lia.
Qed.

(** Whole invoice totals add up exactly while the running sum stays below
    2^53. *)
Lemma revenue_from invs acc :
  Forall wholeInvoice invs ->
  Z.abs acc + sumInvoiceMagnitudes invs < 2 ^ 53 ->
  fold_left (fun sum inv => add sum (Invoice.totalAmount inv)) invs (of_Z acc)
  = of_Z (acc + sumInvoiceAmounts invs).
Proof.
  revert acc. induction invs as [|inv invs IH]; intros acc Hw Hb.
  - cbn [fold_left sumInvoiceAmounts fold_right]. now rewrite Z.add_0_r.
  - inversion Hw as [|? ? Hi Hrest]; subst.
    cbn [sumInvoiceMagnitudes fold_right] in Hb.
    fold (sumInvoiceMagnitudes invs) in Hb.
    pose proof (amounts_nonneg invs) as Hn.
    cbn [fold_left sumInvoiceAmounts fold_right]. fold (sumInvoiceAmounts invs).
    rewrite Hi, add_of_Z by lia.
    rewrite IH by (try assumption; lia). f_equal. lia.
Qed.

Lemma revenue_whole invs :
  Forall wholeInvoice invs -> sumInvoiceMagnitudes invs < 2 ^ 53 ->
  revenue invs = of_Z (sumInvoiceAmounts invs).
Proof.
  intros Hw Hb. unfold revenue. change zero with (of_Z 0).
  rewrite revenue_from by (try assumption; simpl; lia). reflexivity.
Qed.

(** Every status falls into exactly one bucket. *)
Lemma bucket_of inv :
  (statusIs Paid inv = true
   /\ statusIs Draft inv || statusIs Sent inv = false
   /\ statusIs Overdue inv = false)
  \/ (statusIs Paid inv = false
      /\ statusIs Draft inv || statusIs Sent inv = true
      /\ statusIs Overdue inv = false)
  \/ (statusIs Paid inv = false
      /\ statusIs Draft inv || statusIs Sent inv = false
      /\ statusIs Overdue inv = true).
Proof. unfold statusIs. destruct (Invoice.status inv); cbn; auto. Qed.

(** A sum over the invoices is the sum of the sums over the buckets. *)
Lemma buckets_sum (g : Invoice.t -> Z) invs :
  fold_right (fun inv acc => g inv + acc) 0 invs
  = fold_right (fun inv acc => g inv + acc) 0 (paidInvoices invs)
    + fold_right (fun inv acc => g inv + acc) 0 (pendingInvoices invs)
    + fold_right (fun inv acc => g inv + acc) 0 (overdueInvoices invs).
Proof.
  unfold paidInvoices, pendingInvoices, overdueInvoices.
  induction invs as [|inv invs IH]; [reflexivity|].
  cbn [filter fold_right].
  destruct (bucket_of inv) as [(-> & -> & ->)|[(-> & -> & ->)|(-> & -> & ->)]];
    cbn [fold_right]; lia.
Qed.

Lemma Forall_bucket (p : Invoice.t -> bool) invs :
  Forall wholeInvoice invs -> Forall wholeInvoice (filter p invs).
Proof.
  intros H. apply Forall_forall. intros inv Hin.
  apply filter_In in Hin. destruct Hin as [Hin _].
  rewrite Forall_forall in H. exact (H inv Hin).
Qed.

End DashboardFacts.

Import DashboardFacts.

(** X27.  The three status buckets of the dashboard are a partition of
    the invoices: taken together they are a rearrangement of the registry,
    each bucket in registry order, so their sizes add up to the number of
    invoices. *)
Theorem dashboard_buckets_partition (invs : list Invoice.t) :
  Permutation invs
    (paidInvoices invs ++ pendingInvoices invs ++ overdueInvoices invs)
  /\ (List.length (paidInvoices invs) + List.length (pendingInvoices invs)
      + List.length (overdueInvoices invs) = List.length invs)%nat.
Proof.
  assert (P : Permutation invs
                (paidInvoices invs ++ pendingInvoices invs ++ overdueInvoices invs)).
  { unfold paidInvoices, pendingInvoices, overdueInvoices.
    induction invs as [|inv invs IH]; [constructor|].
    cbn [filter].
    destruct (bucket_of inv) as [(-> & -> & ->)|[(-> & -> & ->)|(-> & -> & ->)]].
    - cbn [app]. constructor. exact IH.
    - apply Permutation_cons_app. exact IH.
    - rewrite !app_assoc. apply Permutation_cons_app.
      rewrite <- app_assoc. exact IH. }
  split; [exact P|].
  apply Permutation_length in P. rewrite !length_app in P. lia.
Qed.

(** X28.  When every invoice total is a whole number and the magnitudes
    of the totals add up to less than 2^53, the total revenue of the
    dashboard is the exact sum of the totals, and the paid, pending and
    overdue revenues add up to it. *)
Theorem dashboard_revenue_adds_up (invs : list Invoice.t) :
  Forall PageSpec.wholeInvoice invs ->
  PageSpec.sumInvoiceMagnitudes invs < 2 ^ 53 ->
  revenue invs = Number.of_Z (PageSpec.sumInvoiceAmounts invs)
  /\ Number.add
       (Number.add (revenue (paidInvoices invs)) (revenue (pendingInvoices invs)))
       (revenue (overdueInvoices invs))
     = revenue invs.
Proof.
  intros Hw Hb.
  pose proof (buckets_sum PageSpec.invoiceAmount invs) as Hsum.
  pose proof (buckets_sum (fun inv => Z.abs (PageSpec.invoiceAmount inv)) invs) as Hmag.
  cbv beta in Hmag.
  fold (PageSpec.sumInvoiceAmounts invs) in Hsum.
  fold (PageSpec.sumInvoiceAmounts (paidInvoices invs)) in Hsum.
  fold (PageSpec.sumInvoiceAmounts (pendingInvoices invs)) in Hsum.
  fold (PageSpec.sumInvoiceAmounts (overdueInvoices invs)) in Hsum.
  fold (PageSpec.sumInvoiceMagnitudes invs) in Hmag.
  fold (PageSpec.sumInvoiceMagnitudes (paidInvoices invs)) in Hmag.
  fold (PageSpec.sumInvoiceMagnitudes (pendingInvoices invs)) in Hmag.
  fold (PageSpec.sumInvoiceMagnitudes (overdueInvoices invs)) in Hmag.
  pose proof (amounts_nonneg (paidInvoices invs)).
  pose proof (amounts_nonneg (pendingInvoices invs)).
  pose proof (amounts_nonneg (overdueInvoices invs)).
  pose proof (amounts_bound (paidInvoices invs)).
  pose proof (amounts_bound (pendingInvoices invs)).
  pose proof (amounts_bound (overdueInvoices invs)).
  rewrite (revenue_whole invs Hw Hb).
  split; [reflexivity|].
  rewrite (revenue_whole (paidInvoices invs)) by (try apply Forall_bucket; try assumption; lia).
  rewrite (revenue_whole (pendingInvoices invs)) by (try apply Forall_bucket; try assumption; lia).
  rewrite (revenue_whole (overdueInvoices invs)) by (try apply Forall_bucket; try assumption; lia).
  rewrite !NumberFacts.add_of_Z by lia.
  f_equal. lia.
Qed.

Lemma dashboard_revenue_adds_up_witness :
  revenue MoreExamples.ledger = Number.of_Z 79
  /\ Number.add
       (Number.add (revenue (paidInvoices MoreExamples.ledger))
                   (revenue (pendingInvoices MoreExamples.ledger)))
       (revenue (overdueInvoices MoreExamples.ledger))
     = revenue MoreExamples.ledger.
Proof.
  assert (Hw : Forall PageSpec.wholeInvoice MoreExamples.ledger)
    by (repeat constructor).
  assert (Hb : PageSpec.sumInvoiceMagnitudes MoreExamples.ledger < 2 ^ 53)
    by reflexivity.
  destruct (dashboard_revenue_adds_up MoreExamples.ledger Hw Hb) as [H1 H2].
  split; [exact H1 | exact H2].
Defined.

(** ** Persistence *)

Module StorageFacts.

Import StorageService.

Lemma put_same store key item : put store key item key = Some item.
Proof. unfold put. rewrite String.eqb_refl. reflexivity. Qed.

Lemma put_other store key item key' :
  key' <> key -> put store key item key' = store key'.
Proof.
  intros H. unfold put. apply String.eqb_neq in H. rewrite H. reflexivity.
Qed.

Lemma setItem_other {Value} (stringify : Value -> string) accepts store key v key' :
  key' <> key -> setItem Value stringify accepts store key v key' = store key'.
Proof.
  intros H. unfold setItem.
  destruct (accepts store key (stringify v)); [apply put_other; exact H | reflexivity].
Qed.

End StorageFacts.

Import StorageService StorageFacts.

(** X29.  What [setItem] writes under a key is what [getItem] reads back
    under that key, provided the write is accepted, the written text is
    not empty and parses back to the value; under every other key [getItem]
    reads what it read before. *)
Theorem getItem_after_setItem {Value : Type} (parse : string -> option Value)
    (stringify : Value -> string) (accepts : Store -> string -> string -> bool)
    (store : Store) (key key' : string) (value defaultValue : Value) :
  accepts store key (stringify value) = true ->
  stringify value <> "" ->
  parse (stringify value) = Some value ->
  getItem Value parse (setItem Value stringify accepts store key value) key'
          defaultValue
  = if (key' =? key)%string then value
    else getItem Value parse store key' defaultValue.
Proof.
  intros Hacc Hne Hparse. unfold getItem.
  destruct (String.eqb_spec key' key) as [->|Hk].
  - unfold setItem. rewrite Hacc, put_same.
    apply FormFacts.nonEmpty_true in Hne. rewrite Hne, Hparse. reflexivity.
  - rewrite setItem_other by exact Hk. reflexivity.
Qed.

Lemma getItem_after_setItem_witness :
  getItem (list ascii) MoreExamples.parseDigits
          (setItem (list ascii) MoreExamples.printDigits MoreExamples.roomy
                   MoreExamples.emptyStore CUSTOMERS ["4"; "2"]%char)
          CUSTOMERS []
  = ["4"; "2"]%char.
Proof.
  apply (getItem_after_setItem MoreExamples.parseDigits MoreExamples.printDigits
           MoreExamples.roomy MoreExamples.emptyStore CUSTOMERS CUSTOMERS
           ["4"; "2"]%char []).
  - reflexivity.
  - discriminate.
  - reflexivity.
Defined.

(** X30.  The three documents are kept apart: saving the customers, the
    invoices or the settings, accepted or not, never changes what loading
    either of the other two returns. *)
Theorem saved_documents_independent {V W : Type} (parse : string -> option W)
    (stringify : V -> string) (accepts : Store -> string -> string -> bool)
    (store : Store) (v : V) (d : W) :
  let saved_customers := saveCustomers V stringify accepts store v in
  let saved_invoices := saveInvoices V stringify accepts store v in
  let saved_settings := saveSettings V stringify accepts store v in
  loadInvoices W parse saved_customers d = loadInvoices W parse store d
  /\ loadSettings W parse saved_customers d = loadSettings W parse store d
  /\ loadCustomers W parse saved_invoices d = loadCustomers W parse store d
  /\ loadSettings W parse saved_invoices d = loadSettings W parse store d
  /\ loadCustomers W parse saved_settings d = loadCustomers W parse store d
  /\ loadInvoices W parse saved_settings d = loadInvoices W parse store d.
Proof.
  cbv zeta.
  unfold loadCustomers, loadInvoices, loadSettings,
         saveCustomers, saveInvoices, saveSettings, getItem.
  repeat split; rewrite setItem_other by discriminate; reflexivity.
Qed.
